(** * simpleforce: error unifier, query engine and client state

    A shallow embedding of the Go package [simpleforce]: the client and its
    query engine, the error helpers ([errorHelpers.go]) and the tooling calls
    ([tooling.go]), the login handshake, the construction of a client, the
    downloads and [DescribeGlobal].

    Conventions.
    - A Go [string] and a Go [[]byte] are both sequences of bytes; both are
      [string] here (a list of 8-bit [ascii]), so [string(responseBody)] is the
      identity.
    - A Go [int] is a [Z]; no arithmetic is done on one, they are only
      compared and printed.
    - A Go [error] value that may be [nil] is an [option error].
    - A Go function returning [(T, error)] returns a pair; a function that can
      panic returns an [outcome].
    - [*Client] is an address into a heap of clients; methods with a pointer
      receiver run in a state monad over that heap and the list of HTTP
      requests put on the wire.
    - The [context.Context] argument and the zap logger only reach the
      transport and the log; they are left out. *)

From Stdlib Require Import ZArith Ascii String List Bool Lia.
From stdpp Require Import base option list strings gmap pretty sorting.

Set Warnings "-register-all".

Open Scope string_scope.

(** ** The pieces of the Go standard library the package calls *)

(** [strings] *)
Module strings.

Definition HasPrefix (s prefix : string) : bool := String.prefix prefix s.

(** [replace_from] walks [s]; [skip] counts the bytes of a match that are
    still to be dropped, [budget] the replacements left ([None]: no limit). *)
Fixpoint replace_from (s old new : string) (budget : option nat) (skip : nat)
  : string :=
  match s with
  | EmptyString => EmptyString
  | String c s' =>
      match skip with
      | S k => replace_from s' old new budget k
      | O =>
          match budget with
          | Some O => String c (replace_from s' old new budget O)
          | _ =>
              if String.prefix old s
              then new +:+ replace_from s' old new (pred <$> budget)
                                        (String.length old - 1)
              else String c (replace_from s' old new budget O)
          end
      end
  end.

(** [strings.Replace(s, old, new, n)] for a non-empty [old]: the first [n]
    non-overlapping instances are replaced, all of them when [n < 0].  (With
    an empty [old] Go inserts [new] around every rune; the package never
    does that, and [s] is returned as it is.) *)
Definition Replace (s old new : string) (n : Z) : string :=
  match old with
  | EmptyString => s
  | _ => replace_from s old new
           (if (n <? 0)%Z then None else Some (Z.to_nat n)) O
  end.

End strings.

(** [fmt] *)
Module fmt.

Inductive arg :=
| Str (s : string)
| Int (z : Z).

Definition type_name (a : arg) : string :=
  match a with Str _ => "string" | Int _ => "int" end.

Definition default_format (a : arg) : string :=
  match a with Str s => s | Int z => pretty z end.

(** What a verb prints for an operand: [%v] prints anything, [%s] a string,
    [%d] an integer; a verb given the other kind of operand prints Go's
    [%!verb(type=value)]. *)
Definition print_verb (verb : ascii) (a : arg) : string :=
  match verb, a with
  | "v"%char, _ => default_format a
  | "s"%char, Str s => s
  | "d"%char, Int z => pretty z
  | _, _ => "%!" +:+ String verb ("(" +:+ type_name a +:+ "="
              +:+ default_format a +:+ ")")
  end.

(** [fmt.Sprintf] for formats made of literal text, [%%] and the plain verbs
    [%v], [%s] and [%d] (no flags, widths or argument indexes: the package
    uses none).  A verb with no operand left prints [%!verb(MISSING)]. *)
Fixpoint Sprintf (format : string) (args : list arg) : string :=
  match format with
  | EmptyString => EmptyString
  | String "%" EmptyString => "%!(NOVERB)"
  | String "%" (String "%" rest) => String "%" (Sprintf rest args)
  | String "%" (String verb rest) =>
      match args with
      | [] => "%!" +:+ String verb ("(MISSING)" +:+ Sprintf rest [])
      | a :: args' => print_verb verb a +:+ Sprintf rest args'
      end
  | String c rest => String c (Sprintf rest args)
  end.

End fmt.

(** [net/url] *)
Module url.

Definition is_unreserved (c : ascii) : bool :=
  let n := N_of_ascii c in
  ((97 <=? n) && (n <=? 122) || (65 <=? n) && (n <=? 90)
   || (48 <=? n) && (n <=? 57))%N
  || if decide (c ∈ ["-"; "_"; "."; "~"]%char) then true else false.

Definition upperhex (n : N) : ascii :=
  match String.get (N.to_nat n) "0123456789ABCDEF" with
  | Some c => c
  | None => "0"%char
  end.

(** [url.QueryEscape]: letters, digits and [-_.~] stand for themselves, a
    space becomes [+], every other byte becomes [%XX]. *)
Fixpoint QueryEscape (s : string) : string :=
  match s with
  | EmptyString => EmptyString
  | String c s' =>
      if is_unreserved c then String c (QueryEscape s')
      else if Ascii.eqb c " " then String "+" (QueryEscape s')
      else
        let n := N_of_ascii c in
        String "%" (String (upperhex (n / 16)) (String (upperhex (n mod 16))
                                                       (QueryEscape s')))
  end.

End url.

(** ** Errors ([errorHelpers.go]) *)

Record SalesforceError := {
  Message : string;
  HttpCode : Z;
  ErrorCode : string;
  ErrorMessage : string;
}.

(** The dynamic types an [error] of this package can have: the [errors.New]
    sentinels, [SalesforceError], the result of [errors.Join], and the errors
    made by the libraries (transport, readers, decoders, request
    construction), which the package never inspects. *)
Inductive error :=
| errorString (text : string)
| salesforceError (e : SalesforceError)
| joinError (errs : list error)
| libraryError (text : string).

Module errors.

Definition New (text : string) : error := errorString text.

(** [errors.Join] drops the [nil] operands and returns [nil] when none is
    left. *)
Definition Join (errs : list (option error)) : option error :=
  match omap id errs with
  | [] => None
  | es => Some (joinError es)
  end.

(** The tree [errors.Is] walks: the error itself and, under a join, every
    joined error. *)
Fixpoint causes (e : error) : list error :=
  e :: match e with
       | joinError es => flat_map causes es
       | _ => []
       end.

End errors.

Definition ErrFailure : error := errors.New "general failure".
Definition ErrAuthentication : error := errors.New "authentication failure".
Definition ErrNoTypeIdClientOrId : error :=
  errors.New "sObject has no type id, client or id".
Definition ErrOidNotFound : error := errors.New "oid not found".

Definition logPrefix : string := "[simpleforce]".

(** [SalesforceError.Error] *)
Definition Error (err : SalesforceError) : string := Message err.

(** A Go call either returns or panics. *)
Inductive outcome (A : Type) :=
| Returns (a : A)
| Panics (reason : string).
Arguments Returns {A} a.
Arguments Panics {A} reason.

(** One element of [jsonError], and [xmlError]. *)
Record jsonErrorItem := { jsonMessage : string; jsonErrorCode : string }.
Definition jsonError := list jsonErrorItem.

Record xmlError := { xmlMessage : string; xmlErrorCode : string }.

(** [unicode/utf8], and bytes *)
Module utf8.

Definition byte (n : N) : ascii := ascii_of_N n.

(** The double quote. *)
Definition dquote : ascii := byte 34.

Definition in_range (lo hi : N) (c : ascii) : bool :=
  let n := N_of_ascii c in ((lo <=? n) && (n <=? hi))%N.

Definition hex_value (c : ascii) : option N :=
  let n := N_of_ascii c in
  if in_range 48 57 c then Some (n - 48)%N
  else if in_range 97 102 c then Some (n - 87)%N
  else if in_range 65 70 c then Some (n - 55)%N
  else None.

(** [utf8.EncodeRune]; a surrogate or a value past U+10FFFF is written as
    U+FFFD. *)
Definition encode_rune (r : N) : string :=
  let r := if ((55296 <=? r) && (r <=? 57343) || (1114111 <? r))%N
           then 65533%N else r in
  if (r <? 128)%N then String (byte r) ""
  else if (r <? 2048)%N then
    String (byte (192 + r / 64)) (String (byte (128 + r mod 64)) "")
  else if (r <? 65536)%N then
    String (byte (224 + r / 4096))
      (String (byte (128 + (r / 64) mod 64)) (String (byte (128 + r mod 64)) ""))
  else
    String (byte (240 + r / 262144))
      (String (byte (128 + (r / 4096) mod 64))
         (String (byte (128 + (r / 64) mod 64))
            (String (byte (128 + r mod 64)) ""))).

(** The size of the well-formed UTF-8 sequence [s] starts with, as
    [utf8.DecodeRune] accepts it; [None] where it returns [RuneError]. *)
Definition rune_size (s : string) : option nat :=
  let cont := in_range 128 191 in
  match s with
  | String b0 rest =>
      if in_range 0 127 b0 then Some 1
      else if in_range 194 223 b0 then
        match rest with
        | String b1 _ => if cont b1 then Some 2 else None
        | _ => None
        end
      else if in_range 224 239 b0 then
        match rest with
        | String b1 (String b2 _) =>
            let lo := if in_range 224 224 b0 then 160%N else 128%N in
            let hi := if in_range 237 237 b0 then 159%N else 191%N in
            if in_range lo hi b1 && cont b2 then Some 3 else None
        | _ => None
        end
      else if in_range 240 244 b0 then
        match rest with
        | String b1 (String b2 (String b3 _)) =>
            let lo := if in_range 240 240 b0 then 144%N else 128%N in
            let hi := if in_range 244 244 b0 then 143%N else 191%N in
            if in_range lo hi b1 && cont b2 && cont b3 then Some 4 else None
        | _ => None
        end
      else None
  | EmptyString => None
  end.

Definition replacement : string := encode_rune 65533.

(** The rune at the head of a well-formed sequence of [size] bytes. *)
Definition rune (s : string) (size : nat) : N :=
  let bits (c : ascii) (modulus : N) : N := (N_of_ascii c mod modulus)%N in
  match size, s with
  | 2%nat, String a (String b _) => (bits a 32 * 64 + bits b 64)%N
  | 3%nat, String a (String b (String c _)) =>
      ((bits a 16 * 64 + bits b 64) * 64 + bits c 64)%N
  | 4%nat, String a (String b (String c (String d _))) =>
      (((bits a 8 * 64 + bits b 64) * 64 + bits c 64) * 64 + bits d 64)%N
  | _, String a _ => N_of_ascii a
  | _, EmptyString => 0%N
  end.

End utf8.

(** ** [encoding/json] *)

(** [json.Unmarshal] first checks the whole input against the JSON grammar
    with a byte-at-a-time scanner, then decodes it into the target.  The
    scanner below is that push-down automaton; it also builds the syntax tree
    the decoders read.  A number keeps its literal text. *)
Module json.

Import utf8.

Inductive value :=
| JNull
| JBool (b : bool)
| JNumber (literal : string)
| JString (s : string)
| JArray (items : list value)
| JObject (members : list (string * value)).

(** *** String literals *)

(** [getu4]: the code unit of a [\uXXXX] escape at the head of [s]. *)
Definition getu4 (s : string) : option N :=
  match s with
  | String "\" (String "u" (String a (String b (String c (String d _))))) =>
      match hex_value a, hex_value b, hex_value c, hex_value d with
      | Some a, Some b, Some c, Some d =>
          Some (((a * 16 + b) * 16 + c) * 16 + d)%N
      | _, _, _, _ => None
      end
  | _ => None
  end.

(** One step of [unquoteBytes] at the head of [raw]: the bytes written and
    the number of bytes of [raw] consumed. *)
Definition unquote_unit (raw : string) : string * nat :=
  match raw with
  | EmptyString => ("", 1)
  | String "\" (String "u" after) =>
      match getu4 raw with
      | None => ("", 2)
      | Some rr =>
          if ((55296 <=? rr) && (rr <? 57344))%N then
            match getu4 (match after with
                         | String _ (String _ (String _ (String _ next))) => next
                         | _ => ""
                         end) with
            | Some rr1 =>
                if ((rr <? 56320) && (56320 <=? rr1) && (rr1 <? 57344))%N
                then (encode_rune ((rr - 55296) * 1024 + (rr1 - 56320) + 65536),
                      12)
                else (replacement, 6)
            | None => (replacement, 6)
            end
          else (encode_rune rr, 6)
      end
  | String "\" (String c _) =>
      (String (match c with
               | "b" => byte 8 | "f" => byte 12 | "n" => byte 10
               | "r" => byte 13 | "t" => byte 9 | _ => c
               end)%char "", 2)
  | String "\" EmptyString => ("", 1)
  | String c _ =>
      if in_range 0 127 c then (String c "", 1)
      else match rune_size raw with
           | Some n => (String.substring 0 n raw, n)
           | None => (replacement, 1)
           end
  end.

Fixpoint unquote_from (raw : string) (skip : nat) : string :=
  match raw with
  | EmptyString => EmptyString
  | String _ rest =>
      match skip with
      | S k => unquote_from rest k
      | O => let '(out, n) := unquote_unit raw in
             out +:+ unquote_from rest (n - 1)
      end
  end.

(** The Go string a literal stands for, given the text between its quotes. *)
Definition unquote (raw : string) : string := unquote_from raw 0.

(** *** The scanner *)

(** An open array or object: what it holds so far (latest first) and, in an
    object, the key whose value is awaited. *)
Inductive frame :=
| InArray (items : list value)
| InObject (members : list (string * value)) (key : option string).

Inductive escape := Plain | Backslash | Hex (seen : nat).

(** The states of a number literal, named as in [scanner.go]. *)
Inductive number_state := Neg | Zero | Digits | Dot | Dot0 | Exp | ExpSign | Exp0.

Inductive state :=
| BeginValue
| BeginValueOrEmpty
| BeginStringOrEmpty
| BeginString
| InString (raw_rev : string) (esc : escape)
| InNumber (ns : number_state) (literal_rev : string)
| InLiteral (rest : string) (v : value)
| EndValue
| EndTop (v : value).

Record machine := { stack : list frame; depth : N; st : state }.

Definition maxNestingDepth : N := 10000.

Definition is_space (c : ascii) : bool :=
  if decide (c ∈ [" "; byte 9; byte 13; byte 10]%char) then true else false.

(** A value is complete: it is the document, an array item, or the value of
    the pending key. *)
Definition complete (v : value) (stk : list frame) (d : N) : option machine :=
  match stk with
  | [] => Some {| stack := []; depth := d; st := EndTop v |}
  | InArray items :: stk' =>
      Some {| stack := InArray (v :: items) :: stk'; depth := d; st := EndValue |}
  | InObject members (Some k) :: stk' =>
      Some {| stack := InObject ((k, v) :: members) None :: stk'; depth := d;
              st := EndValue |}
  | InObject _ None :: _ => None
  end.

Definition push (f : frame) (s : state) (m : machine) : option machine :=
  if (maxNestingDepth <=? depth m)%N then None
  else Some {| stack := f :: stack m; depth := depth m + 1; st := s |}.

Definition begin_value (c : ascii) (m : machine) : option machine :=
  let go s := Some {| stack := stack m; depth := depth m; st := s |} in
  if is_space c then Some m
  else if Ascii.eqb c dquote then go (InString "" Plain)
  else match c with
       | "{" => push (InObject [] None) BeginStringOrEmpty m
       | "[" => push (InArray []) BeginValueOrEmpty m
       | "-" => go (InNumber Neg "-")
       | "0" => go (InNumber Zero "0")
       | "t" => go (InLiteral "rue" (JBool true))
       | "f" => go (InLiteral "alse" (JBool false))
       | "n" => go (InLiteral "ull" JNull)
       | _ => if in_range 49 57 c then go (InNumber Digits (String c ""))
              else None
       end%char.

Definition begin_string (c : ascii) (m : machine) : option machine :=
  if is_space c then Some m
  else if Ascii.eqb c dquote then
    Some {| stack := stack m; depth := depth m; st := InString "" Plain |}
  else None.

(** After a value inside a container, or after a key. *)
Definition end_value (c : ascii) (m : machine) : option machine :=
  let go stk s := Some {| stack := stk; depth := depth m; st := s |} in
  if is_space c then Some m
  else match stack m, c with
       | InObject members (Some k) :: stk, ":" => go (stack m) BeginValue
       | InObject members None :: stk, "," => go (stack m) BeginString
       | InObject members None :: stk, "}" =>
           complete (JObject (rev members)) stk (depth m - 1)
       | InArray items :: stk, "," => go (stack m) BeginValue
       | InArray items :: stk, "]" =>
           complete (JArray (rev items)) stk (depth m - 1)
       | _, _ => None
       end%char.

Definition end_top (c : ascii) (m : machine) : option machine :=
  if is_space c then Some m else None.

(** A string literal ends: it is a key when the object on top awaits one. *)
Definition end_string (raw_rev : string) (m : machine) : option machine :=
  let s := unquote (String.rev raw_rev) in
  match stack m with
  | InObject members None :: stk =>
      Some {| stack := InObject members (Some s) :: stk; depth := depth m;
              st := EndValue |}
  | _ => complete (JString s) (stack m) (depth m)
  end.

Definition in_string (raw_rev : string) (esc : escape) (c : ascii) (m : machine)
  : option machine :=
  let go e := Some {| stack := stack m; depth := depth m;
                      st := InString (String c raw_rev) e |} in
  match esc with
  | Plain =>
      if Ascii.eqb c dquote then end_string raw_rev m
      else if Ascii.eqb c "\" then go Backslash
      else if in_range 0 31 c then None
      else go Plain
  | Backslash =>
      if decide (c ∈ ["b"; "f"; "n"; "r"; "t"; "\"; "/"; dquote]%char) then go Plain
      else if Ascii.eqb c "u" then go (Hex 0)
      else None
  | Hex seen =>
      match hex_value c with
      | Some _ => go (if decide (seen = 3) then Plain else Hex (S seen))
      | None => None
      end
  end.

(** A number literal: [Some (inl ns)] goes on with [c], [Some (inr tt)] ends
    before [c], [None] is a syntax error. *)
Definition number_step (ns : number_state) (c : ascii)
  : option (number_state + unit) :=
  let digit := in_range 48 57 c in
  let e := Ascii.eqb c "e" || Ascii.eqb c "E" in
  match ns with
  | Neg => if Ascii.eqb c "0" then Some (inl Zero)
           else if in_range 49 57 c then Some (inl Digits) else None
  | Digits => if digit then Some (inl Digits)
              else if Ascii.eqb c "." then Some (inl Dot)
              else if e then Some (inl Exp) else Some (inr tt)
  | Zero => if Ascii.eqb c "." then Some (inl Dot)
            else if e then Some (inl Exp) else Some (inr tt)
  | Dot => if digit then Some (inl Dot0) else None
  | Dot0 => if digit then Some (inl Dot0)
            else if e then Some (inl Exp) else Some (inr tt)
  | Exp => if Ascii.eqb c "+" || Ascii.eqb c "-" then Some (inl ExpSign)
           else if digit then Some (inl Exp0) else None
  | ExpSign => if digit then Some (inl Exp0) else None
  | Exp0 => if digit then Some (inl Exp0) else Some (inr tt)
  end.

(** One byte. *)
Definition step (m : machine) (c : ascii) : option machine :=
  match st m with
  | BeginValue => begin_value c m
  | BeginValueOrEmpty =>
      if Ascii.eqb c "]" then
        match stack m with
        | InArray items :: stk => complete (JArray (rev items)) stk (depth m - 1)
        | _ => None
        end
      else begin_value c m
  | BeginStringOrEmpty =>
      if Ascii.eqb c "}" then
        match stack m with
        | InObject members None :: stk =>
            complete (JObject (rev members)) stk (depth m - 1)
        | _ => None
        end
      else begin_string c m
  | BeginString => begin_string c m
  | InString raw_rev esc => in_string raw_rev esc c m
  | InNumber ns literal_rev =>
      match number_step ns c with
      | Some (inl ns') =>
          Some {| stack := stack m; depth := depth m;
                  st := InNumber ns' (String c literal_rev) |}
      | Some (inr _) =>
          match complete (JNumber (String.rev literal_rev)) (stack m) (depth m) with
          | Some m' =>
              match st m' with
              | EndTop _ => end_top c m'
              | _ => end_value c m'
              end
          | None => None
          end
      | None => None
      end
  | InLiteral rest v =>
      match rest with
      | String c' rest' =>
          if Ascii.eqb c c' then
            match rest' with
            | EmptyString => complete v (stack m) (depth m)
            | _ => Some {| stack := stack m; depth := depth m;
                           st := InLiteral rest' v |}
            end
          else None
      | EmptyString => None
      end
  | EndValue => end_value c m
  | EndTop _ => end_top c m
  end.

Fixpoint scan (m : machine) (data : string) : option machine :=
  match data with
  | EmptyString => Some m
  | String c data' =>
      match step m c with
      | Some m' => scan m' data'
      | None => None
      end
  end.

(** At the end of the input a pending number is closed by a space, as
    [scanner.eof] does; anything but a complete document is an error. *)
Definition parse (data : string) : option value :=
  match scan {| stack := []; depth := 0; st := BeginValue |} data with
  | Some m =>
      match st m with
      | EndTop v => Some v
      | _ => match step m " " with
             | Some {| st := EndTop v |} => Some v
             | _ => None
             end
      end
  | None => None
  end.

(** *** Decoding into Go values *)

(** A type mismatch does not stop the decoder: it keeps the first one
    ([d.saveError]) and goes on; [Unmarshal] returns it at the end.  The
    texts of the errors are abridged. *)
Definition SyntaxError : error := libraryError "json: syntax error".

Definition kind_name (v : value) : string :=
  match v with
  | JNull => "null"
  | JBool _ => "bool"
  | JNumber literal => "number " +:+ literal
  | JString _ => "string"
  | JArray _ => "array"
  | JObject _ => "object"
  end.

Definition UnmarshalTypeError (v : value) (type : string) : error :=
  libraryError ("json: cannot unmarshal " +:+ kind_name v
                +:+ " into Go value of type " +:+ type).

Definition saveError (saved new : option error) : option error :=
  match saved with
  | Some _ => saved
  | None => new
  end.

(** Into a [string]: [null] leaves the target as it is. *)
Definition into_string (target : string) (v : value) : string * option error :=
  match v with
  | JString s => (s, None)
  | JNull => (target, None)
  | _ => (target, Some (UnmarshalTypeError v "string"))
  end.

Definition into_bool (target : bool) (v : value) : bool * option error :=
  match v with
  | JBool b => (b, None)
  | JNull => (target, None)
  | _ => (target, Some (UnmarshalTypeError v "bool"))
  end.

Fixpoint digits_value (s : string) (acc : Z) : option Z :=
  match s with
  | EmptyString => Some acc
  | String c s' =>
      if in_range 48 57 c
      then digits_value s' (acc * 10 + (Z.of_N (N_of_ascii c) - 48))%Z
      else None
  end.

(** [strconv.ParseInt(literal, 10, 64)] on the literal of a JSON number: a
    fraction or an exponent is an error, and so is a value outside of
    [int64]. *)
Definition ParseInt (literal : string) : option Z :=
  let n := match literal with
           | String "-" s' => Z.opp <$> digits_value s' 0
           | _ => digits_value literal 0
           end in
  match n with
  | Some z => if ((- 2 ^ 63 <=? z) && (z <? 2 ^ 63))%Z then Some z else None
  | None => None
  end.

Definition into_int (target : Z) (v : value) : Z * option error :=
  match v with
  | JNumber literal =>
      match ParseInt literal with
      | Some z => (z, None)
      | None => (target, Some (UnmarshalTypeError v "int"))
      end
  | JNull => (target, None)
  | _ => (target, Some (UnmarshalTypeError v "int"))
  end.

(** The folded form of an object key, [foldName]: ASCII letters in upper
    case, and the two letters outside ASCII that fold into it (U+017F to [S],
    U+212A to [K]).  Other bytes are kept: the field names are ASCII, so
    whether a key folds to one of them does not depend on those. *)
Fixpoint foldName (s : string) : string :=
  match s with
  | EmptyString => EmptyString
  | String c rest =>
      if in_range 97 122 c
      then String (byte (N_of_ascii c - 32)) (foldName rest)
      else
        match rest with
        | String c1 rest' =>
            if in_range 197 197 c && in_range 191 191 c1
            then String "S" (foldName rest')
            else
              match rest' with
              | String c2 rest'' =>
                  if in_range 226 226 c && in_range 132 132 c1
                     && in_range 170 170 c2
                  then String "K" (foldName rest'')
                  else String c (foldName rest)
              | EmptyString => String c (foldName rest)
              end
        | EmptyString => String c (foldName rest)
        end
  end.

(** The field an object key is stored in: the one with that exact name,
    otherwise the first whose name folds like the key. *)
Definition field_of (names : list string) (key : string) : option string :=
  match List.find (String.eqb key) names with
  | Some name => Some name
  | None => List.find (fun name => String.eqb (foldName name) (foldName key)) names
  end.

End json.

(** ** [encoding/xml]

    A model of the strict decoder ([xml.Unmarshal]) on documents made of
    character data with entity and character references, CDATA sections,
    start, end and empty-element tags with quoted attributes, comments,
    processing instructions and directives.  One thing is not modelled: a
    name with bytes outside ASCII is taken as it is, where Go checks its runes
    against the name tables of XML 1.0. *)
Module xml.

Inductive token :=
| StartElement (name : string) (empty : bool)
| EndElement (name : string)
| CharData (data : string)
| Other.

Definition is_space (c : ascii) : bool :=
  if decide (c ∈ [" "; utf8.byte 13; utf8.byte 10; utf8.byte 9]%char)
  then true else false.

Definition isNameByte (c : ascii) : bool :=
  utf8.in_range 65 90 c || utf8.in_range 97 122 c || utf8.in_range 48 57 c
  || if decide (c ∈ ["_"; ":"; "."; "-"]%char) then true else false.

Fixpoint space (s : string) : string :=
  match s with
  | String c s' => if is_space c then space s' else s
  | EmptyString => s
  end.

(** The longest prefix of name bytes (a byte outside ASCII counts as one)
    and what follows it. *)
Fixpoint readName (s : string) : string * string :=
  match s with
  | String c s' =>
      if isNameByte c || utf8.in_range 128 255 c
      then let '(n, rest) := readName s' in (String c n, rest)
      else ("", s)
  | EmptyString => ("", s)
  end.

(** [d.name]: a name starts with a letter, [_] or [:], and the input goes
    on after it. *)
Definition name (s : string) : option (string * string) :=
  match readName s with
  | (String c n, String r rest) =>
      if utf8.in_range 48 57 c || Ascii.eqb c "." || Ascii.eqb c "-"
      then None
      else Some (String c n, String r rest)
  | _ => None
  end.

(** [nsname]: the local part of a name with exactly one colon and something
    on both sides of it; the whole name otherwise. *)
Fixpoint cut_colon (s : string) : option (string * string) :=
  match s with
  | EmptyString => None
  | String ":" rest => Some ("", rest)
  | String c rest =>
      match cut_colon rest with
      | Some (before, after) => Some (String c before, after)
      | None => None
      end
  end.

Definition local (raw : string) : string :=
  match cut_colon raw with
  | Some (String _ _, String c after) =>
      match cut_colon (String c after) with
      | None => String c after
      | Some _ => raw
      end
  | _ => raw
  end.

(** *** Character and entity references *)

Fixpoint number (base : N) (s : string) (acc : N) : N * string :=
  match s with
  | String c s' =>
      match utf8.hex_value c with
      | Some d => if (d <? base)%N then number base s' (acc * base + d)
                  else (acc, s)
      | None => (acc, s)
      end
  | EmptyString => (acc, s)
  end.

(** What follows an [&]: the text it stands for and the bytes of the
    reference after the [&]; [None] is a syntax error. *)
Definition reference (s : string) : option (string * nat) :=
  match s with
  | String "#" s1 =>
      let '(base, digits) := match s1 with
                             | String "x" s2 => (16%N, s2)
                             | _ => (10%N, s1)
                             end in
      match number base digits 0 with
      | (n, String ";" rest) =>
          if (String.length rest + 1 =? String.length digits)%nat then None
          else if (n <=? 1114111)%N
          then Some (utf8.encode_rune n, String.length s - String.length rest)
          else None
      | _ => None
      end
  | _ =>
      match readName s with
      | (n, String ";" rest) =>
          let text :=
            if String.eqb n "lt" then Some "<"
            else if String.eqb n "gt" then Some ">"
            else if String.eqb n "amp" then Some "&"
            else if String.eqb n "apos" then Some "'"
            else if String.eqb n "quot" then Some (String utf8.dquote "")
            else None in
          (λ t, (t, String.length s - String.length rest)) <$> text
      | _ => None
      end
  end.

(** *** Text *)

(** [d.text]: the text up to a [<] (character data, [quote = None]), up to
    the closing quote (an attribute value) or up to the end of a CDATA
    section; the text read, latest byte first, and the input after it.
    [b0] and [b1] are the two bytes read last. *)
Fixpoint text_from (s : string) (skip : nat) (quote : option ascii)
    (cdata : bool) (b0 b1 : ascii) (acc : string) : option (string * string) :=
  match s with
  | EmptyString => if cdata then None else Some (acc, s)
  | String b s' =>
      match skip with
      | S k => text_from s' k quote cdata b0 b1 acc
      | O =>
          if Ascii.eqb b0 "]" && Ascii.eqb b1 "]" && Ascii.eqb b ">" then
            if cdata
            then match acc with
                 | String _ (String _ data) => Some (data, s')
                 | _ => None
                 end
            else None
          else if Ascii.eqb b "<" && negb cdata then
            match quote with
            | Some _ => None
            | None => Some (acc, s)
            end
          else if match quote with
                  | Some q => Ascii.eqb b q
                  | None => false
                  end
          then Some (acc, s')
          else if Ascii.eqb b "&" && negb cdata then
            match reference s' with
            | Some (t, n) =>
                text_from s' n quote cdata (utf8.byte 0) (utf8.byte 0)
                  (String.rev t +:+ acc)
            | None => None
            end
          else
            let acc :=
              if Ascii.eqb b (utf8.byte 13) then String (utf8.byte 10) acc
              else if Ascii.eqb b1 (utf8.byte 13) && Ascii.eqb b (utf8.byte 10)
                   then acc
                   else String b acc in
            text_from s' 0 quote cdata b1 b acc
      end
  end.

Definition isInCharacterRange (r : N) : bool :=
  ((r =? 9) || (r =? 10) || (r =? 13) || (32 <=? r) && (r <=? 55295)
   || (57344 <=? r) && (r <=? 65533) || (65536 <=? r) && (r <=? 1114111))%N.

(** Every rune of a text is well-formed UTF-8 and a character of XML. *)
Fixpoint legal_from (s : string) (skip : nat) : bool :=
  match s with
  | EmptyString => true
  | String _ s' =>
      match skip with
      | S k => legal_from s' k
      | O =>
          match utf8.rune_size s with
          | Some size =>
              isInCharacterRange (utf8.rune s size) && legal_from s' (size - 1)
          | None => false
          end
      end
  end.

Definition text (s : string) (quote : option ascii) (cdata : bool)
  : option (string * string) :=
  match text_from s 0 quote cdata (utf8.byte 0) (utf8.byte 0) "" with
  | Some (acc, rest) =>
      let data := String.rev acc in
      if legal_from data 0 then Some (data, rest) else None
  | None => None
  end.

(** *** Markup *)

(** The input after the first occurrence of [stop], when there is one. *)
Fixpoint after (stop : string) (s : string) : option string :=
  match s with
  | EmptyString => None
  | String _ s' =>
      if String.prefix stop s
      then Some (String.substring (String.length stop)
                   (String.length s - String.length stop) s)
      else after stop s'
  end.

(** The text between [s] and its suffix [rest]. *)
Definition upto (s rest : string) : string :=
  String.substring 0 (String.length s - String.length rest) s.

(** [procInst]: the quoted value that follows [param=] in the content of an
    XML declaration; the empty string when there is none.  After a [param=]
    that no quote follows, the search goes on past the byte after it. *)
Fixpoint procInst_from (param : string) (s : string) (skip : nat) : string :=
  match s with
  | EmptyString => ""
  | String _ s' =>
      match skip with
      | S k => procInst_from param s' k
      | O =>
          if String.prefix param s then
            match String.substring (String.length param)
                    (String.length s - String.length param) s with
            | String q value =>
                if Ascii.eqb q "'" || Ascii.eqb q utf8.dquote then
                  match after (String q "") value with
                  | Some rest => upto value (String q rest)
                  | None => ""
                  end
                else procInst_from param s' (String.length param)
            | EmptyString => ""
            end
          else procInst_from param s' 0
      end
  end.

Definition procInst (param s : string) : string :=
  procInst_from (param +:+ "=") s 0.

Fixpoint lower (s : string) : string :=
  match s with
  | EmptyString => EmptyString
  | String c s' =>
      String (if utf8.in_range 65 90 c then utf8.byte (N_of_ascii c + 32) else c)
        (lower s')
  end.

(** A comment ends at the first [--], which [>] must follow. *)
Definition comment (s : string) : option string :=
  match after "--" s with
  | Some (String ">" rest) => Some rest
  | _ => None
  end.

(** A directive ends at the first [>] outside quotes and nested angle
    brackets; a comment inside it is skipped.  [skip] bytes are passed over
    first. *)
Fixpoint directive (s : string) (skip : nat) (inquote : option ascii)
    (depth : nat) : option string :=
  match s with
  | EmptyString => None
  | String b s' =>
      match skip with
      | S k => directive s' k inquote depth
      | O =>
          match inquote with
          | Some q =>
              directive s' 0 (if Ascii.eqb b q then None else inquote) depth
          | None =>
              if Ascii.eqb b ">" then
                match depth with
                | O => Some s'
                | S d => directive s' 0 None d
                end
              else if Ascii.eqb b "'" || Ascii.eqb b utf8.dquote then
                directive s' 0 (Some b) depth
              else if Ascii.eqb b "<" then
                if String.prefix "!--" s' then
                  match after "-->" (String.substring 3 (String.length s') s') with
                  | Some rest =>
                      directive s' (String.length s' - String.length rest) None
                        depth
                  | None => None
                  end
                else directive s' 0 None (S depth)
              else directive s' 0 None depth
          end
      end
  end.

(** The attributes of a start tag, from after its name to the end of the
    tag: whether the element is empty, and the input after the tag. *)
Fixpoint attributes (s : string) (skip : nat) : option (bool * string) :=
  match s with
  | EmptyString => None
  | String _ s' =>
      match skip with
      | S k => attributes s' k
      | O =>
          match space s with
          | String "/" (String ">" rest) => Some (true, rest)
          | String "/" _ => None
          | String ">" rest => Some (false, rest)
          | s1 =>
              match name s1 with
              | Some (_, s2) =>
                  match space s2 with
                  | String "=" s3 =>
                      match space s3 with
                      | String q s4 =>
                          if Ascii.eqb q "'" || Ascii.eqb q utf8.dquote then
                            match text s4 (Some q) false with
                            | Some (_, rest) =>
                                match String.length s - String.length rest with
                                | S n => attributes s' n
                                | O => None
                                end
                            | None => None
                            end
                          else None
                      | EmptyString => None
                      end
                  | _ => None
                  end
              | None => None
              end
          end
      end
  end.

(** [rawToken] at the head of a non-empty input: the token and the input
    after it. *)
Definition rawToken (s : string) : option (token * string) :=
  match s with
  | String "<" (String "/" s1) =>
      match name s1 with
      | Some (n, s2) =>
          match space s2 with
          | String ">" rest => Some (EndElement n, rest)
          | _ => None
          end
      | None => None
      end
  | String "<" (String "?" s1) =>
      match name s1 with
      | Some (target, s2) =>
          let s3 := space s2 in
          match after "?>" s3 with
          | Some rest =>
              let content := upto s3 (String "?" (String ">" rest)) in
              let ver := procInst "version" content in
              let enc := procInst "encoding" content in
              if String.eqb target "xml"
                 && (negb (String.eqb ver "") && negb (String.eqb ver "1.0")
                     || negb (String.eqb enc "")
                        && negb (String.eqb (lower enc) "utf-8"))
              then None
              else Some (Other, rest)
          | None => None
          end
      | None => None
      end
  | String "<" (String "!" (String "-" s1)) =>
      match s1 with
      | String "-" s2 => (λ rest, (Other, rest)) <$> comment s2
      | _ => None
      end
  | String "<" (String "!" (String "[" s1)) =>
      if String.prefix "CDATA[" s1
      then match text (String.substring 6 (String.length s1) s1) None true with
           | Some (data, rest) => Some (CharData data, rest)
           | None => None
           end
      else None
  | String "<" (String "!" (String _ s1)) =>
      (λ rest, (Other, rest)) <$> directive s1 0 None 0
  | String "<" s1 =>
      match name s1 with
      | Some (n, s2) =>
          match attributes s2 0 with
          | Some (empty, rest) => Some (StartElement n empty, rest)
          | None => None
          end
      | None => None
      end
  | _ =>
      match text s None false with
      | Some (data, rest) => Some (CharData data, rest)
      | None => None
      end
  end.

(** *** Decoding into [xmlError] *)

(** [xmlError] has two fields, at the paths [Body>Fault>faultstring] and
    [Body>Fault>faultcode] below the root element, whatever the root is
    called; a path is matched on local names. *)
Definition Message_path : list string := ["Body"; "Fault"; "faultstring"].
Definition ErrorCode_path : list string := ["Body"; "Fault"; "faultcode"].

(** The decoder between two tokens: the elements that are open, innermost
    first, the two fields, and the character data of the field being read. *)
Record decoder := {
  open : list string;
  fields : xmlError;
  data : string;
}.

(** The local names from below the root down to the innermost open
    element. *)
Definition path (open : list string) : list string :=
  match rev (local <$> open) with
  | _ :: below => below
  | [] => []
  end.

Definition same_path (p q : list string) : bool :=
  if decide (p = q) then true else false.

Definition start (n : string) (d : decoder) : decoder :=
  let open' := n :: open d in
  {| open := open'; fields := fields d;
     data := if same_path (path open') Message_path
                || same_path (path open') ErrorCode_path
             then "" else data d |}.

(** An end tag closes the innermost open element, or is an error. *)
Definition finish (n : string) (d : decoder) : option decoder :=
  match open d with
  | top :: below =>
      if String.eqb top n then
        let f := fields d in
        Some {| open := below;
                fields :=
                  if same_path (path (open d)) Message_path
                  then {| xmlMessage := data d; xmlErrorCode := xmlErrorCode f |}
                  else if same_path (path (open d)) ErrorCode_path
                  then {| xmlMessage := xmlMessage f; xmlErrorCode := data d |}
                  else f;
                data := data d |}
      else None
  | [] => None
  end.

(** One token. *)
Definition feed (t : token) (d : decoder) : option decoder :=
  match t with
  | StartElement n false => Some (start n d)
  | StartElement n true => finish n (start n d)
  | EndElement n => finish n d
  | CharData text =>
      Some (if same_path (path (open d)) Message_path
               || same_path (path (open d)) ErrorCode_path
            then {| open := open d; fields := fields d;
                    data := data d +:+ text |}
            else d)
  | Other => Some d
  end.

(** Tokens are read until the root element is closed; what follows it is not
    looked at.  The input ending before that is an error. *)
Fixpoint decode_from (s : string) (skip : nat) (d : decoder) : option xmlError :=
  match s with
  | EmptyString => None
  | String _ s' =>
      match skip with
      | S k => decode_from s' k d
      | O =>
          match rawToken s with
          | Some (t, rest) =>
              match feed t d with
              | Some d' =>
                  match open d', t with
                  | [], StartElement _ _ | [], EndElement _ => Some (fields d')
                  | _, _ =>
                      decode_from s' (String.length s' - String.length rest) d'
                  end
              | None => None
              end
          | None => None
          end
      end
  end.

Definition SyntaxError : error := libraryError "XML syntax error".

End xml.

(** ** The data model *)

(** The address a [*Client] holds. *)
Definition addr := nat.

(** Modelled from the spec: [SObjectAttributes], the value under the
    [attributes] key, declared in [sobject.go] (the tests build an
    [SObjectAttributes] with its [Type] field); it holds the declared type name
    of the entity and optionally its canonical remote resource path. *)
Record SObjectAttributes := { attrType : string; attrURL : string }.

(** What an [interface{}] of an [SObject] can hold: the values
    [encoding/json] decodes into an [interface{}] ([nil], [bool], [float64],
    [string], [[]interface{}], [map[string]interface{}]), a [*Client], and an
    [SObjectAttributes].  A [float64] keeps the literal it was read from. *)
Inductive Value :=
| VNil
| VBool (b : bool)
| VNumber (literal : string)
| VString (s : string)
| VSlice (items : list Value)
| VMap (fields : gmap string Value)
| VClient (client : addr)
| VAttributes (a : SObjectAttributes).

(** Modelled from the spec: [type SObject map[string]interface{}], declared
    in [sobject.go] (the tests build [SObject{...}] literals and assign to
    an [SObject] by key).  A [nil] map and an empty one are both [∅]. *)
Abbreviation SObject := (gmap string Value).

Record QueryResult := {
  TotalSize : Z;
  Done : bool;
  NextRecordsURL : string;
  Records : list SObject;
}.

Record ExecuteAnonymousResult := {
  Line : Z;
  Column : Z;
  Compiled : bool;
  Success : bool;
  CompileProblem : Value;
  ExceptionStackTrace : Value;
  ExceptionMessage : Value;
}.

Record Request := {
  Method : string;
  URL : string;
  Header : list (string * string);
  RequestBody : option string;
}.

(** A response: its status and what reading its body to the end yields, the
    bytes read and the error that stopped the reading, if any. *)
Record Response := {
  StatusCode : Z;
  Body : string * option error;
}.

(** [httpClient.Do]: what comes back for a request, given the requests sent
    before it. *)
Definition Transport := list Request → Request → option Response * option error.

Record User := { id : string; name : string; fullName : string; email : string }.

Record Client := {
  sessionID : string;
  user : User;
  clientID : string;
  apiVersion : string;
  baseURL : string;
  instanceURL : string;
  useToolingAPI : bool;
  httpClient : option Transport;
}.

Definition DefaultAPIVersion : string := "54.0".
Definition DefaultClientID : string := "simpleforce".
Definition DefaultURL : string := "https://login.salesforce.com".

(** ** What the package takes from the Go library

    The decoders of [encoding/json] and [encoding/xml] at the types the
    package decodes into, the encoder of an [SObject], and the check [http.NewRequestWithContext] makes of
    a method and a URL ([None]: the request is built).  The theorems hold for
    every such library; [golib] below is a model of the real one. *)
Class Library := {
  json_Unmarshal_jsonError : string → jsonError + error;
  xml_Unmarshal_xmlError : string → xmlError + error;
  json_Unmarshal_QueryResult : string → QueryResult + error;
  json_Unmarshal_ExecuteAnonymousResult : string → ExecuteAnonymousResult + error;
  json_Unmarshal_SObject : string → SObject + error;
  json_Marshal_SObject : SObject → string + error;
  http_NewRequest_check : string → string → option error;
}.

(** ** The error unifier ([errorHelpers.go]) *)

Section ErrorUnifier.
Context `{Library}.

Definition errorFormat : string :=
  logPrefix +:+ " Error. http code: %v Error Message:  %v Error Code: %v".

(** [ParseSalesforceError].  [jsonError[0]] panics on an empty slice. *)
Definition ParseSalesforceError (statusCode : Z) (responseBody : string)
  : outcome error :=
  match json_Unmarshal_jsonError responseBody with
  | inl jsonError =>
      match jsonError with
      | [] => Panics "runtime error: index out of range [0] with length 0"
      | first :: _ =>
          Returns (salesforceError {|
            Message := fmt.Sprintf errorFormat
                         [fmt.Int statusCode; fmt.Str (jsonMessage first);
                          fmt.Str (jsonErrorCode first)];
            HttpCode := statusCode;
            ErrorCode := jsonErrorCode first;
            ErrorMessage := jsonMessage first |})
      end
  | inr _ =>
      match xml_Unmarshal_xmlError responseBody with
      | inl xmlError =>
          Returns (salesforceError {|
            Message := fmt.Sprintf errorFormat
                         [fmt.Int statusCode; fmt.Str (xmlMessage xmlError);
                          fmt.Str (xmlErrorCode xmlError)];
            HttpCode := statusCode;
            ErrorCode := xmlErrorCode xmlError;
            ErrorMessage := xmlMessage xmlError |})
      | inr _ =>
          Returns (salesforceError {|
            Message := responseBody;
            HttpCode := statusCode;
            ErrorCode := "";
            ErrorMessage := "" |})
      end
  end.

(** [parseUhttpError] *)
Definition parseUhttpError (resp : option Response) (errHttp : option error)
  : outcome (option error) :=
  match resp with
  | None => Returns errHttp
  | Some resp =>
      if ((StatusCode resp <? 200) || (299 <? StatusCode resp))%Z then
        match Body resp with
        | (_, Some err) => Returns (errors.Join [errHttp; Some err])
        | (buf, None) =>
            match ParseSalesforceError (StatusCode resp) buf with
            | Returns parsed => Returns (errors.Join [errHttp; Some parsed])
            | Panics reason => Panics reason
            end
        end
      else Returns errHttp
  end.

End ErrorUnifier.

(** ** The client and the tooling calls ([tooling.go]) *)

(** The state the methods run in: the clients behind the [*Client] pointers
    and the requests handed to a transport so far, oldest first. *)
Record World := { heap : gmap addr Client; wire : list Request }.

(** A method either returns or panics, and leaves a world behind in both
    cases. *)
Definition M (A : Type) : Type := World → outcome A * World.

#[global] Instance M_ret : MRet M := λ A a w, (Returns a, w).

#[global] Instance M_bind : MBind M := λ A B f m w,
  match m w with
  | (Returns a, w') => f a w'
  | (Panics reason, w') => (Panics reason, w')
  end.

Definition panic {A} (reason : string) : M A := λ w, (Panics reason, w).

Definition lift {A} (o : outcome A) : M A := λ w, (o, w).

Definition nilDereference : string :=
  "runtime error: invalid memory address or nil pointer dereference".

(** Reading and writing through a [*Client]. *)
Definition deref (client : addr) : M Client := λ w,
  match heap w !! client with
  | Some c => (Returns c, w)
  | None => (Panics nilDereference, w)
  end.

Definition assign (client : addr) (c : Client) : M unit := λ w,
  (Returns (), {| heap := <[client := c]> (heap w); wire := wire w |}).

(** [client.httpClient.Do(req)] *)
Definition Do (httpClient : option Transport) (req : Request)
  : M (option Response * option error) :=
  match httpClient with
  | None => panic nilDereference
  | Some transport => λ w,
      (Returns (transport (wire w) req),
       {| heap := heap w; wire := wire w ++ [req] |})
  end.

Module http.

Definition MethodGet : string := "GET".

(** [http.NewRequestWithContext]; an empty method means [GET]. *)
Definition NewRequestWithContext `{Library} (method url : string)
    (body : option string) : Request + error :=
  match http_NewRequest_check method url with
  | Some err => inr err
  | None => inl {| Method := if String.eqb method "" then "GET" else method;
                   URL := url; Header := []; RequestBody := body |}
  end.

(** [req.Header.Add] *)
Definition Header_Add (req : Request) (key value : string) : Request :=
  {| Method := Method req; URL := URL req;
     Header := Header req ++ [(key, value)]; RequestBody := RequestBody req |}.

End http.

(** Modelled from the spec: [sobjectClientKey], a constant of [sobject.go]
    the tests name, the reserved key of the binding to the owning client. *)
Definition sobjectClientKey : string := "__client__".

(** Modelled from the spec: [sobjectAttributesKey] of [sobject.go], the
    reserved key [attributes]. *)
Definition sobjectAttributesKey : string := "attributes".

(** Modelled from the spec: [sobjectIDKey] of [sobject.go], the identity
    key. *)
Definition sobjectIDKey : string := "Id".

(** Modelled from the spec: [sobjectExternalIDFieldNameKey] of [sobject.go],
    the reserved key of the name of the external id field (the tests set it
    as [ExternalIDField]). *)
Definition sobjectExternalIDFieldNameKey : string := "ExternalIDField".

(** Modelled from the spec: [SObject.setClient] of [sobject.go], which binds
    a record to a client; the binding is the [*Client] stored under
    [sobjectClientKey]. *)
Definition setClient (obj : SObject) (client : addr) : SObject :=
  <[sobjectClientKey := VClient client]> obj.

(** Modelled from the spec: [SObject.client] of [sobject.go], the client a
    record is bound to, [nil] when it is bound to none. *)
Definition SObject_client (obj : SObject) : option addr :=
  match obj !! sobjectClientKey with
  | Some (VClient c) => Some c
  | _ => None
  end.

(** Modelled from the spec: [SObject.setType] of [sobject.go]; the type name
    is the [Type] of the attributes. *)
Definition setType (obj : SObject) (typeName : string) : SObject :=
  let url := match obj !! sobjectAttributesKey with
             | Some (VAttributes a) => attrURL a
             | _ => ""
             end in
  <[sobjectAttributesKey := VAttributes {| attrType := typeName; attrURL := url |}]>
    obj.

(** Modelled from the spec: [SObject.Type] of [sobject.go], the type name
    under the attributes key, set by [setType] or decoded from a response;
    the empty string when there is none. *)
Definition SObject_Type (obj : SObject) : string :=
  match obj !! sobjectAttributesKey with
  | Some (VAttributes a) => attrType a
  | Some (VMap fields) =>
      match fields !! "type" with
      | Some (VString s) => s
      | _ => ""
      end
  | _ => ""
  end.

Section Client.
Context `{Library}.

Definition with_sessionID (c : Client) (v : string) : Client :=
  {| sessionID := v; user := user c; clientID := clientID c;
     apiVersion := apiVersion c; baseURL := baseURL c;
     instanceURL := instanceURL c; useToolingAPI := useToolingAPI c;
     httpClient := httpClient c |}.

Definition with_instanceURL (c : Client) (v : string) : Client :=
  {| sessionID := sessionID c; user := user c; clientID := clientID c;
     apiVersion := apiVersion c; baseURL := baseURL c;
     instanceURL := v; useToolingAPI := useToolingAPI c;
     httpClient := httpClient c |}.

Definition with_apiVersion (c : Client) (v : string) : Client :=
  {| sessionID := sessionID c; user := user c; clientID := clientID c;
     apiVersion := v; baseURL := baseURL c;
     instanceURL := instanceURL c; useToolingAPI := useToolingAPI c;
     httpClient := httpClient c |}.

Definition with_useToolingAPI (c : Client) (v : bool) : Client :=
  {| sessionID := sessionID c; user := user c; clientID := clientID c;
     apiVersion := apiVersion c; baseURL := baseURL c;
     instanceURL := instanceURL c; useToolingAPI := v;
     httpClient := httpClient c |}.

Definition with_httpClient (c : Client) (v : option Transport) : Client :=
  {| sessionID := sessionID c; user := user c; clientID := clientID c;
     apiVersion := apiVersion c; baseURL := baseURL c;
     instanceURL := instanceURL c; useToolingAPI := useToolingAPI c;
     httpClient := v |}.

(** [GetSid], [GetLoc], [SetSidLoc], [SetHttpClient] *)
Definition GetSid (client : addr) : M string :=
  c ← deref client; mret (sessionID c).

Definition GetLoc (client : addr) : M string :=
  c ← deref client; mret (instanceURL c).

Definition SetSidLoc (client : addr) (sid loc : string) : M unit :=
  c ← deref client;
  assign client (with_instanceURL (with_sessionID c sid) loc).

Definition SetHttpClient (client : addr) (c' : option Transport) : M unit :=
  c ← deref client; assign client (with_httpClient c c').

(** [isLoggedIn] *)
Definition isLoggedIn (client : addr) : M bool :=
  c ← deref client; mret (negb (String.eqb (sessionID c) "")).

(** [httpRequest].  The [nil] byte slice is the empty string. *)
Definition httpRequest (client : addr) (method url : string)
    (body : option string) : M (string * option error) :=
  match http.NewRequestWithContext method url body with
  | inr err => mret ("", Some err)
  | inl req =>
      c ← deref client;
      let req := http.Header_Add req "Authorization"
                   (fmt.Sprintf "Bearer %s" [fmt.Str (sessionID c)]) in
      let req := http.Header_Add req "Content-Type" "application/json" in
      '(resp, err) ← Do (httpClient c) req;
      match err with
      | Some _ =>
          e ← lift (parseUhttpError resp err); mret ("", e)
      | None =>
          match resp with
          | None => panic nilDereference
          | Some r =>
              if ((StatusCode r <? 200) || (299 <? StatusCode r))%Z
              then e ← lift (parseUhttpError resp err); mret ("", e)
              else mret (Body r)
          end
      end
  end.

(** [makeURL] *)
Definition makeURL (client : addr) (req : string) : M string :=
  c ← deref client;
  let c := with_apiVersion c (strings.Replace (apiVersion c) "v" "" (-1)) in
  _ ← assign client c;
  mret (fmt.Sprintf "%s/services/data/v%s/%s"
          [fmt.Str (instanceURL c); fmt.Str (apiVersion c); fmt.Str req]).

(** [Query] *)
Definition Query (client : addr) (q : string)
  : M (option QueryResult * option error) :=
  logged ← isLoggedIn client;
  if negb logged then mret (None, Some ErrAuthentication)
  else
    c ← deref client;
    let u :=
      if strings.HasPrefix q "/services/data"
      then fmt.Sprintf "%s%s" [fmt.Str (instanceURL c); fmt.Str q]
      else
        let formatString := "%s/services/data/v%s/query?q=%s" in
        let baseURL := instanceURL c in
        let formatString :=
          if useToolingAPI c
          then strings.Replace formatString "query" "tooling/query" (-1)
          else formatString in
        fmt.Sprintf formatString
          [fmt.Str baseURL; fmt.Str (apiVersion c); fmt.Str (url.QueryEscape q)]
    in
    '(data, err) ← httpRequest client http.MethodGet u None;
    match err with
    | Some err => mret (None, Some err)
    | None =>
        match json_Unmarshal_QueryResult data with
        | inr err => mret (None, Some err)
        | inl result =>
            (* for idx := range result.Records *)
            mret (Some {| TotalSize := TotalSize result; Done := Done result;
                          NextRecordsURL := NextRecordsURL result;
                          Records := (λ obj, setClient obj client)
                                       <$> Records result |},
                  None)
        end
    end.

(** [ApexREST] *)
Definition ApexREST (client : addr) (method path : string)
    (requestBody : option string) : M (option string * option error) :=
  logged ← isLoggedIn client;
  if negb logged then mret (None, Some ErrAuthentication)
  else
    c ← deref client;
    let u := fmt.Sprintf "%s/%s" [fmt.Str (instanceURL c); fmt.Str path] in
    '(data, err) ← httpRequest client method u requestBody;
    match err with
    | Some err => mret (None, Some err)
    | None => mret (Some data, None)
    end.

(** [Client.SObject]: [typeName] is the variadic argument, [None] when the
    call passes none. *)
Definition Client_SObject (client : addr) (typeName : option string) : SObject :=
  let obj := setClient ∅ client in
  match typeName with
  | Some t => setType obj t
  | None => obj
  end.

(** [Tooling], [UnTooling] ([tooling.go]) *)
Definition Tooling (client : addr) : M addr :=
  c ← deref client;
  _ ← assign client (with_useToolingAPI c true);
  mret client.

Definition UnTooling (client : addr) : M unit :=
  c ← deref client; assign client (with_useToolingAPI c false).

(** [ExecuteAnonymous] *)
Definition ExecuteAnonymous (client : addr) (apexBody : string)
  : M (option ExecuteAnonymousResult * option error) :=
  logged ← isLoggedIn client;
  if negb logged then mret (None, Some ErrAuthentication)
  else
    c ← deref client;
    let formatString :=
      "%s/services/data/v%s/tooling/executeAnonymous/?anonymousBody=%s" in
    let baseURL := instanceURL c in
    let endpoint :=
      fmt.Sprintf formatString
        [fmt.Str baseURL; fmt.Str (apiVersion c);
         fmt.Str (url.QueryEscape apexBody)] in
    '(data, err) ← httpRequest client http.MethodGet endpoint None;
    match err with
    | Some err => mret (None, Some err)
    | None =>
        match json_Unmarshal_ExecuteAnonymousResult data with
        | inr err => mret (None, Some err)
        | inl result => mret (Some result, None)
        end
    end.

End Client.

(** ** A model of the Go library: [golib] *)

Module golib_model.

Import utf8 json.

(** An object read into a [map[string]interface{}]: a key that comes again
    replaces the earlier one. *)
Definition assign_all {A} (members : list (string * A)) : gmap string A :=
  foldl (λ m kv, <[kv.1 := kv.2]> m) ∅ members.

(** A value read into an [interface{}].  (Go rejects a number too large for
    a [float64]; the model keeps every literal.) *)
Fixpoint to_interface (v : value) : Value :=
  match v with
  | JNull => VNil
  | JBool b => VBool b
  | JNumber literal => VNumber literal
  | JString s => VString s
  | JArray items => VSlice (to_interface <$> items)
  | JObject members =>
      VMap (assign_all ((λ '(k, v), (k, to_interface v)) <$> members))
  end.

(** Reading the members of an object into a struct, one after the other. *)
Definition into_struct {T} (set : T → string → value → T * option error)
    (type : string) (target : T) (v : value) : T * option error :=
  match v with
  | JObject members =>
      foldl (λ '(t, saved) '(key, v),
               let '(t', e) := set t key v in (t', saveError saved e))
        (target, None) members
  | JNull => (target, None)
  | _ => (target, Some (UnmarshalTypeError v type))
  end.

(** Reading an array into a slice whose items are read by [item]. *)
Definition into_slice {T} (item : value → T * option error) (type : string)
    (target : list T) (v : value) : list T * option error :=
  match v with
  | JArray items =>
      let read := item <$> items in
      (fst <$> read, foldl saveError None (snd <$> read))
  | JNull => ([], None)
  | _ => (target, Some (UnmarshalTypeError v type))
  end.

Definition finish {T} (data : string) (decode : value → T * option error)
  : T + error :=
  match parse data with
  | None => inr SyntaxError
  | Some v =>
      match decode v with
      | (t, None) => inl t
      | (_, Some e) => inr e
      end
  end.

(** [jsonError] *)
Definition jsonErrorItem_set (t : jsonErrorItem) (key : string) (v : value)
  : jsonErrorItem * option error :=
  match field_of ["message"; "errorCode"] key with
  | Some name =>
      if String.eqb name "message" then
        let '(s, e) := into_string (jsonMessage t) v in
        ({| jsonMessage := s; jsonErrorCode := jsonErrorCode t |}, e)
      else
        let '(s, e) := into_string (jsonErrorCode t) v in
        ({| jsonMessage := jsonMessage t; jsonErrorCode := s |}, e)
  | None => (t, None)
  end.

Definition Unmarshal_jsonError (data : string) : jsonError + error :=
  finish data
    (into_slice
       (into_struct jsonErrorItem_set "struct"
          {| jsonMessage := ""; jsonErrorCode := "" |})
       "simpleforce.jsonError" []).

(** [SObject] *)
Definition into_SObject (target : SObject) (v : value) : SObject * option error :=
  match v with
  | JObject members =>
      (foldl (λ m '(k, v), <[k := to_interface v]> m) target members, None)
  | JNull => (∅, None)
  | _ => (target, Some (UnmarshalTypeError v "simpleforce.SObject"))
  end.

Definition Unmarshal_SObject (data : string) : SObject + error :=
  finish data (into_SObject ∅).

(** [QueryResult] *)
Definition QueryResult_set (t : QueryResult) (key : string) (v : value)
  : QueryResult * option error :=
  match field_of ["totalSize"; "done"; "nextRecordsUrl"; "records"] key with
  | Some name =>
      if String.eqb name "totalSize" then
        let '(n, e) := into_int (TotalSize t) v in
        ({| TotalSize := n; Done := Done t;
            NextRecordsURL := NextRecordsURL t; Records := Records t |}, e)
      else if String.eqb name "done" then
        let '(b, e) := into_bool (Done t) v in
        ({| TotalSize := TotalSize t; Done := b;
            NextRecordsURL := NextRecordsURL t; Records := Records t |}, e)
      else if String.eqb name "nextRecordsUrl" then
        let '(s, e) := into_string (NextRecordsURL t) v in
        ({| TotalSize := TotalSize t; Done := Done t;
            NextRecordsURL := s; Records := Records t |}, e)
      else
        let '(rs, e) := into_slice (into_SObject ∅) "[]simpleforce.SObject"
                          (Records t) v in
        ({| TotalSize := TotalSize t; Done := Done t;
            NextRecordsURL := NextRecordsURL t; Records := rs |}, e)
  | None => (t, None)
  end.

Definition Unmarshal_QueryResult (data : string) : QueryResult + error :=
  finish data
    (into_struct QueryResult_set "simpleforce.QueryResult"
       {| TotalSize := 0; Done := false; NextRecordsURL := ""; Records := [] |}).

(** [ExecuteAnonymousResult] *)
Definition ExecuteAnonymousResult_set (t : ExecuteAnonymousResult)
    (key : string) (v : value) : ExecuteAnonymousResult * option error :=
  let names := ["line"; "column"; "compiled"; "success"; "compileProblem";
                "exceptionStackTrace"; "exceptionMessage"] in
  let named name := match field_of names key with
                 | Some n => String.eqb n name
                 | None => false
                 end in
  let '(line, e1) := if named "line" then into_int (Line t) v else (Line t, None) in
  let '(column, e2) :=
    if named "column" then into_int (Column t) v else (Column t, None) in
  let '(compiled, e3) :=
    if named "compiled" then into_bool (Compiled t) v else (Compiled t, None) in
  let '(success, e4) :=
    if named "success" then into_bool (Success t) v else (Success t, None) in
  ({| Line := line; Column := column; Compiled := compiled; Success := success;
      CompileProblem :=
        if named "compileProblem" then to_interface v else CompileProblem t;
      ExceptionStackTrace :=
        if named "exceptionStackTrace" then to_interface v
        else ExceptionStackTrace t;
      ExceptionMessage :=
        if named "exceptionMessage" then to_interface v else ExceptionMessage t |},
   saveError e1 (saveError e2 (saveError e3 e4))).

Definition Unmarshal_ExecuteAnonymousResult (data : string)
  : ExecuteAnonymousResult + error :=
  finish data
    (into_struct ExecuteAnonymousResult_set "simpleforce.ExecuteAnonymousResult"
       {| Line := 0; Column := 0; Compiled := false; Success := false;
          CompileProblem := VNil; ExceptionStackTrace := VNil;
          ExceptionMessage := VNil |}).

(** [xmlError] *)
Definition Unmarshal_xmlError (data : string) : xmlError + error :=
  match xml.decode_from data 0
          {| xml.open := []; xml.data := "";
             xml.fields := {| xmlMessage := ""; xmlErrorCode := "" |} |} with
  | Some e => inl e
  | None => inr xml.SyntaxError
  end.

(** *** [json.Marshal] of an [SObject] *)

Definition hex4 (n : N) : string :=
  let digit k := match String.get (N.to_nat k) "0123456789abcdef" with
                 | Some c => c
                 | None => "0"%char
                 end in
  String (digit (n / 4096 mod 16)%N) (String (digit (n / 256 mod 16)%N)
    (String (digit (n / 16 mod 16)%N) (String (digit (n mod 16)%N) ""))).

(** One step of the string encoder at the head of [s]: the bytes written and
    the number of bytes of [s] consumed.  The HTML characters, the control
    characters, U+2028 and U+2029 are escaped; a byte that is not UTF-8 is
    written as the escape of U+FFFD. *)
Definition quote_unit (s : string) : string * nat :=
  match s with
  | EmptyString => ("", 1)
  | String c _ =>
      let n := N_of_ascii c in
      if in_range 0 127 c then
        (if Ascii.eqb c dquote then String "\" (String dquote "")
         else if Ascii.eqb c "\" then "\\"
         else if (n =? 8)%N then "\b"
         else if (n =? 12)%N then "\f"
         else if (n =? 10)%N then "\n"
         else if (n =? 13)%N then "\r"
         else if (n =? 9)%N then "\t"
         else if (n <? 32)%N
                 || if decide (c ∈ ["<"; ">"; "&"]%char) then true else false
         then "\u" +:+ hex4 n
         else String c "", 1)
      else
        match rune_size s with
        | Some size =>
            let r := utf8.rune s size in
            if (r =? 8232)%N || (r =? 8233)%N then ("\u" +:+ hex4 r, size)
            else (String.substring 0 size s, size)
        | None => ("\ufffd", 1)
        end
  end.

Fixpoint quote_from (s : string) (skip : nat) : string :=
  match s with
  | EmptyString => EmptyString
  | String _ rest =>
      match skip with
      | S k => quote_from rest k
      | O => let '(out, n) := quote_unit s in out +:+ quote_from rest (n - 1)
      end
  end.

Definition quote (s : string) : string :=
  String dquote (quote_from s 0 +:+ String dquote "").

Definition key_le {A} (a b : string * A) : Prop := String.leb a.1 b.1 = true.

#[local] Instance key_le_dec {A} (a b : string * A) : Decision (key_le a b) :=
  decide (String.leb a.1 b.1 = true).

Definition join (sep : string) (parts : list string) : string :=
  match parts with
  | [] => ""
  | p :: ps => foldl (λ acc q, acc +:+ sep +:+ q) p ps
  end.

(** An [interface{}] written out; the keys of a map come sorted.  A [*Client]
    has no exported field and is written as an empty object. *)
Fixpoint encode (v : Value) : string :=
  match v with
  | VNil => "null"
  | VBool b => if b then "true" else "false"
  | VNumber literal => literal
  | VString s => quote s
  | VSlice items => "[" +:+ join "," (encode <$> items) +:+ "]"
  | VMap fields =>
      "{" +:+ join ","
                ((λ kv : string * string, quote kv.1 +:+ ":" +:+ kv.2)
                   <$> merge_sort key_le (map_to_list (encode <$> fields)))
      +:+ "}"
  | VClient _ => "{}"
  | VAttributes a =>
      "{" +:+ quote "type" +:+ ":" +:+ quote (attrType a) +:+ ","
      +:+ quote "url" +:+ ":" +:+ quote (attrURL a) +:+ "}"
  end.

Definition Marshal_SObject (obj : SObject) : string + error :=
  inl (encode (VMap obj)).

(** *** [http.NewRequestWithContext] *)

Definition is_token (c : ascii) : bool :=
  in_range 48 57 c || in_range 65 90 c || in_range 97 122 c
  || if decide (c ∈ ["!"; "#"; "$"; "%"; "&"; "'"; "*"; "+"; "-"; "."; "^";
                     "_"; "`"; "|"; "~"]%char) then true else false.

Fixpoint all_bytes (p : ascii → bool) (s : string) : bool :=
  match s with
  | EmptyString => true
  | String c s' => p c && all_bytes p s'
  end.

(** The method is made of token characters and the URL has no control
    byte.  ([url.Parse] rejects a URL for other reasons too, a malformed
    escape, host or port among them; those are not modelled.) *)
Definition NewRequest_check (method url : string) : option error :=
  if negb (all_bytes is_token method)
  then Some (libraryError "net/http: invalid method")
  else if negb (all_bytes (λ c, negb (in_range 0 31 c || in_range 127 127 c)) url)
  then Some (libraryError "net/url: invalid control character in URL")
  else None.

End golib_model.

#[global] Instance golib : Library := {|
  json_Unmarshal_jsonError := golib_model.Unmarshal_jsonError;
  xml_Unmarshal_xmlError := golib_model.Unmarshal_xmlError;
  json_Unmarshal_QueryResult := golib_model.Unmarshal_QueryResult;
  json_Unmarshal_ExecuteAnonymousResult :=
    golib_model.Unmarshal_ExecuteAnonymousResult;
  json_Unmarshal_SObject := golib_model.Unmarshal_SObject;
  json_Marshal_SObject := golib_model.Marshal_SObject;
  http_NewRequest_check := golib_model.NewRequest_check;
|}.

(** ** The CRUD engine ([sobject.go])

    The source of [sobject.go] is not part of this development; its tests,
    the error it returns ([ErrNoTypeIdClientOrId]) and the client methods it
    calls ([makeURL], [httpRequest]) are.  The operations below follow the
    specification of the CRUD engine.  A record is passed and returned by
    value: where an operation returns the record it was called on, the result
    is that record with the changes made to it. *)

Section CRUD.
Context `{Library}.

(** Modelled from the spec: [SObject.StringField], the string under a key,
    the empty string when the key is absent or holds something else. *)
Definition StringField (obj : SObject) (key : string) : string :=
  match obj !! key with
  | Some (VString s) => s
  | _ => ""
  end.

(** Modelled from the spec: [SObject.ID], the remote identifier under the
    identity key. *)
Definition ID (obj : SObject) : string := StringField obj sobjectIDKey.

(** Modelled from the spec: [SObject.setID], which stores the identifier. *)
Definition setID (obj : SObject) (id : string) : SObject :=
  <[sobjectIDKey := VString id]> obj.

(** Modelled from the spec: [SObject.ExternalIDFieldName], the name of the
    external id field. *)
Definition ExternalIDFieldName (obj : SObject) : string :=
  StringField obj sobjectExternalIDFieldNameKey.

(** Modelled from the spec: [SObject.ExternalID], the value of the field of
    that name. *)
Definition ExternalID (obj : SObject) : string :=
  StringField obj (ExternalIDFieldName obj).

(** Modelled from the spec: the fields sent in a request body, the record
    without its reserved keys. *)
Definition dataFields (obj : SObject) : SObject :=
  delete sobjectExternalIDFieldNameKey
    (delete sobjectAttributesKey (delete sobjectClientKey obj)).

(** Modelled from the spec: the error of an upsert with no external id field
    name or no value for it (a "missing external id" error). *)
Definition ErrMissingExternalID : error := errors.New "missing external id".

Definition MethodPost : string := "POST".
Definition MethodPatch : string := "PATCH".
Definition MethodDelete : string := "DELETE".

(** Modelled from the spec: [SObject.Get].  [id] is the variadic argument;
    it takes priority over the stored identifier. *)
Definition Get (obj : SObject) (id : option string)
  : M (option SObject * option error) :=
  match SObject_client obj with
  | None => mret (None, Some ErrNoTypeIdClientOrId)
  | Some c =>
      if String.eqb (SObject_Type obj) ""
      then mret (None, Some ErrNoTypeIdClientOrId)
      else
        let oid := default (ID obj) id in
        if String.eqb oid "" then mret (None, Some ErrNoTypeIdClientOrId)
        else
          u ← makeURL c ("sobjects/" +:+ SObject_Type obj +:+ "/" +:+ oid);
          '(data, err) ← httpRequest c http.MethodGet u None;
          match err with
          | Some err => mret (None, Some err)
          | None =>
              match json_Unmarshal_SObject data with
              | inr err => mret (None, Some err)
              | inl fresh => mret (Some (setClient fresh c), None)
              end
          end
  end.

(** Modelled from the spec: [SObject.Create].  The response carries the new
    identifier under [id]. *)
Definition Create (obj : SObject) : M (option SObject * option error) :=
  match SObject_client obj with
  | None => mret (None, Some ErrNoTypeIdClientOrId)
  | Some c =>
      if String.eqb (SObject_Type obj) ""
      then mret (None, Some ErrNoTypeIdClientOrId)
      else
        match json_Marshal_SObject (dataFields obj) with
        | inr err => mret (None, Some err)
        | inl body =>
            u ← makeURL c ("sobjects/" +:+ SObject_Type obj);
            '(data, err) ← httpRequest c MethodPost u (Some body);
            match err with
            | Some err => mret (None, Some err)
            | None =>
                match json_Unmarshal_SObject data with
                | inr err => mret (None, Some err)
                | inl created =>
                    mret (Some (setID obj (StringField created "id")), None)
                end
            end
        end
  end.

(** Modelled from the spec: [SObject.Update]. *)
Definition Update (obj : SObject) : M (option SObject * option error) :=
  match SObject_client obj with
  | None => mret (None, Some ErrNoTypeIdClientOrId)
  | Some c =>
      if String.eqb (SObject_Type obj) "" || String.eqb (ID obj) ""
      then mret (None, Some ErrNoTypeIdClientOrId)
      else
        match json_Marshal_SObject (dataFields obj) with
        | inr err => mret (None, Some err)
        | inl body =>
            u ← makeURL c ("sobjects/" +:+ SObject_Type obj +:+ "/" +:+ ID obj);
            '(_, err) ← httpRequest c MethodPatch u (Some body);
            match err with
            | Some err => mret (None, Some err)
            | None => mret (Some obj, None)
            end
        end
  end.

(** Modelled from the spec: [SObject.Upsert].  A response that carries an
    identifier is a creation; any other leaves the identity as it was. *)
Definition Upsert (obj : SObject) : M (option SObject * option error) :=
  match SObject_client obj with
  | None => mret (None, Some ErrNoTypeIdClientOrId)
  | Some c =>
      if String.eqb (SObject_Type obj) ""
      then mret (None, Some ErrNoTypeIdClientOrId)
      else if String.eqb (ExternalIDFieldName obj) ""
              || String.eqb (ExternalID obj) ""
      then mret (None, Some ErrMissingExternalID)
      else
        match json_Marshal_SObject (dataFields obj) with
        | inr err => mret (None, Some err)
        | inl body =>
            u ← makeURL c ("sobjects/" +:+ SObject_Type obj +:+ "/"
                           +:+ ExternalIDFieldName obj +:+ "/"
                           +:+ ExternalID obj);
            '(data, err) ← httpRequest c MethodPatch u (Some body);
            match err with
            | Some err => mret (None, Some err)
            | None =>
                match json_Unmarshal_SObject data with
                | inl created =>
                    if String.eqb (StringField created "id") ""
                    then mret (Some obj, None)
                    else mret (Some (setID obj (StringField created "id")), None)
                | inr _ => mret (Some obj, None)
                end
            end
        end
  end.

(** Modelled from the spec: [SObject.Delete]; the tests use its result as a
    single [error]. *)
Definition Delete (obj : SObject) (id : option string) : M (option error) :=
  match SObject_client obj with
  | None => mret (Some ErrNoTypeIdClientOrId)
  | Some c =>
      if String.eqb (SObject_Type obj) ""
      then mret (Some ErrNoTypeIdClientOrId)
      else
        let oid := default (ID obj) id in
        if String.eqb oid "" then mret (Some ErrNoTypeIdClientOrId)
        else
          u ← makeURL c ("sobjects/" +:+ SObject_Type obj +:+ "/" +:+ oid);
          '(_, err) ← httpRequest c MethodDelete u None;
          mret err
  end.

End CRUD.

(** ** The handshake, the construction of a client, the downloads and
    [DescribeGlobal] *)

(** *** More of the Go library *)

(** [strings.HasSuffix] *)
Definition strings_HasSuffix (s suffix : string) : bool :=
  (String.length suffix <=? String.length s)%nat
  && String.eqb (String.substring (String.length s - String.length suffix)
                   (String.length suffix) s)
       suffix.

(** The byte [c] is one of the bytes of [cutset]. *)
Fixpoint byte_in (c : ascii) (cutset : string) : bool :=
  match cutset with
  | EmptyString => false
  | String x cutset' => Ascii.eqb c x || byte_in c cutset'
  end.

(** [strings.TrimRight(s, cutset)] for a cutset of ASCII bytes: the bytes of
    the cutset that end [s] are dropped, all of them.  (Go reads runes when
    the cutset has a byte beyond ASCII; the package's cutset is [/].) *)
Fixpoint strings_TrimRight (s cutset : string) : string :=
  match s with
  | EmptyString => EmptyString
  | String c s' =>
      match strings_TrimRight s' cutset with
      | EmptyString => if byte_in c cutset then EmptyString else String c EmptyString
      | t => String c t
      end
  end.

(** [fmt.Errorf] with a format that has no [%w]: an [errors.New] of the
    text. *)
Definition fmt_Errorf (format : string) (args : list fmt.arg) : error :=
  errors.New (fmt.Sprintf format args).

Module html.

(** The replacer of [html.EscapeString]: five bytes have an entity. *)
Definition escape (c : ascii) : string :=
  if Ascii.eqb c "&" then "&amp;"
  else if Ascii.eqb c "'" then "&#39;"
  else if Ascii.eqb c "<" then "&lt;"
  else if Ascii.eqb c ">" then "&gt;"
  else if Ascii.eqb c utf8.dquote then "&#34;"
  else String c EmptyString.

Fixpoint EscapeString (s : string) : string :=
  match s with
  | EmptyString => EmptyString
  | String c s' => escape c +:+ EscapeString s'
  end.

End html.

Module textproto.

(** The second loop of [canonicalMIMEHeaderKey]: a letter is made upper case
    at the start and after a dash, lower case elsewhere. *)
Fixpoint canonical (s : string) (upper : bool) : string :=
  match s with
  | EmptyString => EmptyString
  | String c s' =>
      let c' :=
        if upper && utf8.in_range 97 122 c then utf8.byte (N_of_ascii c - 32)
        else if negb upper && utf8.in_range 65 90 c
             then utf8.byte (N_of_ascii c + 32)
             else c in
      String c' (canonical s' (Ascii.eqb c' "-"))
  end.

(** [textproto.CanonicalMIMEHeaderKey]: a key with a byte that is no token
    character is returned as it is. *)
Definition CanonicalMIMEHeaderKey (s : string) : string :=
  if golib_model.all_bytes golib_model.is_token s then canonical s true else s.

End textproto.

(** [req.Header.Add(key, value)] in full: the value is filed under the
    canonical form of the key.  ([http.Header_Add] is the same on
    [Authorization] and [Content-Type], which are canonical.) *)
Definition http_Header_Add (req : Request) (key value : string) : Request :=
  http.Header_Add req (textproto.CanonicalMIMEHeaderKey key) value.

Definition http_MethodPost : string := "POST".

(** *** What the handshake and the downloads take from outside the package *)

(** The anonymous struct [loginResponse] of [LoginPassword]; its [XMLName]
    field asks for a root element called [Envelope]. *)
Record loginResponse := {
  ServerURL : string;
  SessionID : string;
  UserID : string;
  UserEmail : string;
  UserFullName : string;
  UserName : string;
}.

(** The two fields of a [*url.URL] the package reads. *)
Record url_URL := { Scheme : string; Host : string }.

(** The files of the machine: the contents under each path. *)
Abbreviation Files := (gmap string string).

(** The decoders of the login response and of [SObjectMeta] (a type of
    [sobject.go], opaque here), [url.Parse], the two constructors of
    [uhttp], and the file system: [os_Create_check] says whether [os.Create]
    fails on a path, [file_Write] whether writing [data] to the file at a
    path fails and, when it does, what the file holds by then. *)
Class Platform := {
  xml_Unmarshal_loginResponse : string → loginResponse + error;
  url_Parse : string → url_URL + error;
  SObjectMeta : Type;
  json_Unmarshal_SObjectMeta : string → SObjectMeta + error;
  uhttp_HttpClient : Type;
  uhttp_NewClient : uhttp_HttpClient + error;
  uhttp_NewBaseHttpClientWithContext : uhttp_HttpClient → Transport + error;
  os_Create_check : Files → string → option error;
  file_Write : string → string → option (string * error);
}.

(** *** The handshake *)

(** The raw string literal [soapBody] of [LoginPassword], line by line; a
    ['] stands for a double quote of the source, which has no ['] of its
    own. *)
Fixpoint raw_line (s : string) : string :=
  match s with
  | EmptyString => EmptyString
  | String c s' => String (if Ascii.eqb c "'" then utf8.dquote else c) (raw_line s')
  end.

Definition raw_lines (ls : list string) : string :=
  match raw_line <$> ls with
  | [] => EmptyString
  | l :: ls' => foldl (λ acc x, acc +:+ String (utf8.byte 10) x) l ls'
  end.

Definition soapBody : string := Eval vm_compute in raw_lines [
  "<?xml version='1.0' encoding='utf-8' ?>";
  "        <env:Envelope";
  "                xmlns:xsd='http://www.w3.org/2001/XMLSchema'";
  "                xmlns:xsi='http://www.w3.org/2001/XMLSchema-instance'";
  "                xmlns:env='http://schemas.xmlsoap.org/soap/envelope/'";
  "                xmlns:urn='urn:partner.soap.sforce.com'>";
  "            <env:Header>";
  "                <urn:CallOptions>";
  "                    <urn:client>%s</urn:client>";
  "                    <urn:defaultNamespace>sf</urn:defaultNamespace>";
  "                </urn:CallOptions>";
  "            </env:Header>";
  "            <env:Body>";
  "                <n1:login xmlns:n1='urn:partner.soap.sforce.com'>";
  "                    <n1:username>%s</n1:username>";
  "                    <n1:password>%s%s</n1:password>";
  "                </n1:login>";
  "            </env:Body>";
  "        </env:Envelope>" ].

Section Handshake.
Context `{Library} `{Platform}.

(** [parseHost] *)
Definition parseHost (input : string) : string :=
  match url_Parse input with
  | inl parsed =>
      fmt.Sprintf "%s://%s" [fmt.Str (Scheme parsed); fmt.Str (Host parsed)]
  | inr _ => "Failed to parse URL input"
  end.

Definition with_login (c : Client) (sid loc : string) (u : User) : Client :=
  {| sessionID := sid; user := u; clientID := clientID c;
     apiVersion := apiVersion c; baseURL := baseURL c;
     instanceURL := loc; useToolingAPI := useToolingAPI c;
     httpClient := httpClient c |}.

(** [LoginPassword].  A body that cannot be read to its end is used as far
    as it was read: the read error is dropped on a failed status and only
    logged on a good one. *)
Definition LoginPassword (client : addr) (username password token : string)
  : M (option error) :=
  c ← deref client;
  let soapBody :=
    fmt.Sprintf soapBody
      [fmt.Str (clientID c); fmt.Str username;
       fmt.Str (html.EscapeString password); fmt.Str token] in
  let requestUrl :=
    fmt.Sprintf "%s/services/Soap/u/%s"
      [fmt.Str (baseURL c); fmt.Str (apiVersion c)] in
  match http.NewRequestWithContext http_MethodPost requestUrl (Some soapBody) with
  | inr err => mret (Some err)
  | inl req =>
      let req := http_Header_Add req "Content-Type" "text/xml" in
      let req := http_Header_Add req "charset" "UTF-8" in
      let req := http_Header_Add req "SOAPAction" "login" in
      '(resp, err) ← Do (httpClient c) req;
      match err with
      | Some err => mret (Some err)
      | None =>
          match resp with
          | None => panic nilDereference
          | Some r =>
              if negb (StatusCode r =? 200)%Z then
                theError ← lift (ParseSalesforceError (StatusCode r) (Body r).1);
                mret (Some theError)
              else
                let respData := (Body r).1 in
                match xml_Unmarshal_loginResponse respData with
                | inr err => mret (Some err)
                | inl loginResponse =>
                    _ ← assign client
                          (with_login c (SessionID loginResponse)
                             (parseHost (ServerURL loginResponse))
                             {| id := UserID loginResponse;
                                name := UserName loginResponse;
                                fullName := UserFullName loginResponse;
                                email := UserEmail loginResponse |});
                    mret None
                end
          end
      end
  end.

End Handshake.

(** *** The construction of a client *)

(** [&Client{...}]: the new client lives at an address no client has. *)
Definition alloc (c : Client) : M addr := λ w,
  let a := fresh (dom (heap w)) in
  (Returns a, {| heap := <[a := c]> (heap w); wire := wire w |}).

Definition with_baseURL (c : Client) (v : string) : Client :=
  {| sessionID := sessionID c; user := user c; clientID := clientID c;
     apiVersion := apiVersion c; baseURL := v;
     instanceURL := instanceURL c; useToolingAPI := useToolingAPI c;
     httpClient := httpClient c |}.

(** [NewClient] *)
Definition NewClient `{Platform} (url clientID apiVersion : string)
  : M (option addr * option error) :=
  match uhttp_NewClient with
  | inr err => mret (None, Some err)
  | inl httpClient =>
      match uhttp_NewBaseHttpClientWithContext httpClient with
      | inr err => mret (None, Some err)
      | inl uhttpClient =>
          let client :=
            {| sessionID := "";
               user := {| id := ""; name := ""; fullName := ""; email := "" |};
               clientID := clientID; apiVersion := apiVersion; baseURL := url;
               instanceURL := ""; useToolingAPI := false;
               httpClient := Some uhttpClient |} in
          let client :=
            if strings_HasSuffix (baseURL client) "/"
            then with_baseURL client
                   (String.substring 0 (String.length (baseURL client) - 1)
                      (baseURL client))
            else client in
          a ← alloc client;
          mret (Some a, None)
      end
  end.

(** *** The downloads and [DescribeGlobal] *)

Section Downloads.
Context `{Library} `{Platform}.

(** [download]; the files of the machine are passed in and handed back.
    [os.Create] leaves an empty file, which [io.Copy] fills with the body. *)
Definition download (client : addr) (apiPath filepath : string) (files : Files)
  : M (option error * Files) :=
  c ← deref client;
  let httpClient := httpClient c in
  match http.NewRequestWithContext "GET"
          (fmt.Sprintf "%s%s"
             [fmt.Str (strings_TrimRight (instanceURL c) "/"); fmt.Str apiPath])
          None with
  | inr err => mret (Some err, files)
  | inl req =>
      let req :=
        http_Header_Add req "Content-Type" "application/json; charset=UTF-8" in
      let req := http_Header_Add req "Accept" "application/json" in
      let req := http_Header_Add req "Authorization" ("Bearer " +:+ sessionID c) in
      '(resp, err) ← Do httpClient req;
      match err with
      | Some err => mret (Some err, files)
      | None =>
          match resp with
          | None => panic nilDereference
          | Some r =>
              if ((StatusCode r <? 200) || (299 <? StatusCode r))%Z then
                mret (Some (fmt_Errorf "ERROR: statuscode: %d, body: %s"
                              [fmt.Int (StatusCode r); fmt.Str (Body r).1]),
                      files)
              else
                match os_Create_check files filepath with
                | Some err => mret (Some err, files)
                | None =>
                    let files := <[filepath := ""]> files in
                    match file_Write filepath (Body r).1 with
                    | Some (written, err) =>
                        mret (Some err, <[filepath := written]> files)
                    | None =>
                        mret ((Body r).2, <[filepath := (Body r).1]> files)
                    end
                end
          end
      end
  end.

(** [DownloadFile], [DownloadAttachment] *)
Definition DownloadFile (client : addr) (contentVersionID filepath : string)
    (files : Files) : M (option error * Files) :=
  c ← deref client;
  let apiPath :=
    fmt.Sprintf "/services/data/v%s/sobjects/ContentVersion/%s/VersionData"
      [fmt.Str (apiVersion c); fmt.Str contentVersionID] in
  download client apiPath filepath files.

Definition DownloadAttachment (client : addr) (attachmentId filepath : string)
    (files : Files) : M (option error * Files) :=
  c ← deref client;
  let apiPath :=
    fmt.Sprintf "/services/data/v%s/sobjects/Attachment/%s/Body"
      [fmt.Str (apiVersion c); fmt.Str attachmentId] in
  download client apiPath filepath files.

(** [DescribeGlobal].  The status of the response is logged and not looked
    at; a body that cannot be read to its end is decoded as far as it was
    read. *)
Definition DescribeGlobal (client : addr)
  : M (option SObjectMeta * option error) :=
  c ← deref client;
  let apiPath := fmt.Sprintf "/services/data/v%s/sobjects" [fmt.Str (apiVersion c)] in
  let baseURL := strings_TrimRight (baseURL c) "/" in
  let url := fmt.Sprintf "%s%s" [fmt.Str baseURL; fmt.Str apiPath] in
  let httpClient := httpClient c in
  match http.NewRequestWithContext http.MethodGet url None with
  | inr err => mret (None, Some err)
  | inl req =>
      let req :=
        http_Header_Add req "Content-Type" "application/json; charset=UTF-8" in
      let req := http_Header_Add req "Accept" "application/json" in
      let req := http_Header_Add req "Authorization" ("Bearer " +:+ sessionID c) in
      '(resp, err) ← Do httpClient req;
      match err with
      | Some err => mret (None, Some err)
      | None =>
          match resp with
          | None => panic nilDereference
          | Some r =>
              match json_Unmarshal_SObjectMeta (Body r).1 with
              | inr err => mret (None, Some err)
              | inl meta => mret (Some meta, None)
              end
          end
      end
  end.

End Downloads.

(** *** A model of the platform: [goplatform] *)

Module goplatform_model.

Import utf8.

(** **** [xml.Unmarshal] into [loginResponse] *)

(** The fields of [loginResponse], each with its path below the root
    element and the assignment to it. *)
Definition result_path : list string := ["Body"; "loginResponse"; "result"].

Definition login_fields
  : list (list string * (loginResponse → string → loginResponse)) :=
  [ ((result_path ++ ["serverUrl"])%list,
     λ r v, {| ServerURL := v; SessionID := SessionID r; UserID := UserID r;
               UserEmail := UserEmail r; UserFullName := UserFullName r;
               UserName := UserName r |});
    ((result_path ++ ["sessionId"])%list,
     λ r v, {| ServerURL := ServerURL r; SessionID := v; UserID := UserID r;
               UserEmail := UserEmail r; UserFullName := UserFullName r;
               UserName := UserName r |});
    ((result_path ++ ["userId"])%list,
     λ r v, {| ServerURL := ServerURL r; SessionID := SessionID r; UserID := v;
               UserEmail := UserEmail r; UserFullName := UserFullName r;
               UserName := UserName r |});
    ((result_path ++ ["userInfo"; "userEmail"])%list,
     λ r v, {| ServerURL := ServerURL r; SessionID := SessionID r;
               UserID := UserID r; UserEmail := v;
               UserFullName := UserFullName r; UserName := UserName r |});
    ((result_path ++ ["userInfo"; "userFullName"])%list,
     λ r v, {| ServerURL := ServerURL r; SessionID := SessionID r;
               UserID := UserID r; UserEmail := UserEmail r;
               UserFullName := v; UserName := UserName r |});
    ((result_path ++ ["userInfo"; "userName"])%list,
     λ r v, {| ServerURL := ServerURL r; SessionID := SessionID r;
               UserID := UserID r; UserEmail := UserEmail r;
               UserFullName := UserFullName r; UserName := v |}) ].

Definition field_at (p : list string)
  : option (loginResponse → string → loginResponse) :=
  snd <$> head (filter (λ f, f.1 = p) login_fields).

Definition is_field (p : list string) : bool :=
  match field_at p with
  | Some _ => true
  | None => false
  end.

(** The decoder between two tokens, as for [xmlError]: the open elements,
    innermost first, the fields, and the character data of the field being
    read. *)
Record decoder := {
  open : list string;
  fields : loginResponse;
  data : string;
}.

Definition start (n : string) (d : decoder) : decoder :=
  let open' := n :: open d in
  {| open := open'; fields := fields d;
     data := if is_field (xml.path open') then "" else data d |}.

Definition finish (n : string) (d : decoder) : option decoder :=
  match open d with
  | top :: below =>
      if String.eqb top n then
        Some {| open := below;
                fields := match field_at (xml.path (open d)) with
                          | Some set => set (fields d) (data d)
                          | None => fields d
                          end;
                data := data d |}
      else None
  | [] => None
  end.

(** One token.  The root element has to be called [Envelope]. *)
Definition feed (t : xml.token) (d : decoder) : option decoder :=
  match t with
  | xml.StartElement n empty =>
      if match open d with
         | [] => negb (String.eqb (xml.local n) "Envelope")
         | _ => false
         end
      then None
      else if empty then finish n (start n d) else Some (start n d)
  | xml.EndElement n => finish n d
  | xml.CharData text =>
      Some (if is_field (xml.path (open d))
            then {| open := open d; fields := fields d; data := data d +:+ text |}
            else d)
  | xml.Other => Some d
  end.

Fixpoint decode_from (s : string) (skip : nat) (d : decoder)
  : option loginResponse :=
  match s with
  | EmptyString => None
  | String _ s' =>
      match skip with
      | S k => decode_from s' k d
      | O =>
          match xml.rawToken s with
          | Some (t, rest) =>
              match feed t d with
              | Some d' =>
                  match open d', t with
                  | [], xml.StartElement _ _ | [], xml.EndElement _ =>
                      Some (fields d')
                  | _, _ =>
                      decode_from s' (String.length s' - String.length rest) d'
                  end
              | None => None
              end
          | None => None
          end
      end
  end.

(** Every failure, a root element with another name included, is reported as
    the one error [xml.SyntaxError]. *)
Definition Unmarshal_loginResponse (data : string) : loginResponse + error :=
  match decode_from data 0
          {| open := []; data := "";
             fields := {| ServerURL := ""; SessionID := ""; UserID := "";
                          UserEmail := ""; UserFullName := ""; UserName := "" |} |}
  with
  | Some r => inl r
  | None => inr xml.SyntaxError
  end.

(** **** [url.Parse] *)

(** [strings.Cut] at a byte: what is before its first instance, what is
    after it, and whether there is one. *)
Fixpoint cut (sep : ascii) (s : string) : string * string * bool :=
  match s with
  | EmptyString => ("", "", false)
  | String c s' =>
      if Ascii.eqb c sep then ("", s', true)
      else let '(before, after, found) := cut sep s' in
           (String c before, after, found)
  end.

(** What follows the last instance of a byte. *)
Fixpoint after_last (sep : ascii) (s : string) : option string :=
  match s with
  | EmptyString => None
  | String c s' =>
      match after_last sep s' with
      | Some t => Some t
      | None => if Ascii.eqb c sep then Some s' else None
      end
  end.

Inductive scheme_result :=
| NoScheme
| MissingScheme
| SchemeAt (scheme rest : string).

(** [getScheme]; [first] holds at the first byte. *)
Fixpoint getScheme_from (s : string) (first : bool) : scheme_result :=
  match s with
  | EmptyString => NoScheme
  | String c s' =>
      let further :=
        match getScheme_from s' false with
        | SchemeAt scheme rest => SchemeAt (String c scheme) rest
        | r => r
        end in
      if in_range 97 122 c || in_range 65 90 c then further
      else if in_range 48 57 c || byte_in c "+-." then
        if first then NoScheme else further
      else if Ascii.eqb c ":" then
        if first then MissingScheme else SchemeAt "" s'
      else NoScheme
  end.

(** [validOptionalPort] of what follows the last [:] of a host. *)
Definition validOptionalPort (port : string) : bool :=
  golib_model.all_bytes (in_range 48 57) port.

(** The ASCII bytes a host may hold unescaped ([shouldEscape] in the mode of
    a host). *)
Definition host_byte (c : ascii) : bool :=
  in_range 128 255 c || in_range 97 122 c || in_range 65 90 c || in_range 48 57 c
  || byte_in c "!$&'()*+,;=:[]<>-_.~" || Ascii.eqb c dquote.

(** [ishex] *)
Definition ishex (c : ascii) : bool :=
  in_range 48 57 c || in_range 97 102 c || in_range 65 70 c.

(** What [unescape] checks in a path and in a fragment: every [%] is followed
    by two hexadecimal digits. *)
Fixpoint valid_escapes (s : string) : bool :=
  match s with
  | EmptyString => true
  | String c s' =>
      if Ascii.eqb c "%" then
        match s' with
        | String a (String b _) => ishex a && ishex b && valid_escapes s'
        | _ => false
        end
      else valid_escapes s'
  end.

Definition invalidEscape : error := libraryError "parse: invalid URL escape".

(** [url.Parse], as far as the scheme and the host: the fragment and the
    query are cut off, a scheme is read and put in lower case, the authority
    after [//] is the host, and the escapes of the path and of the fragment
    are checked, the path after the authority and the fragment last.  This is
    what Go does on a URL with no [%], [[] or [@] in its authority; with one
    of them Go also decodes the escapes of the host and checks the IP literal
    and the user information, which this model does not: it takes the bytes
    after the last [@] as they are and refuses a [%] among them. *)
Definition Parse (rawURL : string) : url_URL + error :=
  let '(u, frag, _) := cut "#" rawURL in
  let checked (parsed : url_URL + error) : url_URL + error :=
    match parsed with
    | inl url => if valid_escapes frag then inl url else inr invalidEscape
    | inr err => inr err
    end in
  let with_path (path : string) (url : url_URL) : url_URL + error :=
    if valid_escapes path then inl url else inr invalidEscape in
  checked (
  if negb (golib_model.all_bytes
             (λ c, negb (in_range 0 31 c || in_range 127 127 c)) u)
  then inr (libraryError "parse: net/url: invalid control character in URL")
  else if String.eqb u "*" then inl {| Scheme := ""; Host := "" |}
  else
    match getScheme_from u true with
    | MissingScheme => inr (libraryError "parse: missing protocol scheme")
    | r =>
        let '(scheme, rest) :=
          match r with
          | SchemeAt scheme rest => (xml.lower scheme, rest)
          | _ => ("", u)
          end in
        let rest := (cut "?" rest).1.1 in
        let rootless := negb (strings.HasPrefix rest "/") in
        if rootless && negb (String.eqb scheme "")
        then inl {| Scheme := scheme; Host := "" |}
        else if rootless && byte_in ":" (cut "/" rest).1.1
        then inr (libraryError
                    "parse: first path segment in URL cannot contain colon")
        else if strings.HasPrefix rest "//"
                && (negb (String.eqb scheme "")
                    || negb (strings.HasPrefix rest "///"))
        then
          let '(authority, path, _) :=
            cut "/" (String.substring 2 (String.length rest) rest) in
          let host := default authority (after_last "@" authority) in
          if match after_last ":" host with
             | Some port => negb (validOptionalPort port)
             | None => false
             end
          then inr (libraryError "parse: invalid port after host")
          else if negb (golib_model.all_bytes host_byte host)
          then inr (libraryError "parse: invalid character in host name")
          else with_path path {| Scheme := scheme; Host := host |}
        else with_path rest {| Scheme := scheme; Host := "" |}
    end).

End goplatform_model.

(** The platform of a machine whose network is the canned server [server]
    and whose disk takes every write.  Modelled from the spec: the metadata
    description [SObjectMeta] is an opaque structured mapping, read as an
    [SObject] is. *)
Definition goplatform (server : Transport) : Platform := {|
  xml_Unmarshal_loginResponse := goplatform_model.Unmarshal_loginResponse;
  url_Parse := goplatform_model.Parse;
  SObjectMeta := gmap string Value;
  json_Unmarshal_SObjectMeta := golib_model.Unmarshal_SObject;
  uhttp_HttpClient := unit;
  uhttp_NewClient := inl ();
  uhttp_NewBaseHttpClientWithContext := λ _, inl server;
  os_Create_check := λ _ _, None;
  file_Write := λ _ _, None;
|}.

(** ** Sequences of calls on clients *)

(** The methods of [Client] a caller can invoke between two queries. *)
Inductive call :=
| CallQuery (q : string)
| CallExecuteAnonymous (apexBody : string)
| CallApexREST (method path : string) (requestBody : option string)
| CallMakeURL (req : string)
| CallGetSid
| CallGetLoc
| CallSetSidLoc (sid loc : string)
| CallSetHttpClient (c : option Transport)
| CallTooling
| CallUnTooling.

Section Calls.
Context `{Library}.

Definition discard {A} (m : M A) : M unit := _ ← m; mret ().

Definition run_call (target : addr) (c : call) : M unit :=
  match c with
  | CallQuery q => discard (Query target q)
  | CallExecuteAnonymous apexBody => discard (ExecuteAnonymous target apexBody)
  | CallApexREST method path requestBody =>
      discard (ApexREST target method path requestBody)
  | CallMakeURL req => discard (makeURL target req)
  | CallGetSid => discard (GetSid target)
  | CallGetLoc => discard (GetLoc target)
  | CallSetSidLoc sid loc => SetSidLoc target sid loc
  | CallSetHttpClient c => SetHttpClient target c
  | CallTooling => discard (Tooling target)
  | CallUnTooling => UnTooling target
  end.

(** The calls are made in order, each on its own client; a panic ends the
    sequence. *)
Fixpoint run_calls (cs : list (addr * call)) : M unit :=
  match cs with
  | [] => mret ()
  | (target, c) :: cs' => _ ← run_call target c; run_calls cs'
  end.

End Calls.

(** ** Vocabulary of the properties *)

(** The error [ParseSalesforceError] makes of a decoded payload. *)
Definition decodedError (statusCode : Z) (message code : string) : error :=
  salesforceError {|
    Message := "[simpleforce] Error. http code: " +:+ pretty statusCode
               +:+ " Error Message:  " +:+ message +:+ " Error Code: " +:+ code;
    HttpCode := statusCode;
    ErrorCode := code;
    ErrorMessage := message |}.

(** The error it makes of a body no decoder accepts. *)
Definition rawError (statusCode : Z) (responseBody : string) : error :=
  salesforceError {|
    Message := responseBody;
    HttpCode := statusCode;
    ErrorCode := "";
    ErrorMessage := "" |}.

(** The requests a computation puts on the wire. *)
Definition sent {A} (m : M A) (w : World) : list Request :=
  drop (length (wire w)) (wire (m w).2).

(** The request [httpRequest] builds for a client. *)
Definition requestOf (c : Client) (method u : string) (body : option string)
  : Request :=
  {| Method := if String.eqb method "" then "GET" else method;
     URL := u;
     Header := [("Authorization", "Bearer " +:+ sessionID c);
                ("Content-Type", "application/json")];
     RequestBody := body |}.

(** The URL the specification gives the request of a query: a continuation
    token goes to the instance as it is, a query string goes, escaped, to the
    query endpoint or to its tooling variant. *)
Definition query_target (c : Client) (q : string) : string :=
  if strings.HasPrefix q "/services/data"
  then instanceURL c +:+ q
  else instanceURL c +:+ "/services/data/v" +:+ apiVersion c
       +:+ (if useToolingAPI c then "/tooling/query?q=" else "/query?q=")
       +:+ url.QueryEscape q.

(** A computation that never writes to a client. *)
Definition preserves_heap {A} (m : M A) : Prop := ∀ w, heap (m w).2 = heap w.

(** The tooling flag of a client after a call, given the flag before it:
    only [Tooling] and [UnTooling] on that very client change it. *)
Definition flag_after (p target : addr) (c : call) (flag : bool) : bool :=
  if decide (target = p) then
    match c with
    | CallTooling => true
    | CallUnTooling => false
    | _ => flag
    end
  else flag.

(** The URL of a query string [q] at the query endpoint of a client, or at
    its tooling variant. *)
Definition query_endpoint (c : Client) (tooling : bool) (q : string) : string :=
  instanceURL c +:+ "/services/data/v" +:+ apiVersion c
  +:+ (if tooling then "/tooling/query?q=" else "/query?q=")
  +:+ url.QueryEscape q.

(** The world after the mode of a client is set, by [Tooling()] for [true]
    and by [UnTooling()] for [false], and a sequence of calls has run. *)
Definition after_mode `{Library} (client : addr) (tooling : bool)
    (cs : list (addr * call)) (w : World) : World :=
  (run_calls cs
     ((if tooling then discard (Tooling client) else UnTooling client) w).2).2.

(** A status outside of 200..299. *)
Definition failed (r : Response) : Prop :=
  (StatusCode r < 200 ∨ 299 < StatusCode r)%Z.

(** *** Inputs of the examples *)

(** The examples write a JSON text with ['] where it has a double quote. *)
Fixpoint json_text (s : string) : string :=
  match s with
  | EmptyString => EmptyString
  | String c s' =>
      String (if Ascii.eqb c "'" then utf8.dquote else c) (json_text s')
  end.

(** The body of the specification's example, and another REST error. *)
Definition xyBody : string := json_text "[{'message':'X','errorCode':'Y'}]".

Definition goneBody : string :=
  json_text "[{'message':'gone','errorCode':'NOT_FOUND'}]".

(** A body both decoders of [golib] accept. *)
Definition jsonAndXml : string :=
  json_text "[{'message':'<down/>','errorCode':'E'}]".

Definition soapFault : string :=
  "<?xml version='1.0' encoding='UTF-8'?>"
  +:+ "<soapenv:Envelope xmlns:soapenv='http://schemas.xmlsoap.org/soap/envelope/'>"
  +:+ "<soapenv:Body><soapenv:Fault><faultcode>INVALID_LOGIN</faultcode>"
  +:+ "<faultstring>INVALID_LOGIN: Invalid username</faultstring>"
  +:+ "</soapenv:Fault></soapenv:Body></soapenv:Envelope>".

(** A server that answers every request with one status and one body, behind
    a transport that reports no error of its own: with a status outside
    200..299 this is the branch of [httpRequest] for a failed status and a
    [nil] error. *)
Definition always (status : Z) (body : string) : Transport :=
  λ _ _, (Some {| StatusCode := status; Body := (body, None) |}, None).

(** A client as [NewClient] and a login leave it. *)
Definition loggedIn (transport : Transport) : Client :=
  {| sessionID := "00Dxx!AQ"; user := {| id := "005"; name := "u@example.com";
                                         fullName := "U"; email := "u@example.com" |};
     clientID := DefaultClientID; apiVersion := DefaultAPIVersion;
     baseURL := DefaultURL; instanceURL := "https://na1.salesforce.com";
     useToolingAPI := false; httpClient := Some transport |}.

(** The same client before any login. *)
Definition loggedOut (transport : Transport) : Client :=
  {| sessionID := ""; user := {| id := ""; name := ""; fullName := ""; email := "" |};
     clientID := DefaultClientID; apiVersion := DefaultAPIVersion;
     baseURL := DefaultURL; instanceURL := "";
     useToolingAPI := false; httpClient := Some transport |}.

(** A page of two records, the second with a stale binding, and the result
    [Query] makes of it for the client at address 1. *)
Definition twoRecords : string :=
  json_text ("{'totalSize':2,'done':true,'records':"
             +:+ "[{'Id':'500A'},{'Id':'500B','__client__':7}]}").

Definition twoRecordsBound : QueryResult :=
  {| TotalSize := 2; Done := true; NextRecordsURL := "";
     Records := [ <[sobjectClientKey := VClient 1]> {[ "Id" := VString "500A" ]};
                  <[sobjectClientKey := VClient 1]> {[ "Id" := VString "500B" ]} ] |}.

(** A world with one client, at address 1, and nothing on the wire. *)
Definition world (c : Client) : World := {| heap := {[ 1 := c ]}; wire := [] |}.

(** A client that logged in with its API version written [v54.0]. *)
Definition versioned : Client :=
  with_apiVersion (loggedIn (always 200 "{}")) "v54.0".

(** Calls made in tooling mode, on the client at address 1 and on another
    one, with no [UnTooling] on the first. *)
Definition toolingSession : list (addr * call) :=
  [(1, CallQuery "SELECT Id FROM ApexClass"); (1, CallMakeURL "sobjects/Case");
   (2, CallUnTooling); (1, CallSetSidLoc "00Dyy!AR" "https://eu5.salesforce.com");
   (1, CallTooling); (1, CallGetSid)].

(** A world with two clients, at the addresses 1 and 2. *)
Definition twoClients : World :=
  {| heap := <[2 := loggedIn (always 200 "{}")]>
               {[ 1 := loggedIn (always 200 "{}") ]};
     wire := [] |}.

(** A response whose body cannot be read to its end. *)
Definition brokenBody : Response :=
  {| StatusCode := 500; Body := ("", Some (libraryError "unexpected EOF")) |}.

Definition connectionReset : error := libraryError "connection reset by peer".

(** Unfolds the monad, so that a method applied to a world computes. *)
Ltac run :=
  unfold discard in *;
  unfold mbind, M_bind, mret, M_ret, deref, assign, Do, lift, panic in *;
  cbv beta in *.

Ltac cases := repeat (case_match; simplify_eq/=; try done).

(** ** Vocabulary of the further properties *)

(** A byte an escaped query parameter is made of: one that stands for
    itself, the [%] of an escape or the [+] of a space. *)
Definition query_safe (c : ascii) : bool :=
  url.is_unreserved c || Ascii.eqb c "%" || Ascii.eqb c "+".

(** Every byte of a string satisfies [p]. *)
Definition every_byte (p : ascii → bool) (s : string) : Prop :=
  golib_model.all_bytes p s = true.

(** The URL of [ExecuteAnonymous] for a body of Apex code. *)
Definition executeAnonymous_target (c : Client) (apexBody : string) : string :=
  instanceURL c +:+ "/services/data/v" +:+ apiVersion c
  +:+ "/tooling/executeAnonymous/?anonymousBody=" +:+ url.QueryEscape apexBody.

(** A page of [Query] with its records bound to a client. *)
Definition bound (client : addr) (page : QueryResult) : QueryResult :=
  {| TotalSize := TotalSize page; Done := Done page;
     NextRecordsURL := NextRecordsURL page;
     Records := (λ obj, setClient obj client) <$> Records page |}.

(** A status in 200..299. *)
Definition succeeded (r : Response) : Prop :=
  (200 ≤ StatusCode r ∧ StatusCode r ≤ 299)%Z.

(** *** Inputs of the further examples *)

Definition soql : string := "SELECT Id FROM Case WHERE Name = 'a&b'".

(** A client that is logged in, on a server that answers [{}]. *)
Definition session : Client := loggedIn (always 200 "{}").

(** The string [s] with every byte [x] taken out. *)
Fixpoint remove_byte (x : ascii) (s : string) : string :=
  match s with
  | EmptyString => EmptyString
  | String c s' =>
      if Ascii.eqb c x then remove_byte x s' else String c (remove_byte x s')
  end.

(** The SOAP envelope of a login: the text of [soapBody] around the client
    id, the user name, and the password directly followed by the token. *)
Definition envelope (clientID username password token : string) : string :=
  raw_lines [
    "<?xml version='1.0' encoding='utf-8' ?>";
    "        <env:Envelope";
    "                xmlns:xsd='http://www.w3.org/2001/XMLSchema'";
    "                xmlns:xsi='http://www.w3.org/2001/XMLSchema-instance'";
    "                xmlns:env='http://schemas.xmlsoap.org/soap/envelope/'";
    "                xmlns:urn='urn:partner.soap.sforce.com'>";
    "            <env:Header>";
    "                <urn:CallOptions>";
    "                    <urn:client>" ]
  +:+ clientID
  +:+ raw_lines [
    "</urn:client>";
    "                    <urn:defaultNamespace>sf</urn:defaultNamespace>";
    "                </urn:CallOptions>";
    "            </env:Header>";
    "            <env:Body>";
    "                <n1:login xmlns:n1='urn:partner.soap.sforce.com'>";
    "                    <n1:username>" ]
  +:+ username
  +:+ raw_lines [ "</n1:username>"; "                    <n1:password>" ]
  +:+ password +:+ token
  +:+ raw_lines [
    "</n1:password>";
    "                </n1:login>";
    "            </env:Body>";
    "        </env:Envelope>" ].

(** The request of a login. *)
Definition loginRequest (c : Client) (username password token : string)
  : Request :=
  {| Method := "POST";
     URL := baseURL c +:+ "/services/Soap/u/" +:+ apiVersion c;
     Header := [("Content-Type", "text/xml"); ("Charset", "UTF-8");
                ("Soapaction", "login")];
     RequestBody :=
       Some (envelope (clientID c) username (html.EscapeString password) token) |}.

(** A byte that cannot open or close markup or an attribute value. *)
Definition markup_free (c : ascii) : bool :=
  negb (byte_in c "<>'" || Ascii.eqb c utf8.dquote).

(** The user a login response names. *)
Definition userOf (r : loginResponse) : User :=
  {| id := UserID r; name := UserName r; fullName := UserFullName r;
     email := UserEmail r |}.

(** The answer of the server to a login that succeeds, and the same answer
    with no session id in it. *)
Definition loginAnswer (sessionId : string) : string :=
  "<?xml version='1.0' encoding='UTF-8'?>"
  +:+ "<soapenv:Envelope xmlns:soapenv='http://schemas.xmlsoap.org/soap/envelope/'"
  +:+ " xmlns='urn:partner.soap.sforce.com'><soapenv:Body><loginResponse><result>"
  +:+ "<serverUrl>https://na1.salesforce.com/services/Soap/u/54.0/00Dxx</serverUrl>"
  +:+ sessionId
  +:+ "<userId>005</userId><userInfo><userEmail>u@example.com</userEmail>"
  +:+ "<userFullName>U</userFullName><userName>u@example.com</userName>"
  +:+ "</userInfo></result></loginResponse></soapenv:Body></soapenv:Envelope>".

Definition loginBody : string := loginAnswer "<sessionId>00Dxx!AQ</sessionId>".

Definition loginBodyNoSession : string := loginAnswer "".

(** A client as [NewClient] leaves it, with a transport given. *)
Definition fresh_client (transport : Transport) : Client :=
  {| sessionID := ""; user := {| id := ""; name := ""; fullName := ""; email := "" |};
     clientID := DefaultClientID; apiVersion := DefaultAPIVersion;
     baseURL := DefaultURL; instanceURL := "";
     useToolingAPI := false; httpClient := Some transport |}.

(** The request of a download and of [DescribeGlobal] for a URL. *)
Definition plainRequest (c : Client) (u : string) : Request :=
  {| Method := "GET"; URL := u;
     Header := [("Content-Type", "application/json; charset=UTF-8");
                ("Accept", "application/json");
                ("Authorization", "Bearer " +:+ sessionID c)];
     RequestBody := None |}.

(** The URL of a download. *)
Definition download_target (c : Client) (apiPath : string) : string :=
  strings_TrimRight (instanceURL c) "/" +:+ apiPath.

(** The URL of [DescribeGlobal]. *)
Definition describe_target (c : Client) : string :=
  strings_TrimRight (baseURL c) "/" +:+ "/services/data/v" +:+ apiVersion c
  +:+ "/sobjects".

(** The error of a download for a response with a failed status. *)
Definition downloadError (r : Response) : error :=
  errors.New ("ERROR: statuscode: " +:+ pretty (StatusCode r) +:+ ", body: "
              +:+ (Body r).1).

(** A computation that puts at most one request on the wire, and takes none
    off it. *)
Definition sends_at_most_one {A} (m : M A) : Prop :=
  ∀ w, wire (m w).2 = wire w ∨ ∃ r, wire (m w).2 = (wire w ++ [r])%list.

(** What a call that returns a result and an error may do: panic, return an
    error and no result, or return a result and no error. *)
Definition result_or_error {A} (m : M (option A * option error)) : Prop :=
  ∀ w, (∃ reason, (m w).1 = Panics reason)
       ∨ (∃ err, (m w).1 = Returns (None, Some err))
       ∨ (∃ a, (m w).1 = Returns (Some a, None)).

(** What the client of [uhttp] guarantees of the answers of [Do], and the
    tests of the package rely on (after a 404 they expect an error of [Do]
    with the code [NotFound]): an answer without an error holds a response with
    a status in 200..299 whose body [Do] has read to its end.  With every
    other response, and when the body cannot be read, [Do] returns an error of
    its own. *)
Definition uhttp_contract (t : Transport) : Prop :=
  ∀ sent req resp,
    t sent req = (resp, None) →
    ∃ r, resp = Some r ∧ succeeded r ∧ (Body r).2 = None.

(** The error [Do] returns with a response whose status is outside 200..299;
    it stands for the gRPC status error of [uhttp], whose code and text are
    not modelled. *)
Definition uhttpStatusError : error := libraryError "rpc error: request failed".

(** A server behind the client of [uhttp]: it answers every request with one
    status and one body, and [Do] reports an error with a status outside
    200..299. *)
Definition uhttp_always (status : Z) (body : string) : Transport :=
  λ _ _, (Some {| StatusCode := status; Body := (body, None) |},
          if ((status <? 200) || (299 <? status))%Z
          then Some uhttpStatusError else None).

(** No response, or a response with a status in 200..299. *)
Definition no_failed_status (resp : option Response) : Prop :=
  ∀ r, resp = Some r → succeeded r.

(** A server that cannot be reached: [Do] returns no response and the error
    of the connection. *)
Definition unreachable : Transport := λ _ _, (None, Some connectionReset).

(** * Properties *)

(** ** The library functions on concrete inputs *)

Example QueryEscape_soql :
  url.QueryEscape "SELECT Id FROM Case WHERE Name = 'a&b'"
  = "SELECT+Id+FROM+Case+WHERE+Name+%3D+%27a%26b%27".
Proof. reflexivity. Qed.

Example Sprintf_three :
  fmt.Sprintf "%s/services/data/v%s/query?q=%s"
    [fmt.Str "https://x"; fmt.Str "54.0"; fmt.Str "a+b"]
  = "https://x/services/data/v54.0/query?q=a+b".
Proof. reflexivity. Qed.

Example Replace_all_v : strings.Replace "vv54.0v" "v" "" (-1) = "54.0".
Proof. reflexivity. Qed.

Example parse_nested :
  json.parse (json_text "{'a':[1,-2.5e+3,true,null,{}],'b':'xé\n'}")
  = Some (json.JObject
            [("a", json.JArray [json.JNumber "1"; json.JNumber "-2.5e+3";
                                json.JBool true; json.JNull; json.JObject []]);
             ("b", json.JString ("x" +:+ utf8.encode_rune 233
                                 +:+ String (utf8.byte 10) ""))]).
Proof. reflexivity. Qed.

Example parse_rejects :
  json.parse "[1,]" = None ∧ json.parse "01" = None ∧ json.parse "1 2" = None
  ∧ json.parse "" = None ∧ json.parse (json_text "{'a' 1}") = None.
Proof. repeat split; reflexivity. Qed.

Example Unmarshal_xmlError_soap :
  golib_model.Unmarshal_xmlError
    ("<?xml version='1.0' encoding='UTF-8'?>"
     +:+ "<soapenv:Envelope xmlns:soapenv='http://schemas.xmlsoap.org/soap/envelope/'>"
     +:+ "<soapenv:Body><soapenv:Fault><faultcode>INVALID_LOGIN</faultcode>"
     +:+ "<faultstring>INVALID_LOGIN: Invalid username &amp; password</faultstring>"
     +:+ "</soapenv:Fault></soapenv:Body></soapenv:Envelope>")
  = inl {| xmlMessage := "INVALID_LOGIN: Invalid username & password";
           xmlErrorCode := "INVALID_LOGIN" |}.
Proof. vm_compute. reflexivity. Qed.

Example Unmarshal_xmlError_rejects :
  golib_model.Unmarshal_xmlError "Service Unavailable" = inr xml.SyntaxError
  ∧ golib_model.Unmarshal_xmlError "" = inr xml.SyntaxError
  ∧ golib_model.Unmarshal_xmlError "<a><b></a></b>" = inr xml.SyntaxError.
Proof. repeat split; vm_compute; reflexivity. Qed.

(** ** Strings *)

Lemma append_String (c : ascii) (s t : string) :
  String c s +:+ t = String c (s +:+ t).
Proof. reflexivity. Qed.

Lemma append_nil_l (t : string) : "" +:+ t = t.
Proof. reflexivity. Qed.

Lemma append_nil_r (s : string) : s +:+ "" = s.
Proof.
  induction s as [|c s IH]; [done|]. by rewrite append_String, IH.
Qed.

Lemma append_assoc (s t u : string) : (s +:+ t) +:+ u = s +:+ (t +:+ u).
Proof.
  induction s as [|c s IH]; [done|]. by rewrite !append_String, IH.
Qed.

Lemma eqb_empty_false (s : string) : s ≠ "" → String.eqb s "" = false.
Proof. intros Hs. by apply String.eqb_neq. Qed.

(** Folds the appends of literals away. *)
Ltac literals := rewrite ?append_String, ?append_nil_l, ?append_nil_r.

Lemma eqb_empty (s : string) : String.eqb s "" = true ↔ s = "".
Proof. apply String.eqb_eq. Qed.

Lemma errorFormat_literal :
  errorFormat
  = "[simpleforce] Error. http code: %v Error Message:  %v Error Code: %v".
Proof. reflexivity. Qed.

(** The text [ParseSalesforceError] formats for a decoded payload. *)
Lemma errorFormat_text (statusCode : Z) (message code : string) :
  fmt.Sprintf errorFormat
    [fmt.Int statusCode; fmt.Str message; fmt.Str code]
  = "[simpleforce] Error. http code: " +:+ pretty statusCode
    +:+ " Error Message:  " +:+ message +:+ " Error Code: " +:+ code.
Proof. rewrite errorFormat_literal. simpl. by literals. Qed.

(** ** The error unifier *)

Section ErrorUnifierFacts.
Context `{Library}.

Lemma ParseSalesforceError_json statusCode responseBody first rest :
  json_Unmarshal_jsonError responseBody = inl (first :: rest) →
  ParseSalesforceError statusCode responseBody
  = Returns (decodedError statusCode (jsonMessage first) (jsonErrorCode first)).
Proof.
  intros Hjson. unfold ParseSalesforceError, decodedError.
  by rewrite Hjson, errorFormat_text.
Qed.

Lemma ParseSalesforceError_json_empty statusCode responseBody :
  json_Unmarshal_jsonError responseBody = inl [] →
  ParseSalesforceError statusCode responseBody
  = Panics "runtime error: index out of range [0] with length 0".
Proof. intros Hjson. unfold ParseSalesforceError. by rewrite Hjson. Qed.

Lemma ParseSalesforceError_xml statusCode responseBody jerr fault :
  json_Unmarshal_jsonError responseBody = inr jerr →
  xml_Unmarshal_xmlError responseBody = inl fault →
  ParseSalesforceError statusCode responseBody
  = Returns (decodedError statusCode (xmlMessage fault) (xmlErrorCode fault)).
Proof.
  intros Hjson Hxml. unfold ParseSalesforceError, decodedError.
  by rewrite Hjson, Hxml, errorFormat_text.
Qed.

Lemma ParseSalesforceError_raw statusCode responseBody jerr xerr :
  json_Unmarshal_jsonError responseBody = inr jerr →
  xml_Unmarshal_xmlError responseBody = inr xerr →
  ParseSalesforceError statusCode responseBody
  = Returns (rawError statusCode responseBody).
Proof.
  intros Hjson Hxml. unfold ParseSalesforceError, rawError.
  by rewrite Hjson, Hxml.
Qed.

(** The unifier returns unless the JSON decoder gives an empty array. *)
Lemma ParseSalesforceError_returns_iff statusCode responseBody :
  (∃ e, ParseSalesforceError statusCode responseBody = Returns e)
  ↔ json_Unmarshal_jsonError responseBody ≠ inl [].
Proof.
  unfold ParseSalesforceError.
  destruct (json_Unmarshal_jsonError responseBody) as [[|first rest]|jerr].
  - split; [intros [e He]; discriminate | intros Hne; by destruct Hne].
  - split; [discriminate | eauto].
  - split; [discriminate|]. intros _.
    destruct (xml_Unmarshal_xmlError responseBody); eauto.
Qed.

End ErrorUnifierFacts.

(** With the decoders of [golib], a body that starts with markup, after
    blanks if any, is no JSON text: it goes to the XML decoder. *)
Lemma scan_blanks (m : json.machine) (blanks rest : string) :
  json.st m = json.BeginValue →
  golib_model.all_bytes json.is_space blanks = true →
  json.scan m (blanks +:+ rest) = json.scan m rest.
Proof.
  intros Hst. induction blanks as [|c blanks IH]; [done|].
  intros [Hc Hblanks]%andb_true_iff. rewrite append_String.
  change (json.scan m (String c (blanks +:+ rest)))
    with (match json.step m c with
          | Some m' => json.scan m' (blanks +:+ rest)
          | None => None
          end).
  unfold json.step. rewrite Hst. unfold json.begin_value. rewrite Hc.
  by apply IH.
Qed.

Lemma golib_markup_is_not_json (blanks body : string) :
  golib_model.all_bytes json.is_space blanks = true →
  json_Unmarshal_jsonError (Library := golib) (blanks +:+ String "<" body)
  = inr json.SyntaxError.
Proof.
  intros Hblanks. simpl.
  unfold golib_model.Unmarshal_jsonError, golib_model.finish, json.parse.
  by rewrite scan_blanks.
Qed.

Lemma golib_fault_body (statusCode : Z) (blanks body : string) (fault : xmlError) :
  golib_model.all_bytes json.is_space blanks = true →
  golib_model.Unmarshal_xmlError (blanks +:+ String "<" body) = inl fault →
  ParseSalesforceError (H := golib) statusCode (blanks +:+ String "<" body)
  = Returns (decodedError statusCode (xmlMessage fault) (xmlErrorCode fault)).
Proof.
  intros Hblanks Hxml.
  by apply (ParseSalesforceError_xml _ _ json.SyntaxError);
    [apply golib_markup_is_not_json|].
Qed.

(** C1 (the code fails it).  For every status code and body,
    [ParseSalesforceError] tries the decoders in a fixed order: when the body
    decodes as a JSON array with a first element the error is built from that
    element, whatever the XML decoder would say; when the JSON decoder fails
    and the XML decoder accepts the body the error is built from the fault
    string and the fault code; when both fail the error carries the body
    verbatim as its message and an empty error code.  But when the body
    decodes as a JSON array with no element, the first stage has nothing to
    use and does not fall through to the next: [jsonError[0]] panics and no
    error is produced. *)
Theorem ParseSalesforceError_decoder_order `{Library}
    (statusCode : Z) (responseBody : string) :
  (json_Unmarshal_jsonError responseBody = inl [] →
   ParseSalesforceError statusCode responseBody
   = Panics "runtime error: index out of range [0] with length 0")
  ∧ (∀ first rest,
     json_Unmarshal_jsonError responseBody = inl (first :: rest) →
     ParseSalesforceError statusCode responseBody
     = Returns (decodedError statusCode (jsonMessage first)
                  (jsonErrorCode first)))
  ∧ (∀ jerr fault,
       json_Unmarshal_jsonError responseBody = inr jerr →
       xml_Unmarshal_xmlError responseBody = inl fault →
       ParseSalesforceError statusCode responseBody
       = Returns (decodedError statusCode (xmlMessage fault)
                    (xmlErrorCode fault)))
  ∧ (∀ jerr xerr,
       json_Unmarshal_jsonError responseBody = inr jerr →
       xml_Unmarshal_xmlError responseBody = inr xerr →
       ParseSalesforceError statusCode responseBody
       = Returns (salesforceError {| Message := responseBody;
                                     HttpCode := statusCode;
                                     ErrorCode := "";
                                     ErrorMessage := "" |})).
Proof.
  split; [apply ParseSalesforceError_json_empty|]. split; [|split].
  - intros first rest. apply ParseSalesforceError_json.
  - intros jerr fault. apply ParseSalesforceError_xml.
  - intros jerr xerr. apply ParseSalesforceError_raw.
Qed.

(** The order at work on four bodies: an empty JSON array, one both decoders
    accept, a SOAP fault, and plain text. *)
Lemma ParseSalesforceError_decoder_order_witness :
  ParseSalesforceError (H := golib) 500 "[]"
  = Panics "runtime error: index out of range [0] with length 0"
  ∧ golib_model.Unmarshal_xmlError jsonAndXml
    = inl {| xmlMessage := ""; xmlErrorCode := "" |}
  ∧ ParseSalesforceError 500 jsonAndXml
    = Returns (decodedError 500 "<down/>" "E")
  ∧ ParseSalesforceError 500
      "<e><Body><Fault><faultstring>no</faultstring></Fault></Body></e>"
    = Returns (decodedError 500 "no" "")
  ∧ ParseSalesforceError 503 "Service Unavailable"
    = Returns (rawError 503 "Service Unavailable").
Proof.
  split.
  { apply (proj1 (ParseSalesforceError_decoder_order (H := golib) 500 "[]")).
    vm_compute. reflexivity. }
  split; [vm_compute; reflexivity|].
  split; [|split].
  - apply (proj1 (proj2 (ParseSalesforceError_decoder_order (H := golib) 500
                           jsonAndXml))
             {| jsonMessage := "<down/>"; jsonErrorCode := "E" |} []).
    vm_compute. reflexivity.
  - apply (proj1 (proj2 (proj2 (ParseSalesforceError_decoder_order (H := golib)
                                  500
                                  "<e><Body><Fault><faultstring>no</faultstring></Fault></Body></e>")))
             json.SyntaxError {| xmlMessage := "no"; xmlErrorCode := "" |});
      vm_compute; reflexivity.
  - apply (proj2 (proj2 (proj2 (ParseSalesforceError_decoder_order (H := golib)
                                  503 "Service Unavailable")))
             json.SyntaxError xml.SyntaxError);
      vm_compute; reflexivity.
Defined.

(** C2 (the code fails it).  On the bodies [[]] and [null] the JSON decoder
    succeeds with an empty array and [jsonError[0]] panics: no error value is
    returned.  An empty body is not accepted by either decoder and gives the
    verbatim error. *)
Theorem ParseSalesforceError_panics_on_empty_array :
  ParseSalesforceError (H := golib) 400 "[]"
  = Panics "runtime error: index out of range [0] with length 0"
  ∧ ParseSalesforceError (H := golib) 400 "null"
    = Panics "runtime error: index out of range [0] with length 0"
  ∧ ParseSalesforceError (H := golib) 400 "" = Returns (rawError 400 "").
Proof. repeat split; vm_compute; reflexivity. Qed.

(** C3 as stated fails whichever field a "message" is: for the JSON body the
    message returned by [Error] is the formatted text, not [X]; for a body no
    decoder accepts the remote error message is empty, not the body. *)
Lemma error_unification_message_counterexample :
  (∃ e, ParseSalesforceError (H := golib) 400
          xyBody
        = Returns (salesforceError e)
        ∧ Error e = "[simpleforce] Error. http code: 400 Error Message:  X Error Code: Y"
        ∧ Message e ≠ "X")
  ∧ (∃ e, ParseSalesforceError (H := golib) 400 "Service Unavailable"
          = Returns (salesforceError e)
          ∧ ErrorMessage e = ""
          ∧ ErrorMessage e ≠ "Service Unavailable").
Proof.
  split; eexists; (split; [vm_compute; reflexivity|]); simpl;
    (split; [reflexivity | discriminate]).
Qed.

(** C3, amended.  For a JSON array body whose first element has message [X]
    and error code [Y] the error has [ErrorMessage = X] and [ErrorCode = Y]
    (and [Error] returns the formatted text that embeds the status, [X] and
    [Y]); for an XML fault body [ErrorMessage] is the fault string; for a body
    neither decoder accepts [Message], the text [Error] returns, is the body
    verbatim, and [ErrorMessage] and [ErrorCode] are empty. *)
Theorem error_unification_fields `{Library} (statusCode : Z) (responseBody : string) :
  (∀ X Y rest,
     json_Unmarshal_jsonError responseBody
     = inl ({| jsonMessage := X; jsonErrorCode := Y |} :: rest) →
     ∃ e, ParseSalesforceError statusCode responseBody
          = Returns (salesforceError e)
          ∧ ErrorMessage e = X ∧ ErrorCode e = Y ∧ HttpCode e = statusCode
          ∧ Error e = "[simpleforce] Error. http code: " +:+ pretty statusCode
                      +:+ " Error Message:  " +:+ X +:+ " Error Code: " +:+ Y)
  ∧ (∀ jerr fault,
       json_Unmarshal_jsonError responseBody = inr jerr →
       xml_Unmarshal_xmlError responseBody = inl fault →
       ∃ e, ParseSalesforceError statusCode responseBody
            = Returns (salesforceError e)
            ∧ ErrorMessage e = xmlMessage fault
            ∧ ErrorCode e = xmlErrorCode fault)
  ∧ (∀ jerr xerr,
       json_Unmarshal_jsonError responseBody = inr jerr →
       xml_Unmarshal_xmlError responseBody = inr xerr →
       ∃ e, ParseSalesforceError statusCode responseBody
            = Returns (salesforceError e)
            ∧ Error e = responseBody ∧ Message e = responseBody
            ∧ ErrorMessage e = "" ∧ ErrorCode e = "").
Proof.
  split; [|split].
  - intros X Y rest Hjson.
    rewrite (ParseSalesforceError_json _ _ _ _ Hjson). by eexists.
  - intros jerr fault Hjson Hxml.
    rewrite (ParseSalesforceError_xml _ _ _ _ Hjson Hxml). by eexists.
  - intros jerr xerr Hjson Hxml.
    rewrite (ParseSalesforceError_raw _ _ _ _ Hjson Hxml). by eexists.
Qed.

Lemma error_unification_fields_witness :
  (∃ e, ParseSalesforceError (H := golib) 400
          xyBody
        = Returns (salesforceError e)
        ∧ ErrorMessage e = "X" ∧ ErrorCode e = "Y" ∧ HttpCode e = 400%Z
        ∧ Error e = "[simpleforce] Error. http code: " +:+ pretty 400%Z
                    +:+ " Error Message:  " +:+ "X" +:+ " Error Code: " +:+ "Y")
  ∧ (∃ e, ParseSalesforceError (H := golib) 500 soapFault
          = Returns (salesforceError e)
          ∧ ErrorMessage e = "INVALID_LOGIN: Invalid username"
          ∧ ErrorCode e = "INVALID_LOGIN")
  ∧ (∃ e, ParseSalesforceError (H := golib) 503 "Service Unavailable"
          = Returns (salesforceError e)
          ∧ Error e = "Service Unavailable" ∧ Message e = "Service Unavailable"
          ∧ ErrorMessage e = "" ∧ ErrorCode e = "").
Proof.
  split; [|split].
  - apply (proj1 (error_unification_fields (H := golib) 400
                    xyBody) "X" "Y" []).
    vm_compute. reflexivity.
  - apply (proj1 (proj2 (error_unification_fields (H := golib) 500 soapFault))
             json.SyntaxError
             {| xmlMessage := "INVALID_LOGIN: Invalid username";
                xmlErrorCode := "INVALID_LOGIN" |});
      vm_compute; reflexivity.
  - apply (proj2 (proj2 (error_unification_fields (H := golib) 503
                           "Service Unavailable"))
             json.SyntaxError xml.SyntaxError);
      vm_compute; reflexivity.
Defined.

(** ** Running the methods *)

Section Effects.
Context `{Library}.

Lemma sent_app {A} (m : M A) (w : World) (rs : list Request) :
  wire (m w).2 = (wire w ++ rs)%list → sent m w = rs.
Proof. intros Hw. unfold sent. by rewrite Hw, drop_app_length. Qed.

(** [httpRequest] never writes to a client. *)
Lemma httpRequest_heap client method u body w :
  heap (httpRequest client method u body w).2 = heap w.
Proof. unfold httpRequest. run. cases. Qed.

(** [httpRequest] on a client with a transport, for a method and a URL the
    library accepts: the request goes on the wire and the answer of the
    transport decides the result. *)
Lemma httpRequest_exchange client c transport method u body w :
  heap w !! client = Some c →
  httpClient c = Some transport →
  http_NewRequest_check method u = None →
  httpRequest client method u body w
  = let req := requestOf c method u body in
    let w' := {| heap := heap w; wire := wire w ++ [req] |} in
    match transport (wire w) req with
    | (resp, Some err) =>
        match parseUhttpError resp (Some err) with
        | Returns e => (Returns ("", e), w')
        | Panics reason => (Panics reason, w')
        end
    | (None, None) => (Panics nilDereference, w')
    | (Some r, None) =>
        if ((StatusCode r <? 200) || (299 <? StatusCode r))%Z then
          match parseUhttpError (Some r) None with
          | Returns e => (Returns ("", e), w')
          | Panics reason => (Panics reason, w')
          end
        else (Returns (Body r), w')
    end.
Proof.
  intros Hc Ht Hcheck.
  unfold httpRequest, http.NewRequestWithContext, requestOf, http.Header_Add.
  run. rewrite Hcheck, Hc. simpl. rewrite Ht. simpl. literals.
  destruct (transport _ _) as [[r|] [err|]]; try done.
  unfold parseUhttpError. by destruct (_ || _).
Qed.

(** It puts at most one request on the wire, for the method and the URL it
    was given. *)
Lemma httpRequest_wire client method u body w :
  ∃ rs, wire (httpRequest client method u body w).2 = (wire w ++ rs)%list
        ∧ (length rs ≤ 1)%nat
        ∧ ∀ r, r ∈ rs →
               URL r = u ∧ RequestBody r = body
               ∧ Method r = (if String.eqb method "" then "GET" else method).
Proof.
  assert (∀ w' : World, wire w' = wire w →
            ∃ rs, wire w' = (wire w ++ rs)%list ∧ (length rs ≤ 1)%nat
                  ∧ ∀ r, r ∈ rs →
                         URL r = u ∧ RequestBody r = body
                         ∧ Method r
                           = (if String.eqb method "" then "GET" else method))
    as Hnone.
  { intros w' Hw'. exists []. rewrite app_nil_r. split; [done|].
    split; [simpl; lia|]. intros r Hr. by apply elem_of_nil in Hr. }
  destruct (http_NewRequest_check method u) as [err|] eqn:Hcheck.
  { apply Hnone. unfold httpRequest, http.NewRequestWithContext. run.
    by rewrite Hcheck. }
  destruct (heap w !! client) as [c|] eqn:Hc.
  2: { apply Hnone. unfold httpRequest, http.NewRequestWithContext. run.
       by rewrite Hcheck, Hc. }
  destruct (httpClient c) as [transport|] eqn:Ht.
  2: { apply Hnone. unfold httpRequest, http.NewRequestWithContext. run.
       rewrite Hcheck, Hc. simpl. by rewrite Ht. }
  rewrite (httpRequest_exchange _ _ _ _ _ _ _ Hc Ht Hcheck). cbv zeta.
  exists [requestOf c method u body].
  split; [|split; [simpl; lia|]].
  - destruct (transport _ _) as [[r|] [err|]]; by repeat case_match.
  - intros r Hr. apply list_elem_of_singleton in Hr. by subst r.
Qed.

End Effects.

Lemma world_lookup (c : Client) : heap (world c) !! 1 = Some c.
Proof. apply lookup_singleton_eq. Qed.

Section Exchange.
Context `{Library}.

Lemma Join_two (t : option error) (e : error) :
  errors.Join [t; Some e]
  = Some (joinError (match t with Some t => [t; e] | None => [e] end)).
Proof. by destruct t. Qed.

Lemma failed_status (r : Response) :
  failed r → ((StatusCode r <? 200) || (299 <? StatusCode r))%Z = true.
Proof.
  unfold failed. intros [Hlo|Hhi]; apply orb_true_iff;
    [left | right]; by apply Z.ltb_lt.
Qed.

End Exchange.

(** C6 as stated fails when the body of the response cannot be read: the
    result joins the transport error with the read error, and holds no
    [SalesforceError]. *)
Lemma parseUhttpError_unreadable_body_counterexample :
  failed brokenBody
  ∧ parseUhttpError (H := golib) (Some brokenBody) (Some connectionReset)
    = Returns (Some (joinError [connectionReset; libraryError "unexpected EOF"]))
  ∧ ∀ e, salesforceError e
         ∉ errors.causes (joinError [connectionReset;
                                     libraryError "unexpected EOF"]).
Proof.
  split; [right; simpl; lia|]. split; [reflexivity|].
  intros e He. simpl in He.
  repeat (apply elem_of_cons in He as [He|He]; [discriminate|]).
  by apply elem_of_nil in He.
Qed.

(** C6, amended.  With no response the transport error is returned as it
    is.  With a response whose status is outside 200..299 and whose body is
    read to its end, when the unifier returns the result joins the transport
    error, if there is one, with the [SalesforceError] parsed from the body,
    and both are among its causes; when reading the body fails, the result
    joins the transport error with the read error instead.  [httpRequest]
    returns what this rule gives, with no data, for an exchange without a
    response and for one with a status outside 200..299. *)
Theorem parseUhttpError_joins `{Library} (errHttp : option error) :
  parseUhttpError None errHttp = Returns errHttp
  ∧ (∀ r buf parsed,
       failed r → Body r = (buf, None) →
       ParseSalesforceError (StatusCode r) buf = Returns parsed →
       ∃ joined,
         parseUhttpError (Some r) errHttp = Returns (Some joined)
         ∧ Some joined = errors.Join [errHttp; Some parsed]
         ∧ parsed ∈ errors.causes joined
         ∧ ∀ t, errHttp = Some t → t ∈ errors.causes joined)
  ∧ (∀ r buf readErr,
       failed r → Body r = (buf, Some readErr) →
       parseUhttpError (Some r) errHttp
       = Returns (errors.Join [errHttp; Some readErr]))
  ∧ (∀ client c transport method u body w t,
       heap w !! client = Some c →
       httpClient c = Some transport →
       http_NewRequest_check method u = None →
       transport (wire w) (requestOf c method u body) = (None, Some t) →
       (httpRequest client method u body w).1 = Returns ("", Some t))
  ∧ (∀ client c transport method u body w r buf parsed,
       heap w !! client = Some c →
       httpClient c = Some transport →
       http_NewRequest_check method u = None →
       transport (wire w) (requestOf c method u body) = (Some r, errHttp) →
       failed r → Body r = (buf, None) →
       ParseSalesforceError (StatusCode r) buf = Returns parsed →
       (httpRequest client method u body w).1
       = Returns ("", errors.Join [errHttp; Some parsed])).
Proof.
  split; [done|]. split; [|split; [|split]].
  - intros r buf parsed Hfailed Hbody Hparse.
    unfold parseUhttpError. rewrite (failed_status r Hfailed), Hbody, Hparse.
    rewrite Join_two. eexists. split; [done|]. split; [done|].
    destruct errHttp as [t|]; simpl.
    + split; [destruct parsed; set_solver|].
      intros t' [= <-]. destruct t; set_solver.
    + split; [destruct parsed; set_solver|]. by intros t' [=].
  - intros r buf readErr Hfailed Hbody.
    unfold parseUhttpError. by rewrite (failed_status r Hfailed), Hbody.
  - intros client c transport method u body w t Hc Ht Hcheck Hdo.
    rewrite (httpRequest_exchange _ _ _ _ _ _ _ Hc Ht Hcheck). simpl.
    by rewrite Hdo.
  - intros client c transport method u body w r buf parsed Hc Ht Hcheck Hdo
      Hfailed Hbody Hparse.
    assert (parseUhttpError (Some r) errHttp
            = Returns (errors.Join [errHttp; Some parsed])) as Hrule.
    { unfold parseUhttpError.
      by rewrite (failed_status r Hfailed), Hbody, Hparse. }
    rewrite (httpRequest_exchange _ _ _ _ _ _ _ Hc Ht Hcheck). cbv zeta.
    rewrite Hdo. destruct errHttp as [err|].
    + by rewrite Hrule.
    + by rewrite (failed_status r Hfailed), Hrule.
Qed.

Lemma parseUhttpError_joins_witness :
  (∃ joined,
     parseUhttpError (H := golib)
       (Some {| StatusCode := 404;
                Body := (goneBody,
                         None) |})
       (Some connectionReset)
     = Returns (Some joined)
     ∧ Some joined
       = errors.Join [Some connectionReset;
                      Some (decodedError 404 "gone" "NOT_FOUND")]
     ∧ decodedError 404 "gone" "NOT_FOUND" ∈ errors.causes joined
     ∧ ∀ t, Some connectionReset = Some t → t ∈ errors.causes joined)
  ∧ parseUhttpError (H := golib) (Some brokenBody) (Some connectionReset)
    = Returns (errors.Join [Some connectionReset;
                            Some (libraryError "unexpected EOF")])
  ∧ (httpRequest (H := golib) 1 "GET" "https://na1.salesforce.com/x" None
       (world (loggedIn (λ _ _, (None, Some connectionReset))))).1
    = Returns ("", Some connectionReset)
  ∧ (httpRequest (H := golib) 1 "GET" "https://na1.salesforce.com/x" None
       (world (loggedIn (always 404 goneBody)))).1
    = Returns ("", errors.Join [None; Some (decodedError 404 "gone" "NOT_FOUND")]).
Proof.
  pose proof (parseUhttpError_joins (H := golib) (Some connectionReset))
    as (_ & Hjoin & Hread & Hnone & _).
  pose proof (parseUhttpError_joins (H := golib) None)
    as (_ & _ & _ & _ & Hstatus).
  split; [|split; [|split]].
  - apply (Hjoin {| StatusCode := 404;
                    Body := (goneBody,
                             None) |}
             goneBody
             (decodedError 404 "gone" "NOT_FOUND"));
      [right; simpl; lia | reflexivity | vm_compute; reflexivity].
  - apply (Hread brokenBody ""); [right; simpl; lia | reflexivity].
  - apply (Hnone 1 (loggedIn (λ _ _, (None, Some connectionReset)))
             (λ _ _, (None, Some connectionReset)));
      reflexivity.
  - apply (Hstatus 1 (loggedIn (always 404 goneBody)) (always 404 goneBody)
             "GET" "https://na1.salesforce.com/x" None
             (world (loggedIn (always 404 goneBody)))
             {| StatusCode := 404; Body := (goneBody, None) |} goneBody
             (decodedError 404 "gone" "NOT_FOUND"));
      [apply world_lookup | reflexivity | reflexivity | reflexivity
      | right; simpl; lia | reflexivity | vm_compute; reflexivity].
Defined.

(** ** The query engine *)

Section QueryFacts.
Context `{Library}.

Lemma isLoggedIn_run client c w :
  heap w !! client = Some c →
  isLoggedIn client w = (Returns (negb (String.eqb (sessionID c) "")), w).
Proof. intros Hc. unfold isLoggedIn. run. by rewrite Hc. Qed.

(** The URL [Query] computes is the one the specification gives. *)
Lemma Query_url (c : Client) (q : string) :
  (if strings.HasPrefix q "/services/data"
   then fmt.Sprintf "%s%s" [fmt.Str (instanceURL c); fmt.Str q]
   else fmt.Sprintf
          (if useToolingAPI c
           then strings.Replace "%s/services/data/v%s/query?q=%s" "query"
                  "tooling/query" (-1)
           else "%s/services/data/v%s/query?q=%s")
          [fmt.Str (instanceURL c); fmt.Str (apiVersion c);
           fmt.Str (url.QueryEscape q)])
  = query_target c q.
Proof.
  unfold query_target. destruct (strings.HasPrefix q "/services/data").
  - simpl. by literals.
  - destruct (useToolingAPI c).
    + replace (strings.Replace _ _ _ _)
        with "%s/services/data/v%s/tooling/query?q=%s" by reflexivity.
      simpl. by literals.
    + simpl. by literals.
Qed.

(** What [Query] does once the client is known to be logged in. *)
Lemma Query_run client c q w :
  heap w !! client = Some c →
  sessionID c ≠ "" →
  Query client q w
  = match httpRequest client http.MethodGet (query_target c q) None w with
    | (Returns (data, None), w') =>
        match json_Unmarshal_QueryResult data with
        | inl result =>
            (Returns (Some {| TotalSize := TotalSize result;
                              Done := Done result;
                              NextRecordsURL := NextRecordsURL result;
                              Records := (λ obj, setClient obj client)
                                           <$> Records result |}, None), w')
        | inr err => (Returns (None, Some err), w')
        end
    | (Returns (_, Some err), w') => (Returns (None, Some err), w')
    | (Panics reason, w') => (Panics reason, w')
    end.
Proof.
  intros Hc Hsid. unfold Query.
  unfold mbind at 1, M_bind at 1. rewrite (isLoggedIn_run _ _ _ Hc).
  apply eqb_empty_false in Hsid. rewrite Hsid. cbn [negb].
  unfold mbind at 1, M_bind at 1, deref at 1. rewrite Hc. cbv zeta.
  rewrite Query_url. unfold mbind, M_bind.
  destruct (httpRequest _ _ _ _ _) as [[[data [err|]]|reason] w']; try done.
  by destruct (json_Unmarshal_QueryResult data).
Qed.

Lemma Query_wire client c q w :
  heap w !! client = Some c →
  sessionID c ≠ "" →
  wire (Query client q w).2
  = wire (httpRequest client http.MethodGet (query_target c q) None w).2.
Proof.
  intros Hc Hsid. rewrite (Query_run _ _ _ _ Hc Hsid).
  destruct (httpRequest _ _ _ _ _) as [[[data [err|]]|reason] w']; try done.
  by destruct (json_Unmarshal_QueryResult data).
Qed.

(** Without a session [Query] returns at once. *)
Lemma Query_logged_out client c q w :
  heap w !! client = Some c →
  sessionID c = "" →
  Query client q w = (Returns (None, Some ErrAuthentication), w).
Proof.
  intros Hc Hsid. unfold Query. unfold mbind at 1, M_bind at 1.
  by rewrite (isLoggedIn_run _ _ _ Hc), Hsid.
Qed.

(** Every request of a query is a [GET] of the URL of the specification. *)
Lemma Query_requests client c q w r :
  heap w !! client = Some c →
  r ∈ sent (Query client q) w →
  Method r = "GET" ∧ URL r = query_target c q.
Proof.
  intros Hc Hr. destruct (decide (sessionID c = "")) as [Hsid|Hsid].
  { unfold sent in Hr. rewrite (Query_logged_out _ _ _ _ Hc Hsid) in Hr.
    simpl in Hr. rewrite drop_all in Hr. by apply elem_of_nil in Hr. }
  unfold sent in Hr. rewrite (Query_wire _ _ _ _ Hc Hsid) in Hr.
  destruct (httpRequest_wire client http.MethodGet (query_target c q) None w)
    as (rs & Hwire & _ & Hrs).
  rewrite Hwire, drop_app_length in Hr.
  by destruct (Hrs r Hr) as (Hurl & _ & Hmethod).
Qed.

(** When the request can be built and sent, it is the only one. *)
Lemma Query_sends client c q w :
  heap w !! client = Some c →
  sessionID c ≠ "" →
  http_NewRequest_check "GET" (query_target c q) = None →
  is_Some (httpClient c) →
  sent (Query client q) w = [requestOf c "GET" (query_target c q) None].
Proof.
  intros Hc Hsid Hcheck [transport Ht]. apply sent_app.
  rewrite (Query_wire _ _ _ _ Hc Hsid).
  rewrite (httpRequest_exchange _ _ _ _ _ _ _ Hc Ht Hcheck). cbv zeta.
  destruct (transport _ _) as [[r|] [err|]]; by repeat case_match.
Qed.

Lemma query_target_endpoint (c : Client) (q : string) :
  strings.HasPrefix q "/services/data" = false →
  query_target c q = query_endpoint c (useToolingAPI c) q.
Proof. unfold query_target, query_endpoint. by intros ->. Qed.

End QueryFacts.

(** C4.  For every input [q], the requests [Query] sends are [GET]s to
    the URL of the disambiguation rule: the instance URL followed by [q] when
    [q] begins with [/services/data], otherwise the query endpoint, or the
    tooling query endpoint in tooling mode, with [q] escaped as its [q=]
    parameter.  On a client that is logged in and has a transport, when the
    library builds the request, exactly that one request is sent. *)
Theorem Query_target `{Library} (w : World) (client : addr) (c : Client)
    (q : string) :
  heap w !! client = Some c →
  (strings.HasPrefix q "/services/data" = true →
   query_target c q = instanceURL c +:+ q)
  ∧ (strings.HasPrefix q "/services/data" = false →
     query_target c q
     = instanceURL c +:+ "/services/data/v" +:+ apiVersion c
       +:+ (if useToolingAPI c then "/tooling/query?q=" else "/query?q=")
       +:+ url.QueryEscape q)
  ∧ (∀ r, r ∈ sent (Query client q) w →
          Method r = "GET" ∧ URL r = query_target c q)
  ∧ (sessionID c ≠ "" →
     is_Some (httpClient c) →
     http_NewRequest_check "GET" (query_target c q) = None →
     sent (Query client q) w = [requestOf c "GET" (query_target c q) None]).
Proof.
  intros Hc.
  split; [by unfold query_target; intros ->|].
  split; [by unfold query_target; intros ->|].
  split.
  - intros r Hr. by apply (Query_requests client c q w).
  - intros Hsid Ht Hcheck. by apply Query_sends.
Qed.

Lemma Query_target_witness :
  query_target (loggedIn (always 200 "{}")) "SELECT Id FROM Case"
  = "https://na1.salesforce.com/services/data/v54.0/query?q=SELECT+Id+FROM+Case"
  ∧ sent (Query (H := golib) 1 "SELECT Id FROM Case")
      (world (loggedIn (always 200 "{}")))
    = [requestOf (loggedIn (always 200 "{}")) "GET"
         (query_target (loggedIn (always 200 "{}")) "SELECT Id FROM Case") None]
  ∧ query_target (loggedIn (always 200 "{}"))
      "/services/data/v54.0/query/01g-2000"
    = "https://na1.salesforce.com/services/data/v54.0/query/01g-2000"
  ∧ sent (Query (H := golib) 1 "/services/data/v54.0/query/01g-2000")
      (world (loggedIn (always 200 "{}")))
    = [requestOf (loggedIn (always 200 "{}")) "GET"
         (query_target (loggedIn (always 200 "{}"))
            "/services/data/v54.0/query/01g-2000") None].
Proof.
  split; [vm_compute; reflexivity|]. split; [|split; [vm_compute; reflexivity|]].
  - apply (Query_target (H := golib) (world (loggedIn (always 200 "{}"))) 1
             (loggedIn (always 200 "{}")) "SELECT Id FROM Case");
      [apply world_lookup | discriminate | by eexists | vm_compute; reflexivity].
  - apply (Query_target (H := golib) (world (loggedIn (always 200 "{}"))) 1
             (loggedIn (always 200 "{}")) "/services/data/v54.0/query/01g-2000");
      [apply world_lookup | discriminate | by eexists | vm_compute; reflexivity].
Defined.

(** C7.  Every record of a [QueryResult] that [Query] returns is bound to
    the client the query was issued on. *)
Theorem Query_binds_records `{Library} (w w' : World) (client : addr)
    (q : string) (result : QueryResult) (err : option error) :
  Query client q w = (Returns (Some result, err), w') →
  Forall (λ obj, SObject_client obj = Some client) (Records result).
Proof.
  intros HQ. destruct (heap w !! client) as [c|] eqn:Hc.
  2: { unfold Query, isLoggedIn in HQ. run. by rewrite Hc in HQ. }
  destruct (decide (sessionID c = "")) as [Hsid|Hsid].
  { unfold Query in HQ. unfold mbind at 1, M_bind at 1 in HQ.
    rewrite (isLoggedIn_run _ _ _ Hc), Hsid in HQ. by simplify_eq/=. }
  rewrite (Query_run _ _ _ _ Hc Hsid) in HQ.
  destruct (httpRequest _ _ _ _ _) as [[[data [e|]]|reason] w1]; try done.
  destruct (json_Unmarshal_QueryResult data) as [decoded|e]; [|done].
  simplify_eq/=. apply Forall_fmap, Forall_true. intros obj.
  unfold SObject_client, setClient. simpl. by rewrite lookup_insert_eq.
Qed.

Lemma Query_binds_records_witness :
  Query (H := golib) 1 "SELECT Id FROM Case" (world (loggedIn (always 200 twoRecords)))
  = (Returns (Some twoRecordsBound, None),
     {| heap := heap (world (loggedIn (always 200 twoRecords)));
        wire := [requestOf (loggedIn (always 200 twoRecords)) "GET"
                   "https://na1.salesforce.com/services/data/v54.0/query?q=SELECT+Id+FROM+Case"
                   None] |})
  ∧ Forall (λ obj, SObject_client obj = Some 1) (Records twoRecordsBound).
Proof.
  assert (Query (H := golib) 1 "SELECT Id FROM Case"
            (world (loggedIn (always 200 twoRecords)))
          = (Returns (Some twoRecordsBound, None),
             {| heap := heap (world (loggedIn (always 200 twoRecords)));
                wire := [requestOf (loggedIn (always 200 twoRecords)) "GET"
                           "https://na1.salesforce.com/services/data/v54.0/query?q=SELECT+Id+FROM+Case"
                           None] |})) as HQ
    by (vm_compute; reflexivity).
  split; [exact HQ|].
  exact (Query_binds_records (H := golib) _ _ 1 "SELECT Id FROM Case"
           twoRecordsBound None HQ).
Defined.

(** C10.  On a client whose session ID is empty, [Query],
    [ExecuteAnonymous] and [ApexREST] return no result and
    [ErrAuthentication], and leave the world as it was: no request is built
    or sent. *)
Theorem not_logged_in_fails_locally `{Library} (w : World) (client : addr)
    (c : Client) :
  heap w !! client = Some c →
  sessionID c = "" →
  (∀ q, Query client q w = (Returns (None, Some ErrAuthentication), w))
  ∧ (∀ apexBody,
       ExecuteAnonymous client apexBody w
       = (Returns (None, Some ErrAuthentication), w))
  ∧ (∀ method path requestBody,
       ApexREST client method path requestBody w
       = (Returns (None, Some ErrAuthentication), w)).
Proof.
  intros Hc Hsid. split; [|split].
  - intros q. by apply (Query_logged_out client c).
  - intros apexBody. unfold ExecuteAnonymous. unfold mbind at 1, M_bind at 1.
    by rewrite (isLoggedIn_run _ _ _ Hc), Hsid.
  - intros method path requestBody. unfold ApexREST.
    unfold mbind at 1, M_bind at 1.
    by rewrite (isLoggedIn_run _ _ _ Hc), Hsid.
Qed.

Lemma not_logged_in_fails_locally_witness :
  Query (H := golib) 1 "SELECT Id FROM Case" (world (loggedOut (always 200 "{}")))
  = (Returns (None, Some ErrAuthentication), world (loggedOut (always 200 "{}")))
  ∧ ExecuteAnonymous (H := golib) 1 "System.debug(1);"
      (world (loggedOut (always 200 "{}")))
    = (Returns (None, Some ErrAuthentication),
       world (loggedOut (always 200 "{}")))
  ∧ ApexREST (H := golib) 1 "POST" "services/apexrest/x" (Some "{}")
      (world (loggedOut (always 200 "{}")))
    = (Returns (None, Some ErrAuthentication),
       world (loggedOut (always 200 "{}"))).
Proof.
  pose proof (not_logged_in_fails_locally (H := golib)
                (world (loggedOut (always 200 "{}"))) 1
                (loggedOut (always 200 "{}")) (world_lookup _) eq_refl)
    as (HQ & HE & HA).
  split; [apply HQ|]. split; [apply HE | apply HA].
Defined.

(** ** The client state *)

Section FrameSteps.
Context `{Library}.

Lemma preserves_ret {A} (a : A) : preserves_heap (mret a).
Proof. done. Qed.

Lemma preserves_bind {A B} (m : M A) (k : A → M B) :
  preserves_heap m → (∀ a, preserves_heap (k a)) → preserves_heap (m ≫= k).
Proof.
  intros Hm Hk w. unfold mbind, M_bind. specialize (Hm w).
  destruct (m w) as [[a|reason] w1]; simpl in *; [|done].
  by rewrite Hk.
Qed.

Lemma preserves_deref client : preserves_heap (deref client).
Proof. intros w. unfold deref. by destruct (heap w !! client). Qed.

Lemma preserves_isLoggedIn client : preserves_heap (isLoggedIn client).
Proof.
  apply preserves_bind; [apply preserves_deref | intros; apply preserves_ret].
Qed.

Lemma preserves_httpRequest client method u body :
  preserves_heap (httpRequest client method u body).
Proof. intros w. apply httpRequest_heap. Qed.

End FrameSteps.

(** Splits a proof that a computation never writes to a client among its
    steps. *)
Ltac preserves :=
  repeat first
    [ apply preserves_ret
    | apply preserves_deref
    | apply preserves_isLoggedIn
    | apply preserves_httpRequest
    | apply preserves_bind
    | progress intros
    | match goal with
      | |- preserves_heap (let '(_, _) := ?p in _) => destruct p
      | |- preserves_heap (match ?x with _ => _ end) => destruct x
      | |- preserves_heap (if ?b then _ else _) => destruct b
      end ].

Section Frame.
Context `{Library}.

Lemma preserves_Query client q : preserves_heap (Query client q).
Proof. unfold Query. preserves. Qed.

Lemma preserves_ExecuteAnonymous client apexBody :
  preserves_heap (ExecuteAnonymous client apexBody).
Proof. unfold ExecuteAnonymous. preserves. Qed.

Lemma preserves_ApexREST client method path requestBody :
  preserves_heap (ApexREST client method path requestBody).
Proof. unfold ApexREST. preserves. Qed.

Lemma preserves_GetSid client : preserves_heap (GetSid client).
Proof. unfold GetSid. preserves. Qed.

Lemma preserves_GetLoc client : preserves_heap (GetLoc client).
Proof. unfold GetLoc. preserves. Qed.

Lemma preserves_discard {A} (m : M A) : preserves_heap m → preserves_heap (discard m).
Proof. intros Hm. unfold discard. by preserves. Qed.

(** The methods that write: what they leave in the heap. *)
Lemma makeURL_run client c req w :
  heap w !! client = Some c →
  makeURL client req w
  = let c' := with_apiVersion c (strings.Replace (apiVersion c) "v" "" (-1)) in
    (Returns (instanceURL c +:+ "/services/data/v" +:+ apiVersion c' +:+ "/" +:+ req),
     {| heap := <[client := c']> (heap w); wire := wire w |}).
Proof.
  intros Hc. unfold makeURL. run. rewrite Hc. simpl. by literals.
Qed.

Lemma Tooling_run client c w :
  heap w !! client = Some c →
  Tooling client w
  = (Returns client,
     {| heap := <[client := with_useToolingAPI c true]> (heap w);
        wire := wire w |}).
Proof. intros Hc. unfold Tooling. run. by rewrite Hc. Qed.

Lemma UnTooling_run client c w :
  heap w !! client = Some c →
  UnTooling client w
  = (Returns (),
     {| heap := <[client := with_useToolingAPI c false]> (heap w);
        wire := wire w |}).
Proof. intros Hc. unfold UnTooling. run. by rewrite Hc. Qed.

Lemma SetSidLoc_run client c sid loc w :
  heap w !! client = Some c →
  SetSidLoc client sid loc w
  = (Returns (),
     {| heap := <[client := with_instanceURL (with_sessionID c sid) loc]> (heap w);
        wire := wire w |}).
Proof. intros Hc. unfold SetSidLoc. run. by rewrite Hc. Qed.

Lemma SetHttpClient_run client c t w :
  heap w !! client = Some c →
  SetHttpClient client t w
  = (Returns (),
     {| heap := <[client := with_httpClient c t]> (heap w); wire := wire w |}).
Proof. intros Hc. unfold SetHttpClient. run. by rewrite Hc. Qed.

(** On a [nil] or dangling pointer every method panics at once. *)
Lemma run_call_nil target call w :
  heap w !! target = None → heap (run_call target call w).2 = heap w.
Proof.
  intros Hnil. destruct call; unfold run_call.
  - apply preserves_discard, preserves_Query.
  - apply preserves_discard, preserves_ExecuteAnonymous.
  - apply preserves_discard, preserves_ApexREST.
  - unfold makeURL. run. by rewrite Hnil.
  - apply preserves_discard, preserves_GetSid.
  - apply preserves_discard, preserves_GetLoc.
  - unfold SetSidLoc. run. by rewrite Hnil.
  - unfold SetHttpClient. run. by rewrite Hnil.
  - unfold Tooling. run. by rewrite Hnil.
  - unfold UnTooling. run. by rewrite Hnil.
Qed.

Lemma run_call_flag p c target call w :
  heap w !! p = Some c →
  ∃ c', heap (run_call target call w).2 !! p = Some c'
        ∧ useToolingAPI c' = flag_after p target call (useToolingAPI c).
Proof.
  intros Hp. unfold flag_after.
  destruct (heap w !! target) as [ct|] eqn:Ht.
  2: { rewrite (run_call_nil _ _ _ Ht). exists c. split; [done|].
       case_decide; [congruence|done]. }
  assert (∀ m : M unit, preserves_heap m →
            ∃ c', heap (m w).2 !! p = Some c'
                  ∧ useToolingAPI c' = useToolingAPI c) as Hkeep.
  { intros m Hm. rewrite Hm. by exists c. }
  assert (∀ f : Client → Client,
            (∀ x, useToolingAPI (f x) = useToolingAPI x) →
            ∃ c', <[target := f ct]> (heap w) !! p = Some c'
                  ∧ useToolingAPI c' = useToolingAPI c) as Hwrite.
  { intros f Hf. destruct (decide (target = p)) as [->|Hne].
    - rewrite lookup_insert_eq. eexists. split; [done|].
      rewrite Hf. congruence.
    - rewrite lookup_insert_ne by done. by exists c. }
  destruct call; simpl.
  - destruct (Hkeep _ (preserves_discard _ (preserves_Query target q)))
      as (c' & ? & ?). exists c'. by case_decide.
  - destruct (Hkeep _ (preserves_discard _
                         (preserves_ExecuteAnonymous target apexBody)))
      as (c' & ? & ?). exists c'. by case_decide.
  - destruct (Hkeep _ (preserves_discard _
                         (preserves_ApexREST target method path requestBody)))
      as (c' & ? & ?). exists c'. by case_decide.
  - unfold discard, mbind, M_bind. rewrite (makeURL_run _ _ _ _ Ht). simpl.
    destruct (Hwrite (λ x, with_apiVersion x
                             (strings.Replace (apiVersion ct) "v" "" (-1))))
      as (c' & ? & ?); [done|]. exists c'. by case_decide.
  - destruct (Hkeep _ (preserves_discard _ (preserves_GetSid target)))
      as (c' & ? & ?). exists c'. by case_decide.
  - destruct (Hkeep _ (preserves_discard _ (preserves_GetLoc target)))
      as (c' & ? & ?). exists c'. by case_decide.
  - rewrite (SetSidLoc_run _ _ _ _ _ Ht). simpl.
    destruct (Hwrite (λ x, with_instanceURL (with_sessionID x sid) loc))
      as (c' & ? & ?); [done|]. exists c'. by case_decide.
  - rewrite (SetHttpClient_run _ _ _ _ Ht). simpl.
    destruct (Hwrite (λ x, with_httpClient x c0)) as (c' & ? & ?); [done|].
    exists c'. by case_decide.
  - unfold discard, mbind, M_bind. rewrite (Tooling_run _ _ _ Ht). simpl.
    case_decide as Heq.
    + subst target. rewrite lookup_insert_eq. by eexists.
    + rewrite lookup_insert_ne by done. by exists c.
  - rewrite (UnTooling_run _ _ _ Ht). simpl.
    case_decide as Heq.
    + subst target. rewrite lookup_insert_eq. by eexists.
    + rewrite lookup_insert_ne by done. by exists c.
Qed.

(** A flag that is set stays set through calls with no [UnTooling] on the
    client, and a flag that is clear stays clear through calls with no
    [Tooling] on it. *)
Lemma run_calls_flag p cs : ∀ c w (flag : bool),
  heap w !! p = Some c →
  useToolingAPI c = flag →
  (p, if flag then CallUnTooling else CallTooling) ∉ cs →
  ∃ c', heap (run_calls cs w).2 !! p = Some c' ∧ useToolingAPI c' = flag.
Proof.
  induction cs as [|[target call] cs IH]; intros c w flag Hp Hflag Hnot.
  { by exists c. }
  apply not_elem_of_cons in Hnot as [Hhead Hnot].
  destruct (run_call_flag p c target call w Hp) as (c1 & Hp1 & Hflag1).
  assert (useToolingAPI c1 = flag) as Hflag1'.
  { rewrite Hflag1, Hflag. unfold flag_after. case_decide as Heq; [|done].
    subst target. destruct call, flag; try done. }
  simpl. unfold mbind, M_bind.
  destruct (run_call target call w) as [[[]|reason] w1] eqn:Hrun; simpl in *.
  - by apply (IH c1).
  - by exists c1.
Qed.

End Frame.

(** C9 as stated fails: building a URL for a client whose API version was
    given as [v54.0] rewrites the version in the client, and [Tooling] sets
    the tooling flag of a client that is logged in. *)
Lemma client_state_written_counterexample :
  sessionID versioned ≠ ""
  ∧ makeURL 1 "sobjects/Case" (world versioned)
    = (Returns "https://na1.salesforce.com/services/data/v54.0/sobjects/Case",
       world (with_apiVersion versioned "54.0"))
  ∧ apiVersion versioned ≠ apiVersion (with_apiVersion versioned "54.0")
  ∧ Tooling 1 (world versioned)
    = (Returns 1, world (with_useToolingAPI versioned true))
  ∧ useToolingAPI versioned
    ≠ useToolingAPI (with_useToolingAPI versioned true).
Proof.
  split; [discriminate|].
  split; [vm_compute; reflexivity|].
  split; [discriminate|].
  split; [vm_compute; reflexivity | discriminate].
Qed.

(** C9, amended.  [Query], [ExecuteAnonymous], [ApexREST] and [httpRequest]
    never write to a client.  [makeURL], which builds the URL of a CRUD call,
    stores the API version with every [v] removed and writes no other field;
    it leaves the client as it was when the version has no [v].  [Tooling]
    and [UnTooling] write the tooling flag and no other field. *)
Theorem client_state_frame `{Library} (w : World) (client : addr) :
  (∀ q, heap (Query client q w).2 = heap w)
  ∧ (∀ apexBody, heap (ExecuteAnonymous client apexBody w).2 = heap w)
  ∧ (∀ method path requestBody,
       heap (ApexREST client method path requestBody w).2 = heap w)
  ∧ (∀ method u body, heap (httpRequest client method u body w).2 = heap w)
  ∧ (∀ c req,
       heap w !! client = Some c →
       heap (makeURL client req w).2
       = <[client := with_apiVersion c
                       (strings.Replace (apiVersion c) "v" "" (-1))]> (heap w))
  ∧ (∀ c req,
       heap w !! client = Some c →
       strings.Replace (apiVersion c) "v" "" (-1) = apiVersion c →
       heap (makeURL client req w).2 = heap w)
  ∧ (∀ c,
       heap w !! client = Some c →
       heap (Tooling client w).2
       = <[client := with_useToolingAPI c true]> (heap w)
       ∧ heap (UnTooling client w).2
         = <[client := with_useToolingAPI c false]> (heap w)).
Proof.
  split; [intros q; apply preserves_Query|].
  split; [intros apexBody; apply preserves_ExecuteAnonymous|].
  split; [intros method path requestBody; apply preserves_ApexREST|].
  split; [intros method u body; apply httpRequest_heap|].
  split; [|split].
  - intros c req Hc. by rewrite (makeURL_run _ _ _ _ Hc).
  - intros c req Hc Hv. rewrite (makeURL_run _ _ _ _ Hc), Hv. simpl.
    apply insert_id. rewrite Hc. by destruct c.
  - intros c Hc. by rewrite (Tooling_run _ _ _ Hc), (UnTooling_run _ _ _ Hc).
Qed.

Lemma client_state_frame_witness :
  heap (makeURL 1 "sobjects/Case" (world versioned)).2
  = <[1 := with_apiVersion versioned
             (strings.Replace (apiVersion versioned) "v" "" (-1))]>
      (heap (world versioned))
  ∧ heap (makeURL 1 "sobjects/Case" (world (loggedIn (always 200 "{}")))).2
    = heap (world (loggedIn (always 200 "{}")))
  ∧ heap (Tooling 1 (world versioned)).2
    = <[1 := with_useToolingAPI versioned true]> (heap (world versioned)).
Proof.
  pose proof (client_state_frame (H := golib) (world versioned) 1)
    as (_ & _ & _ & _ & Hwrite & _ & Hflag).
  pose proof (client_state_frame (H := golib)
                (world (loggedIn (always 200 "{}"))) 1)
    as (_ & _ & _ & _ & _ & Hsame & _).
  split; [apply Hwrite, world_lookup|].
  split; [apply (Hsame (loggedIn (always 200 "{}")));
            [apply world_lookup | reflexivity]|].
  apply Hflag, world_lookup.
Defined.

(** C8 as stated fails on a continuation token: in tooling mode a [Query]
    whose input begins with [/services/data] is sent to the path the token
    names, here the standard query endpoint, not to the tooling one. *)
Lemma tooling_continuation_counterexample :
  Tooling 1 (world (loggedIn (always 200 "{}")))
  = (Returns 1, world (with_useToolingAPI (loggedIn (always 200 "{}")) true))
  ∧ sent (Query (H := golib) 1 "/services/data/v54.0/query/01g-2000")
      (world (with_useToolingAPI (loggedIn (always 200 "{}")) true))
    = [requestOf (with_useToolingAPI (loggedIn (always 200 "{}")) true) "GET"
         "https://na1.salesforce.com/services/data/v54.0/query/01g-2000" None]
  ∧ strings.HasPrefix
      "https://na1.salesforce.com/services/data/v54.0/query/01g-2000"
      "https://na1.salesforce.com/services/data/v54.0/tooling/query"
    = false.
Proof. repeat split; vm_compute; reflexivity. Qed.

(** C8, amended.  The tooling mode is a flag of the client.  After
    [Tooling()] on a client, through any sequence of calls on any clients
    with no [UnTooling()] on that client, the flag is set and every request of
    a [Query] on that client whose input is a query string (it does not begin
    with [/services/data]) goes to the tooling query endpoint; after
    [UnTooling()], through any sequence of calls with no [Tooling()] on that
    client, the flag is clear and such a request goes to the standard query
    endpoint.  The request is sent, and is the only one, when the client is
    logged in and has a transport and the library builds the request. *)
Theorem tooling_mode_sticky `{Library} (w : World) (client : addr) (c : Client)
    (cs : list (addr * call)) (tooling : bool) (q : string) :
  heap w !! client = Some c →
  (client, if tooling then CallUnTooling else CallTooling) ∉ cs →
  strings.HasPrefix q "/services/data" = false →
  ∃ c2,
    heap (after_mode client tooling cs w) !! client = Some c2
    ∧ useToolingAPI c2 = tooling
    ∧ (∀ r, r ∈ sent (Query client q) (after_mode client tooling cs w) →
            URL r = query_endpoint c2 tooling q)
    ∧ (sessionID c2 ≠ "" →
       is_Some (httpClient c2) →
       http_NewRequest_check "GET" (query_endpoint c2 tooling q) = None →
       sent (Query client q) (after_mode client tooling cs w)
       = [requestOf c2 "GET" (query_endpoint c2 tooling q) None]).
Proof.
  intros Hc Hnot Hq. unfold after_mode.
  assert (heap ((if tooling then discard (Tooling client)
                 else UnTooling client) w).2
            !! client = Some (with_useToolingAPI c tooling)) as Hc1.
  { destruct tooling.
    - unfold discard, mbind, M_bind. rewrite (Tooling_run _ _ _ Hc). simpl.
      apply lookup_insert_eq.
    - rewrite (UnTooling_run _ _ _ Hc). simpl. apply lookup_insert_eq. }
  destruct (run_calls_flag client cs _ _ tooling Hc1 eq_refl Hnot)
    as (c2 & Hc2 & Hflag).
  pose proof (query_target_endpoint c2 q Hq) as Htarget.
  rewrite Hflag in Htarget.
  exists c2. split; [done|]. split; [done|]. split.
  - intros r Hr. destruct (Query_requests _ _ _ _ _ Hc2 Hr) as [_ ->]. done.
  - intros Hsid Ht Hcheck. rewrite <- Htarget in *. by apply Query_sends.
Qed.

Lemma tooling_mode_sticky_witness :
  ∃ c2,
    heap (after_mode (H := golib) 1 true toolingSession twoClients) !! 1
    = Some c2
    ∧ useToolingAPI c2 = true
    ∧ (∀ r, r ∈ sent (Query (H := golib) 1 "SELECT Id FROM ApexClass")
                  (after_mode (H := golib) 1 true toolingSession twoClients) →
            URL r = query_endpoint c2 true "SELECT Id FROM ApexClass")
    ∧ (sessionID c2 ≠ "" →
       is_Some (httpClient c2) →
       http_NewRequest_check "GET"
         (query_endpoint c2 true "SELECT Id FROM ApexClass") = None →
       sent (Query (H := golib) 1 "SELECT Id FROM ApexClass")
         (after_mode (H := golib) 1 true toolingSession twoClients)
       = [requestOf c2 "GET"
            (query_endpoint c2 true "SELECT Id FROM ApexClass") None]).
Proof.
  apply (tooling_mode_sticky (H := golib) twoClients 1
           (loggedIn (always 200 "{}")) toolingSession true
           "SELECT Id FROM ApexClass").
  - vm_compute. reflexivity.
  - unfold toolingSession. intros Hin.
    repeat (apply elem_of_cons in Hin as [Hin|Hin]; [discriminate|]).
    by apply elem_of_nil in Hin.
  - reflexivity.
Defined.

(** The same session, run: the client at address 1 is still in tooling mode
    after it, with the session and the instance [SetSidLoc] gave it, and its
    next query goes to the tooling endpoint. *)
Example tooling_session_runs :
  URL <$> sent (Query (H := golib) 1 "SELECT Id FROM ApexClass")
            (after_mode (H := golib) 1 true toolingSession twoClients)
  = ["https://eu5.salesforce.com/services/data/v54.0/tooling/query?q=SELECT+Id+FROM+ApexClass"]
  ∧ useToolingAPI
      <$> heap (after_mode (H := golib) 1 true toolingSession twoClients) !! 2
    = Some false.
Proof. split; vm_compute; reflexivity. Qed.

(** ** The CRUD engine *)

(** C5.  A record with no client bound or with an empty type fails [Get],
    [Create], [Update], [Upsert] and [Delete]; a record with no identifier,
    neither given to the call nor stored under its identity key, fails [Get],
    [Update] and [Delete].  Each failure is [ErrNoTypeIdClientOrId], with no
    record returned ([Delete] returns the error alone), and leaves the world
    as it was: no request is sent and no client is written. *)
Theorem CRUD_preconditions_fail_locally `{Library} (obj : SObject) (w : World) :
  (SObject_client obj = None ∨ SObject_Type obj = "" →
   (∀ id, Get obj id w = (Returns (None, Some ErrNoTypeIdClientOrId), w))
   ∧ Create obj w = (Returns (None, Some ErrNoTypeIdClientOrId), w)
   ∧ Update obj w = (Returns (None, Some ErrNoTypeIdClientOrId), w)
   ∧ Upsert obj w = (Returns (None, Some ErrNoTypeIdClientOrId), w)
   ∧ (∀ id, Delete obj id w = (Returns (Some ErrNoTypeIdClientOrId), w)))
  ∧ (∀ id, default (ID obj) id = "" →
           Get obj id w = (Returns (None, Some ErrNoTypeIdClientOrId), w)
           ∧ Delete obj id w = (Returns (Some ErrNoTypeIdClientOrId), w))
  ∧ (ID obj = "" →
     Update obj w = (Returns (None, Some ErrNoTypeIdClientOrId), w)).
Proof.
  unfold Get, Create, Update, Upsert, Delete.
  split; [|split].
  - intros [Hclient|Htype].
    + rewrite Hclient. by repeat split.
    + rewrite Htype. destruct (SObject_client obj); by repeat split.
  - intros id Hid. rewrite Hid.
    destruct (SObject_client obj); [|done].
    by destruct (String.eqb (SObject_Type obj) "").
  - intros Hid. rewrite Hid.
    destruct (SObject_client obj); [|done].
    by destruct (String.eqb (SObject_Type obj) "").
Qed.

Lemma CRUD_preconditions_fail_locally_witness :
  Create (H := golib) ∅ (world (loggedIn (always 201 "{}")))
  = (Returns (None, Some ErrNoTypeIdClientOrId),
     world (loggedIn (always 201 "{}")))
  ∧ Upsert (H := golib) (Client_SObject 1 None)
      (world (loggedIn (always 201 "{}")))
    = (Returns (None, Some ErrNoTypeIdClientOrId),
       world (loggedIn (always 201 "{}")))
  ∧ Get (H := golib) (Client_SObject 1 (Some "Case")) None
      (world (loggedIn (always 200 "{}")))
    = (Returns (None, Some ErrNoTypeIdClientOrId),
       world (loggedIn (always 200 "{}")))
  ∧ Delete (H := golib) (Client_SObject 1 (Some "Case")) (Some "")
      (world (loggedIn (always 204 "")))
    = (Returns (Some ErrNoTypeIdClientOrId), world (loggedIn (always 204 "")))
  ∧ Update (H := golib) (Client_SObject 1 (Some "Case"))
      (world (loggedIn (always 204 "")))
    = (Returns (None, Some ErrNoTypeIdClientOrId),
       world (loggedIn (always 204 ""))).
Proof.
  pose proof (CRUD_preconditions_fail_locally (H := golib) ∅
                (world (loggedIn (always 201 "{}")))) as (Hunbound & _ & _).
  pose proof (CRUD_preconditions_fail_locally (H := golib)
                (Client_SObject 1 None)
                (world (loggedIn (always 201 "{}")))) as (Huntyped & _ & _).
  pose proof (CRUD_preconditions_fail_locally (H := golib)
                (Client_SObject 1 (Some "Case"))
                (world (loggedIn (always 200 "{}")))) as (_ & Hget & _).
  pose proof (CRUD_preconditions_fail_locally (H := golib)
                (Client_SObject 1 (Some "Case"))
                (world (loggedIn (always 204 "")))) as (_ & Hdelete & Hupdate).
  split; [apply Hunbound; left; reflexivity|].
  split; [apply Huntyped; right; reflexivity|].
  split; [apply (Hget None); vm_compute; reflexivity|].
  split; [apply (Hdelete (Some "")); reflexivity|].
  apply Hupdate. vm_compute. reflexivity.
Defined.

(** With its preconditions met an operation does go to the network. *)
Example Get_sends :
  URL <$> sent (Get (H := golib) (Client_SObject 1 (Some "Case")) (Some "500A"))
            (world (loggedIn (always 200 (json_text "{'Id':'500A'}"))))
  = ["https://na1.salesforce.com/services/data/v54.0/sobjects/Case/500A"].
Proof. vm_compute. reflexivity. Qed.

Example Create_sends :
  (λ r, (Method r, URL r, RequestBody r))
    <$> sent (Create (H := golib)
                (<["Subject" := VString "a<b"]> (Client_SObject 1 (Some "Case"))))
          (world (loggedIn (always 201 (json_text "{'id':'500A','success':true}"))))
  = [("POST", "https://na1.salesforce.com/services/data/v54.0/sobjects/Case",
      Some (json_text "{'Subject':'a\u003cb'}"))].
Proof. vm_compute. reflexivity. Qed.

(** * Further properties *)

(** ** The escaping of a query *)

Lemma every_byte_app (p : ascii → bool) (s t : string) :
  every_byte p (s +:+ t) ↔ every_byte p s ∧ every_byte p t.
Proof.
  unfold every_byte. induction s as [|c s IH].
  { rewrite append_nil_l. split; [done | by intros [_ ?]]. }
  rewrite append_String. cbn [golib_model.all_bytes].
  rewrite !andb_true_iff, IH. tauto.
Qed.

Lemma upperhex_safe (c : ascii) :
  query_safe (url.upperhex (N_of_ascii c / 16)) = true
  ∧ query_safe (url.upperhex (N_of_ascii c mod 16)) = true.
Proof. by destruct c as [[] [] [] [] [] [] [] []]. Qed.

Lemma QueryEscape_safe (s : string) : every_byte query_safe (url.QueryEscape s).
Proof.
  unfold every_byte. induction s as [|c s IH]; [done|].
  cbn [url.QueryEscape]. destruct (url.is_unreserved c) eqn:Hc.
  - cbn [golib_model.all_bytes]. unfold query_safe at 1. by rewrite Hc, IH.
  - destruct (Ascii.eqb c " ").
    + cbn [golib_model.all_bytes]. by rewrite IH.
    + cbv zeta. cbn [golib_model.all_bytes].
      destruct (upperhex_safe c) as [-> ->]. by rewrite IH.
Qed.

Lemma append_inv_head (s t u : string) : s +:+ t = s +:+ u → t = u.
Proof.
  induction s as [|c s IH]; [done|]. rewrite !append_String.
  intros [= Heq]. by apply IH.
Qed.

Lemma upperhex_digit (k : N) :
  (k < 16)%N → utf8.hex_value (url.upperhex k) = Some k.
Proof.
  intros Hk.
  destruct k as [|[[[[p|p|]|[p|p|]|]|[[p|p|]|[p|p|]|]|]
                  |[[[p|p|]|[p|p|]|]|[[p|p|]|[p|p|]|]|]|]]; try lia; done.
Qed.

Lemma upperhex_pair (a b : ascii) :
  url.upperhex (N_of_ascii a / 16) = url.upperhex (N_of_ascii b / 16) →
  url.upperhex (N_of_ascii a mod 16) = url.upperhex (N_of_ascii b mod 16) →
  a = b.
Proof.
  intros Hhi Hlo.
  assert (N_of_ascii a < 256)%N as Ha by apply N_ascii_bounded.
  assert (N_of_ascii b < 256)%N as Hb by apply N_ascii_bounded.
  assert (∀ n, (n < 256)%N → (n / 16 < 16)%N) as Hdiv.
  { intros n Hn. apply N.Div0.div_lt_upper_bound. lia. }
  assert (∀ n, (n mod 16 < 16)%N) as Hmod by (intros n; by apply N.mod_lt).
  apply (f_equal utf8.hex_value) in Hhi, Hlo.
  rewrite !upperhex_digit in Hhi, Hlo by auto.
  simplify_eq.
  rewrite <- (ascii_N_embedding a), <- (ascii_N_embedding b). f_equal.
  rewrite (N.div_mod (N_of_ascii a) 16), (N.div_mod (N_of_ascii b) 16) by done.
  congruence.
Qed.

Lemma QueryEscape_injective (s t : string) :
  url.QueryEscape s = url.QueryEscape t → s = t.
Proof.
  revert t. induction s as [|a s IH]; intros [|b t]; cbn [url.QueryEscape].
  - done.
  - by repeat case_match.
  - by repeat case_match.
  - destruct (url.is_unreserved a) eqn:Ha, (url.is_unreserved b) eqn:Hb;
      [|destruct (Ascii.eqb b " ") eqn:Hbs
       |destruct (Ascii.eqb a " ") eqn:Has
       |destruct (Ascii.eqb a " ") eqn:Has, (Ascii.eqb b " ") eqn:Hbs];
      cbv zeta; intros Heq; simplify_eq; try done.
    + f_equal. by apply IH.
    + apply Ascii.eqb_eq in Has, Hbs. subst. f_equal. by apply IH.
    + f_equal; [by apply upperhex_pair | by apply IH].
Qed.

(** X1.  The text of a query cannot reshape the URL of its request: every
    request [Query] sends for a query string (an input that does not begin
    with [/services/data]) has the URL of the query endpoint followed by a
    parameter made of letters, digits and the bytes [-_.~%+] only. *)
Theorem Query_parameter_escaped `{Library} (w : World) (client : addr)
    (c : Client) (q : string) (r : Request) :
  heap w !! client = Some c →
  strings.HasPrefix q "/services/data" = false →
  r ∈ sent (Query client q) w →
  ∃ parameter,
    URL r = instanceURL c +:+ "/services/data/v" +:+ apiVersion c
            +:+ (if useToolingAPI c then "/tooling/query?q=" else "/query?q=")
            +:+ parameter
    ∧ every_byte query_safe parameter.
Proof.
  intros Hc Hq Hr. destruct (Query_requests _ _ _ _ _ Hc Hr) as [_ ->].
  exists (url.QueryEscape q). split; [|apply QueryEscape_safe].
  unfold query_target. by rewrite Hq.
Qed.

Lemma Query_parameter_escaped_witness :
  ∃ parameter,
    URL (requestOf session "GET" (query_target session soql) None)
    = instanceURL session +:+ "/services/data/v" +:+ apiVersion session
      +:+ (if useToolingAPI session then "/tooling/query?q=" else "/query?q=")
      +:+ parameter
    ∧ every_byte query_safe parameter.
Proof.
  apply (Query_parameter_escaped (H := golib) (world session) 1 session soql).
  - apply world_lookup.
  - reflexivity.
  - rewrite (Query_sends (H := golib) 1 session soql (world session));
      [by apply list_elem_of_singleton | apply world_lookup | discriminate
      | vm_compute; reflexivity | by eexists].
Defined.

(** X2.  On one client, two inputs of the same kind (two query strings, or
    two continuation tokens) whose requests have the same URL are the same
    input: the escaping of a query loses nothing. *)
Theorem Query_url_determines_input `{Library} (w : World) (client : addr)
    (c : Client) (q1 q2 : string) (r1 r2 : Request) :
  heap w !! client = Some c →
  strings.HasPrefix q1 "/services/data" = strings.HasPrefix q2 "/services/data" →
  r1 ∈ sent (Query client q1) w →
  r2 ∈ sent (Query client q2) w →
  URL r1 = URL r2 →
  q1 = q2.
Proof.
  intros Hc Hkind Hr1 Hr2.
  destruct (Query_requests _ _ _ _ _ Hc Hr1) as [_ ->].
  destruct (Query_requests _ _ _ _ _ Hc Hr2) as [_ ->].
  unfold query_target. rewrite Hkind.
  destruct (strings.HasPrefix q2 "/services/data").
  - apply append_inv_head.
  - intros Heq. do 4 apply append_inv_head in Heq.
    by apply QueryEscape_injective.
Qed.

Lemma Query_url_determines_input_witness :
  requestOf session "GET" (query_target session soql) None
  ∈ sent (Query (H := golib) 1 soql) (world session)
  ∧ soql = soql.
Proof.
  assert (sent (Query (H := golib) 1 soql) (world session)
          = [requestOf session "GET" (query_target session soql) None]) as Hsent.
  { apply Query_sends;
      [apply world_lookup | discriminate | vm_compute; reflexivity | by eexists]. }
  split; [rewrite Hsent; by apply list_elem_of_singleton|].
  apply (Query_url_determines_input (H := golib) (world session) 1 session
           soql soql
           (requestOf session "GET" (query_target session soql) None)
           (requestOf session "GET" (query_target session soql) None)).
  - apply world_lookup.
  - reflexivity.
  - rewrite Hsent. by apply list_elem_of_singleton.
  - rewrite Hsent. by apply list_elem_of_singleton.
  - reflexivity.
Defined.

(** ** [ExecuteAnonymous] and [ApexREST] *)

Section CallFacts.
Context `{Library}.

(** What comes back from [httpRequest] and what it leaves on the wire, for
    a request the library builds. *)
Lemma httpRequest_sends client c method u body w :
  heap w !! client = Some c →
  is_Some (httpClient c) →
  http_NewRequest_check method u = None →
  wire (httpRequest client method u body w).2
  = (wire w ++ [requestOf c method u body])%list.
Proof.
  intros Hc [transport Ht] Hcheck.
  rewrite (httpRequest_exchange _ _ _ _ _ _ _ Hc Ht Hcheck). cbv zeta.
  destruct (transport _ _) as [[r|] [err|]]; by repeat case_match.
Qed.

Lemma ExecuteAnonymous_run client c apexBody w :
  heap w !! client = Some c →
  sessionID c ≠ "" →
  ExecuteAnonymous client apexBody w
  = match httpRequest client http.MethodGet
            (executeAnonymous_target c apexBody) None w with
    | (Returns (data, None), w') =>
        match json_Unmarshal_ExecuteAnonymousResult data with
        | inl result => (Returns (Some result, None), w')
        | inr err => (Returns (None, Some err), w')
        end
    | (Returns (_, Some err), w') => (Returns (None, Some err), w')
    | (Panics reason, w') => (Panics reason, w')
    end.
Proof.
  intros Hc Hsid. unfold ExecuteAnonymous.
  unfold mbind at 1, M_bind at 1. rewrite (isLoggedIn_run _ _ _ Hc).
  apply eqb_empty_false in Hsid. rewrite Hsid. cbn [negb].
  unfold mbind at 1, M_bind at 1, deref at 1. rewrite Hc. cbv zeta.
  replace (fmt.Sprintf _ _) with (executeAnonymous_target c apexBody)
    by (unfold executeAnonymous_target; simpl; by literals).
  unfold mbind, M_bind.
  destruct (httpRequest _ _ _ _ _) as [[[data [err|]]|reason] w']; try done.
  by destruct (json_Unmarshal_ExecuteAnonymousResult data).
Qed.

Lemma ExecuteAnonymous_logged_out client c apexBody w :
  heap w !! client = Some c →
  sessionID c = "" →
  ExecuteAnonymous client apexBody w = (Returns (None, Some ErrAuthentication), w).
Proof.
  intros Hc Hsid. unfold ExecuteAnonymous. unfold mbind at 1, M_bind at 1.
  by rewrite (isLoggedIn_run _ _ _ Hc), Hsid.
Qed.

Lemma ApexREST_run client c method path requestBody w :
  heap w !! client = Some c →
  sessionID c ≠ "" →
  ApexREST client method path requestBody w
  = match httpRequest client method (instanceURL c +:+ "/" +:+ path)
            requestBody w with
    | (Returns (data, None), w') => (Returns (Some data, None), w')
    | (Returns (_, Some err), w') => (Returns (None, Some err), w')
    | (Panics reason, w') => (Panics reason, w')
    end.
Proof.
  intros Hc Hsid. unfold ApexREST.
  unfold mbind at 1, M_bind at 1. rewrite (isLoggedIn_run _ _ _ Hc).
  apply eqb_empty_false in Hsid. rewrite Hsid. cbn [negb].
  unfold mbind at 1, M_bind at 1, deref at 1. rewrite Hc. cbv zeta.
  replace (fmt.Sprintf _ _) with (instanceURL c +:+ "/" +:+ path)
    by (simpl; by literals).
  unfold mbind, M_bind.
  by destruct (httpRequest _ _ _ _ _) as [[[data [err|]]|reason] w'].
Qed.

Lemma ApexREST_logged_out client c method path requestBody w :
  heap w !! client = Some c →
  sessionID c = "" →
  ApexREST client method path requestBody w
  = (Returns (None, Some ErrAuthentication), w).
Proof.
  intros Hc Hsid. unfold ApexREST. unfold mbind at 1, M_bind at 1.
  by rewrite (isLoggedIn_run _ _ _ Hc), Hsid.
Qed.

End CallFacts.

Section ExchangeFacts.
Context `{Library}.

Lemma Join_some (t : option error) (e : error) :
  is_Some (errors.Join [t; Some e]).
Proof. rewrite Join_two. by eexists. Qed.

(** The error rule never turns a failure into [nil]. *)
Lemma parseUhttpError_reports (resp : option Response) (errHttp e : option error) :
  is_Some errHttp ∨ (∃ r, resp = Some r ∧ failed r) →
  parseUhttpError resp errHttp = Returns e →
  is_Some e.
Proof.
  intros Hfail. unfold parseUhttpError. destruct resp as [r|].
  - destruct ((StatusCode r <? 200) || (299 <? StatusCode r))%Z eqn:Hstatus.
    + destruct (Body r) as [buf [readErr|]].
      * intros [= <-]. apply Join_some.
      * destruct (ParseSalesforceError _ _); [|done].
        intros [= <-]. apply Join_some.
    + intros [= <-]. destruct Hfail as [?|(r' & [= <-] & Hr)]; [done|].
      by rewrite (failed_status r Hr) in Hstatus.
  - intros [= <-]. by destruct Hfail as [?|(r' & ? & _)].
Qed.

Lemma status_succeeded (r : Response) :
  ((StatusCode r <? 200) || (299 <? StatusCode r))%Z = false ↔ succeeded r.
Proof.
  unfold succeeded. rewrite orb_false_iff, !Z.ltb_ge. tauto.
Qed.

(** What [httpRequest] returns, from what the transport answers. *)
Lemma httpRequest_returns client c transport method u body w data e :
  heap w !! client = Some c →
  httpClient c = Some transport →
  http_NewRequest_check method u = None →
  (httpRequest client method u body w).1 = Returns (data, e) →
  match transport (wire w) (requestOf c method u body) with
  | (Some r, None) =>
      (failed r ∧ data = "" ∧ is_Some e) ∨ (succeeded r ∧ Body r = (data, e))
  | (_, Some _) => data = "" ∧ is_Some e
  | (None, None) => False
  end.
Proof.
  intros Hc Ht Hcheck.
  rewrite (httpRequest_exchange _ _ _ _ _ _ _ Hc Ht Hcheck). cbv zeta.
  destruct (transport _ _) as [[r|] [err|]].
  - destruct (parseUhttpError _ _) as [e'|] eqn:He; [|done].
    intros [= <- <-]. split; [done|].
    eapply parseUhttpError_reports; [|exact He]. left. by eexists.
  - destruct ((StatusCode r <? 200) || (299 <? StatusCode r))%Z eqn:Hstatus.
    + assert (failed r) as Hfailed.
      { unfold failed.
        apply orb_true_iff in Hstatus as [?%Z.ltb_lt|?%Z.ltb_lt]; auto. }
      destruct (parseUhttpError _ _) as [e'|] eqn:He; [|done].
      intros [= <- <-]. left. split; [done|]. split; [done|].
      eapply parseUhttpError_reports; [|exact He]. right. by exists r.
    + intros [= Hbody]. right. split; [by apply status_succeeded|].
      by destruct (Body r).
  - destruct (parseUhttpError _ _) as [e'|] eqn:He; [|done].
    intros [= <- <-]. split; [done|].
    eapply parseUhttpError_reports; [|exact He]. left. by eexists.
  - done.
Qed.

(** [httpRequest] hands out the body of a response only for an exchange
    that succeeded. *)
Lemma httpRequest_success client c method u body w data :
  heap w !! client = Some c →
  (httpRequest client method u body w).1 = Returns (data, None) →
  ∃ transport r,
    httpClient c = Some transport
    ∧ http_NewRequest_check method u = None
    ∧ transport (wire w) (requestOf c method u body) = (Some r, None)
    ∧ succeeded r ∧ Body r = (data, None).
Proof.
  intros Hc Hret.
  destruct (http_NewRequest_check method u) as [err|] eqn:Hcheck.
  { revert Hret. unfold httpRequest, http.NewRequestWithContext. run.
    by rewrite Hcheck. }
  destruct (httpClient c) as [transport|] eqn:Ht.
  2: { revert Hret. unfold httpRequest, http.NewRequestWithContext. run.
       rewrite Hcheck, Hc. simpl. by rewrite Ht. }
  pose proof (httpRequest_returns _ _ _ _ _ _ _ _ _ Hc Ht Hcheck Hret) as Hcases.
  exists transport.
  destruct (transport _ _) as [[r|] [err|]]; try done.
  - by destruct Hcases as [_ [? [=]]].
  - destruct Hcases as [(_ & _ & [? [=]])|[Hok Hbody]]. by exists r.
  - by destruct Hcases as [_ [? [=]]].
Qed.

End ExchangeFacts.

(** X3.  A failed exchange is never reported as a success: when the
    transport returns an error, or a response whose status is outside
    200..299, [httpRequest] returns no data and an error that is not [nil]
    (or panics). *)
Theorem httpRequest_reports_failure `{Library} (client : addr) (c : Client)
    (transport : Transport) (method u : string) (body : option string)
    (w : World) (resp : option Response) (err : option error) (data : string)
    (e : option error) :
  heap w !! client = Some c →
  httpClient c = Some transport →
  http_NewRequest_check method u = None →
  transport (wire w) (requestOf c method u body) = (resp, err) →
  is_Some err ∨ (∃ r, resp = Some r ∧ failed r) →
  (httpRequest client method u body w).1 = Returns (data, e) →
  data = "" ∧ is_Some e.
Proof.
  intros Hc Ht Hcheck Hdo Hfail Hret.
  pose proof (httpRequest_returns _ _ _ _ _ _ _ _ _ Hc Ht Hcheck Hret) as Hcases.
  rewrite Hdo in Hcases.
  destruct resp as [r|], err as [t|]; try done.
  - destruct Hcases as [(_ & ? & ?)|[Hok _]]; [done|].
    destruct Hfail as [[? [=]]|(r' & [= <-] & Hr)].
    unfold failed, succeeded in *. lia.
Qed.

Lemma httpRequest_reports_failure_witness :
  "" = "" ∧ is_Some (Some (joinError [decodedError 404 "gone" "NOT_FOUND"])).
Proof.
  apply (httpRequest_reports_failure (H := golib) 1
           (loggedIn (always 404 goneBody)) (always 404 goneBody)
           "GET" "https://na1.salesforce.com/x" None
           (world (loggedIn (always 404 goneBody)))
           (Some {| StatusCode := 404; Body := (goneBody, None) |}) None).
  - apply world_lookup.
  - reflexivity.
  - vm_compute; reflexivity.
  - reflexivity.
  - right. eexists. split; [reflexivity|]. unfold failed. simpl. lia.
  - vm_compute; reflexivity.
Defined.

(** X4.  [Query] returns a page only for an exchange that succeeded, and
    never a page together with an error: when it returns a result, the error
    is [nil], the client was logged in, the transport answered the one request
    with a status in 200..299 and no error, the body was read to its end and
    decoded, and the result is the decoded page with its records bound to the
    client. *)
Theorem Query_result_inversion `{Library} (w : World) (client : addr)
    (c : Client) (q : string) (result : QueryResult) (e : option error) :
  heap w !! client = Some c →
  (Query client q w).1 = Returns (Some result, e) →
  e = None ∧ sessionID c ≠ ""
  ∧ ∃ transport r data page,
      httpClient c = Some transport
      ∧ transport (wire w) (requestOf c "GET" (query_target c q) None)
        = (Some r, None)
      ∧ succeeded r ∧ Body r = (data, None)
      ∧ json_Unmarshal_QueryResult data = inl page
      ∧ result = bound client page.
Proof.
  intros Hc Hret. destruct (decide (sessionID c = "")) as [Hsid|Hsid].
  { by rewrite (Query_logged_out _ _ _ _ Hc Hsid) in Hret. }
  rewrite (Query_run _ _ _ _ Hc Hsid) in Hret.
  destruct (httpRequest _ _ _ _ _) as [[[data [err|]]|reason] w'] eqn:Hreq;
    try done.
  destruct (json_Unmarshal_QueryResult data) as [page|err] eqn:Hpage; [|done].
  injection Hret as <- <-. split; [done|]. split; [done|].
  destruct (httpRequest_success client c http.MethodGet (query_target c q)
              None w data Hc) as (transport & r & Ht & _ & Hdo & Hok & Hbody).
  { by rewrite Hreq. }
  by exists transport, r, data, page.
Qed.

Lemma Query_result_inversion_witness :
  @None error = None ∧ sessionID (loggedIn (always 200 twoRecords)) ≠ ""
  ∧ ∃ transport r data page,
      httpClient (loggedIn (always 200 twoRecords)) = Some transport
      ∧ transport (wire (world (loggedIn (always 200 twoRecords))))
          (requestOf (loggedIn (always 200 twoRecords)) "GET"
             (query_target (loggedIn (always 200 twoRecords)) soql) None)
        = (Some r, None)
      ∧ succeeded r ∧ Body r = (data, None)
      ∧ json_Unmarshal_QueryResult (Library := golib) data = inl page
      ∧ twoRecordsBound = bound 1 page.
Proof.
  apply (Query_result_inversion (H := golib)
           (world (loggedIn (always 200 twoRecords))) 1
           (loggedIn (always 200 twoRecords)) soql twoRecordsBound None).
  - apply world_lookup.
  - vm_compute; reflexivity.
Defined.

Section CallWires.
Context `{Library}.

Lemma ExecuteAnonymous_wire client c apexBody w :
  heap w !! client = Some c →
  sessionID c ≠ "" →
  wire (ExecuteAnonymous client apexBody w).2
  = wire (httpRequest client http.MethodGet
            (executeAnonymous_target c apexBody) None w).2.
Proof.
  intros Hc Hsid. rewrite (ExecuteAnonymous_run _ _ _ _ Hc Hsid).
  destruct (httpRequest _ _ _ _ _) as [[[data [err|]]|reason] w']; try done.
  by destruct (json_Unmarshal_ExecuteAnonymousResult data).
Qed.

Lemma ApexREST_wire client c method path requestBody w :
  heap w !! client = Some c →
  sessionID c ≠ "" →
  wire (ApexREST client method path requestBody w).2
  = wire (httpRequest client method (instanceURL c +:+ "/" +:+ path)
            requestBody w).2.
Proof.
  intros Hc Hsid. rewrite (ApexREST_run _ _ _ _ _ _ Hc Hsid).
  by destruct (httpRequest _ _ _ _ _) as [[[data [err|]]|reason] w'].
Qed.

Lemma sent_nothing {A} (m : M A) (w : World) (o : outcome A) :
  m w = (o, w) → sent m w = [].
Proof. intros Hm. unfold sent. rewrite Hm. simpl. apply drop_all. Qed.

End CallWires.

(** X5.  [ExecuteAnonymous] goes to the tooling endpoint whatever the mode of
    the client: every request it sends is a [GET] without a body of
    [/services/data/v<version>/tooling/executeAnonymous/?anonymousBody=] on the
    instance, followed by the code escaped into letters, digits and [-_.~%+];
    a logged-in client with a transport sends exactly that one request. *)
Theorem ExecuteAnonymous_requests `{Library} (w : World) (client : addr)
    (c : Client) (apexBody : string) :
  heap w !! client = Some c →
  (∀ r, r ∈ sent (ExecuteAnonymous client apexBody) w →
        Method r = "GET" ∧ RequestBody r = None
        ∧ URL r = instanceURL c +:+ "/services/data/v" +:+ apiVersion c
                  +:+ "/tooling/executeAnonymous/?anonymousBody="
                  +:+ url.QueryEscape apexBody)
  ∧ every_byte query_safe (url.QueryEscape apexBody)
  ∧ (sessionID c ≠ "" →
     is_Some (httpClient c) →
     http_NewRequest_check "GET" (executeAnonymous_target c apexBody) = None →
     sent (ExecuteAnonymous client apexBody) w
     = [requestOf c "GET" (executeAnonymous_target c apexBody) None]).
Proof.
  intros Hc. split; [|split; [apply QueryEscape_safe|]].
  - intros r Hr. destruct (decide (sessionID c = "")) as [Hsid|Hsid].
    { rewrite (sent_nothing _ _ _ (ExecuteAnonymous_logged_out _ _ _ _ Hc Hsid))
        in Hr. by apply elem_of_nil in Hr. }
    unfold sent in Hr. rewrite (ExecuteAnonymous_wire _ _ _ _ Hc Hsid) in Hr.
    destruct (httpRequest_wire client http.MethodGet
                (executeAnonymous_target c apexBody) None w)
      as (rs & Hwire & _ & Hrs).
    rewrite Hwire, drop_app_length in Hr.
    by destruct (Hrs r Hr) as (Hurl & Hbody & Hmethod).
  - intros Hsid Ht Hcheck. apply sent_app.
    rewrite (ExecuteAnonymous_wire _ _ _ _ Hc Hsid).
    by apply httpRequest_sends.
Qed.

Lemma ExecuteAnonymous_requests_witness :
  sent (ExecuteAnonymous (H := golib) 1 "System.debug('test');")
    (world (with_useToolingAPI session false))
  = [requestOf (with_useToolingAPI session false) "GET"
       (executeAnonymous_target (with_useToolingAPI session false)
          "System.debug('test');") None]
  ∧ executeAnonymous_target (with_useToolingAPI session false)
      "System.debug('test');"
    = "https://na1.salesforce.com/services/data/v54.0/tooling/executeAnonymous/"
      +:+ "?anonymousBody=System.debug%28%27test%27%29%3B".
Proof.
  split; [|vm_compute; reflexivity].
  apply (ExecuteAnonymous_requests (H := golib)
           (world (with_useToolingAPI session false)) 1
           (with_useToolingAPI session false) "System.debug('test');");
    [apply world_lookup | discriminate | by eexists | vm_compute; reflexivity].
Defined.

(** X6.  [ApexREST] passes its arguments through: every request it sends
    has the method given ([GET] for an empty one), the body given and the URL
    made of the instance URL, a [/] and the path, which is not escaped; and
    when the exchange succeeds and the body is read to its end, the result is
    that body, byte for byte. *)
Theorem ApexREST_passes_through `{Library} (w : World) (client : addr)
    (c : Client) (method path : string) (requestBody : option string) :
  heap w !! client = Some c →
  (∀ r, r ∈ sent (ApexREST client method path requestBody) w →
        Method r = (if String.eqb method "" then "GET" else method)
        ∧ URL r = instanceURL c +:+ "/" +:+ path
        ∧ RequestBody r = requestBody)
  ∧ (∀ transport r data,
       sessionID c ≠ "" →
       httpClient c = Some transport →
       http_NewRequest_check method (instanceURL c +:+ "/" +:+ path) = None →
       transport (wire w)
         (requestOf c method (instanceURL c +:+ "/" +:+ path) requestBody)
       = (Some r, None) →
       succeeded r → Body r = (data, None) →
       (ApexREST client method path requestBody w).1
       = Returns (Some data, None)).
Proof.
  intros Hc. split.
  - intros r Hr. destruct (decide (sessionID c = "")) as [Hsid|Hsid].
    { rewrite (sent_nothing _ _ _ (ApexREST_logged_out _ _ _ _ _ _ Hc Hsid))
        in Hr. by apply elem_of_nil in Hr. }
    unfold sent in Hr. rewrite (ApexREST_wire _ _ _ _ _ _ Hc Hsid) in Hr.
    destruct (httpRequest_wire client method (instanceURL c +:+ "/" +:+ path)
                requestBody w) as (rs & Hwire & _ & Hrs).
    rewrite Hwire, drop_app_length in Hr.
    by destruct (Hrs r Hr) as (Hurl & Hbody & Hmethod).
  - intros transport r data Hsid Ht Hcheck Hdo Hok Hbody.
    rewrite (ApexREST_run _ _ _ _ _ _ Hc Hsid).
    rewrite (httpRequest_exchange _ _ _ _ _ _ _ Hc Ht Hcheck). cbv zeta.
    rewrite Hdo. apply status_succeeded in Hok. by rewrite Hok, Hbody.
Qed.

Lemma ApexREST_passes_through_witness :
  (ApexREST (H := golib) 1 "POST" "services/apexrest/my-custom-endpoint"
     (Some "{}") (world (loggedIn (always 201 xyBody)))).1
  = Returns (Some xyBody, None).
Proof.
  pose proof (ApexREST_passes_through (H := golib)
                (world (loggedIn (always 201 xyBody))) 1
                (loggedIn (always 201 xyBody)) "POST"
                "services/apexrest/my-custom-endpoint" (Some "{}")
                (world_lookup _)) as [_ Hdata].
  apply (Hdata (always 201 xyBody) {| StatusCode := 201; Body := (xyBody, None) |});
    [discriminate | reflexivity | vm_compute; reflexivity | reflexivity
    | unfold succeeded; simpl; lia | reflexivity].
Defined.

(** ** The API version of [makeURL], and [SetSidLoc] *)

Lemma Replace_v_step (c : ascii) (s : string) :
  strings.Replace (String c s) "v" "" (-1)
  = if Ascii.eqb c "v" then strings.Replace s "v" "" (-1)
    else String c (strings.Replace s "v" "" (-1)).
Proof.
  unfold strings.Replace. cbn [Z.ltb Z.compare strings.replace_from].
  change (Init.Nat.pred <$> None) with (@None nat).
  change (String.length "v" - 1) with 0. cbn [String.prefix].
  destruct (ascii_dec "v" c) as [<-|Hc].
  - by destruct s.
  - apply not_eq_sym, Ascii.eqb_neq in Hc. by rewrite Hc.
Qed.

Lemma Replace_v_remove (s : string) :
  strings.Replace s "v" "" (-1) = remove_byte "v" s.
Proof.
  induction s as [|c s IH]; [done|].
  rewrite Replace_v_step. cbn [remove_byte]. by rewrite IH.
Qed.

Lemma remove_byte_idem (x : ascii) (s : string) :
  remove_byte x (remove_byte x s) = remove_byte x s.
Proof.
  induction s as [|c s IH]; [done|]. cbn [remove_byte].
  destruct (Ascii.eqb c x) eqn:Hc; [done|].
  cbn [remove_byte]. by rewrite Hc, IH.
Qed.

(** X7.  [makeURL] normalises the API version once and for all.  It returns
    the instance URL, [/services/data/v], the API version of the client with
    every [v] taken out, a [/] and the request; it stores that version in the
    client, changes no other field and sends nothing; and a second call
    returns the URL made with that same version and leaves the world as the
    first call left it. *)
Theorem makeURL_idempotent `{Library} (w : World) (client : addr) (c : Client)
    (req req' : string) :
  heap w !! client = Some c →
  ∃ w1,
    makeURL client req w
    = (Returns (instanceURL c +:+ "/services/data/v"
                +:+ remove_byte "v" (apiVersion c) +:+ "/" +:+ req), w1)
    ∧ heap w1
      = <[client := with_apiVersion c (remove_byte "v" (apiVersion c))]> (heap w)
    ∧ wire w1 = wire w
    ∧ makeURL client req' w1
      = (Returns (instanceURL c +:+ "/services/data/v"
                  +:+ remove_byte "v" (apiVersion c) +:+ "/" +:+ req'), w1).
Proof.
  intros Hc. eexists. rewrite (makeURL_run _ _ _ _ Hc). cbv zeta.
  cbn [with_apiVersion apiVersion]. rewrite Replace_v_remove.
  split; [done|]. split; [done|]. split; [done|].
  erewrite makeURL_run by apply lookup_insert_eq. cbv zeta.
  cbn [with_apiVersion instanceURL apiVersion heap wire].
  by rewrite Replace_v_remove, remove_byte_idem, insert_insert_eq.
Qed.

Lemma makeURL_idempotent_witness :
  ∃ w1,
    makeURL 1 "sobjects/Case" (world versioned)
    = (Returns (instanceURL versioned +:+ "/services/data/v"
                +:+ remove_byte "v" (apiVersion versioned) +:+ "/"
                +:+ "sobjects/Case"), w1)
    ∧ heap w1
      = <[1 := with_apiVersion versioned (remove_byte "v" (apiVersion versioned))]>
          (heap (world versioned))
    ∧ wire w1 = wire (world versioned)
    ∧ makeURL 1 "sobjects/Case/500A" w1
      = (Returns (instanceURL versioned +:+ "/services/data/v"
                  +:+ remove_byte "v" (apiVersion versioned) +:+ "/"
                  +:+ "sobjects/Case/500A"), w1)
    ∧ apiVersion versioned = "v54.0"
    ∧ remove_byte "v" (apiVersion versioned) = "54.0".
Proof.
  destruct (makeURL_idempotent (H := golib) (world versioned) 1 versioned
              "sobjects/Case" "sobjects/Case/500A" (world_lookup _))
    as (w1 & Hfirst & Hheap & Hwire & Hsecond).
  exists w1. by repeat (split; [done|]).
Defined.

(** X8.  [SetSidLoc] is a login without a handshake.  It sends nothing;
    after it [GetSid] and [GetLoc] return the two values given; with a
    session id that is not empty the next [Query] sends its request to the
    new instance URL with the new id as bearer token, whatever the session
    before; with an empty one the client is logged out and [Query] fails with
    [ErrAuthentication] without sending. *)
Theorem SetSidLoc_is_a_login `{Library} (w : World) (client : addr)
    (c : Client) (sid loc q : string) :
  heap w !! client = Some c →
  ∃ w1 c1,
    SetSidLoc client sid loc w = (Returns (), w1)
    ∧ wire w1 = wire w
    ∧ heap w1 !! client = Some c1
    ∧ sessionID c1 = sid ∧ instanceURL c1 = loc
    ∧ (GetSid client w1).1 = Returns sid
    ∧ (GetLoc client w1).1 = Returns loc
    ∧ (sid = "" →
       Query client q w1 = (Returns (None, Some ErrAuthentication), w1))
    ∧ (sid ≠ "" →
       is_Some (httpClient c) →
       http_NewRequest_check "GET" (query_target c1 q) = None →
       sent (Query client q) w1 = [requestOf c1 "GET" (query_target c1 q) None]).
Proof.
  intros Hc. rewrite (SetSidLoc_run _ _ _ _ _ Hc).
  eexists _, (with_instanceURL (with_sessionID c sid) loc).
  split; [done|]. split; [done|].
  assert (heap {| heap := <[client := with_instanceURL (with_sessionID c sid) loc]>
                            (heap w);
                  wire := wire w |} !! client
          = Some (with_instanceURL (with_sessionID c sid) loc)) as Hc1
    by apply lookup_insert_eq.
  split; [done|]. split; [done|]. split; [done|].
  split; [unfold GetSid; run; by rewrite Hc1|].
  split; [unfold GetLoc; run; by rewrite Hc1|].
  split.
  - intros Hsid. by apply (Query_logged_out _ _ _ _ Hc1).
  - intros Hsid Ht Hcheck. by apply Query_sends.
Qed.

Lemma SetSidLoc_is_a_login_witness :
  ∃ w1 c1,
    SetSidLoc 1 "00Dyy!AR" "https://eu5.salesforce.com"
      (world (loggedOut (always 200 "{}")))
    = (Returns (), w1)
    ∧ wire w1 = wire (world (loggedOut (always 200 "{}")))
    ∧ heap w1 !! 1 = Some c1
    ∧ sessionID c1 = "00Dyy!AR" ∧ instanceURL c1 = "https://eu5.salesforce.com"
    ∧ (GetSid 1 w1).1 = Returns "00Dyy!AR"
    ∧ (GetLoc 1 w1).1 = Returns "https://eu5.salesforce.com"
    ∧ ("00Dyy!AR" = "" →
       Query (H := golib) 1 soql w1
       = (Returns (None, Some ErrAuthentication), w1))
    ∧ ("00Dyy!AR" ≠ "" →
       is_Some (httpClient (loggedOut (always 200 "{}"))) →
       http_NewRequest_check (Library := golib) "GET" (query_target c1 soql)
       = None →
       sent (Query (H := golib) 1 soql) w1
       = [requestOf c1 "GET" (query_target c1 soql) None]).
Proof.
  apply (SetSidLoc_is_a_login (H := golib) (world (loggedOut (always 200 "{}")))
           1 (loggedOut (always 200 "{}"))).
  apply world_lookup.
Defined.

(** ** The handshake *)

Lemma soapBody_text (clientID username password token : string) :
  fmt.Sprintf soapBody
    [fmt.Str clientID; fmt.Str username; fmt.Str password; fmt.Str token]
  = envelope clientID username password token.
Proof. vm_compute. reflexivity. Qed.

Lemma EscapeString_markup_free (s : string) :
  every_byte markup_free (html.EscapeString s).
Proof.
  induction s as [|c s IH]; [done|]. cbn [html.EscapeString].
  apply every_byte_app. split; [|done]. unfold html.escape.
  repeat (case_match; [done|]).
  unfold every_byte, markup_free. cbn [golib_model.all_bytes byte_in].
  repeat match goal with
         | Hc : Ascii.eqb c _ = false |- _ => rewrite Hc; clear Hc
         end.
  done.
Qed.

Section HandshakeFacts.
Context `{Library} `{Platform}.

(** [LoginPassword] on a client with a transport, for a URL the library
    accepts: one request goes on the wire, and the answer decides. *)
Lemma LoginPassword_exchange client c transport username password token w :
  heap w !! client = Some c →
  httpClient c = Some transport →
  http_NewRequest_check "POST" (baseURL c +:+ "/services/Soap/u/" +:+ apiVersion c)
  = None →
  LoginPassword client username password token w
  = let req := loginRequest c username password token in
    let w' := {| heap := heap w; wire := wire w ++ [req] |} in
    match transport (wire w) req with
    | (_, Some err) => (Returns (Some err), w')
    | (None, None) => (Panics nilDereference, w')
    | (Some r, None) =>
        if (StatusCode r =? 200)%Z then
          match xml_Unmarshal_loginResponse (Body r).1 with
          | inl response =>
              (Returns None,
               {| heap := <[client := with_login c (SessionID response)
                                        (parseHost (ServerURL response))
                                        (userOf response)]> (heap w);
                  wire := wire w ++ [req] |})
          | inr err => (Returns (Some err), w')
          end
        else
          match ParseSalesforceError (StatusCode r) (Body r).1 with
          | Returns e => (Returns (Some e), w')
          | Panics reason => (Panics reason, w')
          end
    end.
Proof.
  intros Hc Ht Hcheck.
  unfold LoginPassword, http.NewRequestWithContext, http_MethodPost.
  run. rewrite Hc. cbv zeta. rewrite soapBody_text.
  replace (fmt.Sprintf "%s/services/Soap/u/%s" _)
    with (baseURL c +:+ "/services/Soap/u/" +:+ apiVersion c)
    by (simpl; by literals).
  rewrite Hcheck, Ht.
  change (http_Header_Add _ "SOAPAction" "login")
    with (loginRequest c username password token).
  destruct (transport _ _) as [[r|] [err|]]; try done.
  destruct (StatusCode r =? 200)%Z; cbn [negb].
  - by destruct (xml_Unmarshal_loginResponse _).
  - by destruct (ParseSalesforceError _ _).
Qed.

End HandshakeFacts.

Example Unmarshal_loginResponse_soap :
  goplatform_model.Unmarshal_loginResponse loginBody
  = inl {| ServerURL := "https://na1.salesforce.com/services/Soap/u/54.0/00Dxx";
           SessionID := "00Dxx!AQ"; UserID := "005";
           UserEmail := "u@example.com"; UserFullName := "U";
           UserName := "u@example.com" |}
  ∧ goplatform_model.Unmarshal_loginResponse soapFault
    = inl {| ServerURL := ""; SessionID := ""; UserID := ""; UserEmail := "";
             UserFullName := ""; UserName := "" |}
  ∧ goplatform_model.Unmarshal_loginResponse "<html><body>down</body></html>"
    = inr xml.SyntaxError.
Proof. repeat split; vm_compute; reflexivity. Qed.

Example Parse_examples :
  goplatform_model.Parse "https://na1.salesforce.com/services/Soap/u/54.0/00Dxx"
  = inl {| Scheme := "https"; Host := "na1.salesforce.com" |}
  ∧ goplatform_model.Parse "HTTP://Example.org:8080/a?b=c#d"
    = inl {| Scheme := "http"; Host := "Example.org:8080" |}
  ∧ goplatform_model.Parse "" = inl {| Scheme := ""; Host := "" |}
  ∧ goplatform_model.Parse "mailto:u@example.com"
    = inl {| Scheme := "mailto"; Host := "" |}
  ∧ goplatform_model.Parse ":nothing"
    = inr (libraryError "parse: missing protocol scheme")
  ∧ goplatform_model.Parse "https://na1.salesforce.com:port/"
    = inr (libraryError "parse: invalid port after host")
  ∧ goplatform_model.Parse "https://na1 salesforce.com/"
    = inr (libraryError "parse: invalid character in host name")
  ∧ goplatform_model.Parse "https://h/p%zz" = inr goplatform_model.invalidEscape
  ∧ goplatform_model.Parse "https://h/p%20q#f%2"
    = inr goplatform_model.invalidEscape
  ∧ goplatform_model.Parse "https://h/p%20q?x=%zz#f%2F"
    = inl {| Scheme := "https"; Host := "h" |}.
Proof. repeat split; vm_compute; reflexivity. Qed.

(** X9.  A login is one [POST] of the SOAP envelope to
    [<baseURL>/services/Soap/u/<version>], whatever session the client holds:
    the request carries the headers [Content-Type: text/xml],
    [Charset: UTF-8] and [Soapaction: login] (the keys in canonical form) and
    no [Authorization] header; in the envelope the password is HTML-escaped,
    so it holds no [<], [>] or quote, and the token follows it directly; the
    client id, the user name and the token are written as they are. *)
Theorem LoginPassword_request `{Library} `{Platform} (w : World)
    (client : addr) (c : Client) (username password token : string) :
  heap w !! client = Some c →
  is_Some (httpClient c) →
  http_NewRequest_check "POST" (baseURL c +:+ "/services/Soap/u/" +:+ apiVersion c)
  = None →
  sent (LoginPassword client username password token) w
  = [ {| Method := "POST";
         URL := baseURL c +:+ "/services/Soap/u/" +:+ apiVersion c;
         Header := [("Content-Type", "text/xml"); ("Charset", "UTF-8");
                    ("Soapaction", "login")];
         RequestBody :=
           Some (envelope (clientID c) username (html.EscapeString password)
                   token) |} ]
  ∧ every_byte markup_free (html.EscapeString password).
Proof.
  intros Hc [transport Ht] Hcheck. split; [|apply EscapeString_markup_free].
  apply sent_app. rewrite (LoginPassword_exchange _ _ _ _ _ _ _ Hc Ht Hcheck).
  cbv zeta. destruct (transport _ _) as [[r|] [err|]]; try done.
  destruct (StatusCode r =? 200)%Z.
  - by destruct (xml_Unmarshal_loginResponse _).
  - by destruct (ParseSalesforceError _ _).
Qed.

Lemma LoginPassword_request_witness :
  sent (LoginPassword (H := golib) (H0 := goplatform (always 200 loginBody))
          1 "u@example.com" "p<w&d" "TOKEN")
    (world session)
  = [ {| Method := "POST";
         URL := baseURL session +:+ "/services/Soap/u/" +:+ apiVersion session;
         Header := [("Content-Type", "text/xml"); ("Charset", "UTF-8");
                    ("Soapaction", "login")];
         RequestBody :=
           Some (envelope (clientID session) "u@example.com"
                   (html.EscapeString "p<w&d") "TOKEN") |} ]
  ∧ every_byte markup_free (html.EscapeString "p<w&d")
  ∧ html.EscapeString "p<w&d" = "p&lt;w&amp;d".
Proof.
  split; [|split; [apply EscapeString_markup_free | reflexivity]].
  apply (LoginPassword_request (H := golib)
           (H0 := goplatform (always 200 loginBody)) (world session) 1 session);
    [apply world_lookup | by eexists | vm_compute; reflexivity].
Defined.

(** X10.  A login succeeds on a response with status 200 whose body, as far
    as it could be read, decodes: [LoginPassword] returns [nil] and stores the
    session id, the user and, as instance URL, the scheme and the host of the
    server URL, or the text [Failed to parse URL input] when that URL does not
    parse; the client id, the API version, the base URL, the tooling flag and
    the transport stay, and so does every other client. *)
Theorem LoginPassword_success `{Library} `{Platform} (w : World)
    (client : addr) (c : Client) (transport : Transport)
    (username password token : string) (r : Response) (response : loginResponse) :
  heap w !! client = Some c →
  httpClient c = Some transport →
  http_NewRequest_check "POST" (baseURL c +:+ "/services/Soap/u/" +:+ apiVersion c)
  = None →
  transport (wire w) (loginRequest c username password token) = (Some r, None) →
  StatusCode r = 200%Z →
  xml_Unmarshal_loginResponse (Body r).1 = inl response →
  ∃ w1 c1,
    LoginPassword client username password token w = (Returns None, w1)
    ∧ heap w1 = <[client := c1]> (heap w)
    ∧ sessionID c1 = SessionID response
    ∧ user c1 = userOf response
    ∧ instanceURL c1
      = match url_Parse (ServerURL response) with
        | inl parsed => Scheme parsed +:+ "://" +:+ Host parsed
        | inr _ => "Failed to parse URL input"
        end
    ∧ clientID c1 = clientID c ∧ apiVersion c1 = apiVersion c
    ∧ baseURL c1 = baseURL c ∧ useToolingAPI c1 = useToolingAPI c
    ∧ httpClient c1 = httpClient c.
Proof.
  intros Hc Ht Hcheck Hdo Hstatus Hresponse.
  rewrite (LoginPassword_exchange _ _ _ _ _ _ _ Hc Ht Hcheck). cbv zeta.
  rewrite Hdo, Hstatus, Hresponse. cbn [Z.eqb Pos.eqb].
  eexists _, _. split; [done|]. split; [done|]. split; [done|].
  split; [done|]. split; [|done].
  cbn [with_login instanceURL]. unfold parseHost.
  destruct (url_Parse _); [|done]. simpl. by literals.
Qed.

Lemma LoginPassword_success_witness :
  ∃ w1 c1,
    LoginPassword (H := golib) (H0 := goplatform (always 200 loginBody))
      1 "u@example.com" "secret" "TOKEN"
      (world (fresh_client (always 200 loginBody)))
    = (Returns None, w1)
    ∧ heap w1 = <[1 := c1]> (heap (world (fresh_client (always 200 loginBody))))
    ∧ sessionID c1 = "00Dxx!AQ"
    ∧ instanceURL c1 = "https://na1.salesforce.com".
Proof.
  destruct (LoginPassword_success (H := golib)
              (H0 := goplatform (always 200 loginBody))
              (world (fresh_client (always 200 loginBody))) 1
              (fresh_client (always 200 loginBody)) (always 200 loginBody)
              "u@example.com" "secret" "TOKEN"
              {| StatusCode := 200; Body := (loginBody, None) |}
              {| ServerURL := "https://na1.salesforce.com/services/Soap/u/54.0/00Dxx";
                 SessionID := "00Dxx!AQ"; UserID := "005";
                 UserEmail := "u@example.com"; UserFullName := "U";
                 UserName := "u@example.com" |})
    as (w1 & c1 & Hrun & Hheap & Hsid & _ & Hloc & _);
    [apply world_lookup | reflexivity | vm_compute; reflexivity | reflexivity
    | reflexivity | vm_compute; reflexivity |].
  exists w1, c1. split; [done|]. split; [done|]. split; [done|].
  rewrite Hloc. vm_compute. reflexivity.
Defined.

(** X11.  A login that fails changes no client: whenever [LoginPassword]
    returns an error or panics, every client, the one it was called on
    included, is as it was before the call; a session set up earlier stays. *)
Theorem LoginPassword_failure_keeps_clients `{Library} `{Platform} (w : World)
    (client : addr) (username password token : string) :
  (LoginPassword client username password token w).1 ≠ Returns None →
  heap (LoginPassword client username password token w).2 = heap w.
Proof.
  unfold LoginPassword, http.NewRequestWithContext. run. cases.
Qed.

Lemma LoginPassword_failure_keeps_clients_witness :
  heap (LoginPassword (H := golib) (H0 := goplatform (always 500 soapFault))
          1 "u@example.com" "wrong" "" (world session)).2
  = heap (world session).
Proof.
  apply (LoginPassword_failure_keeps_clients (H := golib)
           (H0 := goplatform (always 500 soapFault))).
  vm_compute. discriminate.
Defined.

(** The example server keeps the contract of [uhttp]. *)
Lemma uhttp_always_contract (status : Z) (body : string) :
  uhttp_contract (uhttp_always status body).
Proof.
  intros sent req resp. unfold uhttp_always.
  destruct ((status <? 200) || (299 <? status))%Z eqn:Hstatus; [done|].
  intros [= <-]. eexists. split; [done|]. split; [|done].
  by apply status_succeeded.
Qed.

(** X12.  Only the status 200 without an error of [Do] is a login.  When
    [Do] returns an error, [LoginPassword] returns that error as it is,
    whatever response comes with it: the body is not parsed and no client is
    written (the client of [uhttp] reports an error with every status outside
    200..299, so this is what a login gets for a failed status).  When [Do]
    returns no error and a response with another status in 200..299,
    [LoginPassword] returns what the error unifier makes of the body, a
    [SalesforceError] with that status as its code, and panics, as the unifier
    does, on a body that decodes to an empty JSON array. *)
Theorem LoginPassword_status `{Library} `{Platform} (w : World) (client : addr)
    (c : Client) (transport : Transport) (username password token : string) :
  heap w !! client = Some c →
  httpClient c = Some transport →
  http_NewRequest_check "POST" (baseURL c +:+ "/services/Soap/u/" +:+ apiVersion c)
  = None →
  (∀ resp err,
     transport (wire w) (loginRequest c username password token)
     = (resp, Some err) →
     LoginPassword client username password token w
     = (Returns (Some err),
        {| heap := heap w;
           wire := wire w ++ [loginRequest c username password token] |}))
  ∧ (∀ r buf,
       transport (wire w) (loginRequest c username password token)
       = (Some r, None) →
       succeeded r → StatusCode r ≠ 200%Z → Body r = (buf, None) →
       (LoginPassword client username password token w).1
       = match ParseSalesforceError (StatusCode r) buf with
         | Returns e => Returns (Some e)
         | Panics reason => Panics reason
         end
       ∧ (∀ e, (LoginPassword client username password token w).1 = Returns e →
               ∃ parsed, e = Some (salesforceError parsed)
                         ∧ HttpCode parsed = StatusCode r)
       ∧ (json_Unmarshal_jsonError buf = inl [] →
          (LoginPassword client username password token w).1
          = Panics "runtime error: index out of range [0] with length 0")).
Proof.
  intros Hc Ht Hcheck. split.
  - intros resp err Hdo.
    rewrite (LoginPassword_exchange _ _ _ _ _ _ _ Hc Ht Hcheck). cbv zeta.
    rewrite Hdo. by destruct resp.
  - intros r buf Hdo _ Hstatus Hbody.
    assert ((LoginPassword client username password token w).1
            = match ParseSalesforceError (StatusCode r) buf with
              | Returns e => Returns (Some e)
              | Panics reason => Panics reason
              end) as Hrun.
    { rewrite (LoginPassword_exchange _ _ _ _ _ _ _ Hc Ht Hcheck). cbv zeta.
      rewrite Hdo, Hbody. apply Z.eqb_neq in Hstatus. rewrite Hstatus.
      by destruct (ParseSalesforceError _ _). }
    split; [done|]. rewrite Hrun. split.
    + intros e. unfold ParseSalesforceError.
      destruct (json_Unmarshal_jsonError _) as [[|first rest]|jerr]; [done| |].
      * intros [= <-]. by eexists.
      * destruct (xml_Unmarshal_xmlError _); intros [= <-]; by eexists.
    + intros Hempty. by rewrite (ParseSalesforceError_json_empty _ _ Hempty).
Qed.

Lemma LoginPassword_status_witness :
  uhttp_contract (uhttp_always 500 soapFault)
  ∧ uhttp_contract (uhttp_always 201 "Created")
  ∧ (LoginPassword (H := golib) (H0 := goplatform (uhttp_always 500 soapFault))
       1 "u@example.com" "wrong" ""
       (world (fresh_client (uhttp_always 500 soapFault)))).1
    = Returns (Some uhttpStatusError)
  ∧ (LoginPassword (H := golib) (H0 := goplatform (uhttp_always 201 "Created"))
       1 "u@example.com" "secret" ""
       (world (fresh_client (uhttp_always 201 "Created")))).1
    = Returns (Some (rawError 201 "Created")).
Proof.
  split; [apply uhttp_always_contract|].
  split; [apply uhttp_always_contract|]. split.
  - destruct (LoginPassword_status (H := golib)
                (H0 := goplatform (uhttp_always 500 soapFault))
                (world (fresh_client (uhttp_always 500 soapFault))) 1
                (fresh_client (uhttp_always 500 soapFault))
                (uhttp_always 500 soapFault) "u@example.com" "wrong" "")
      as (Herror & _);
      [apply world_lookup | reflexivity | vm_compute; reflexivity |].
    by rewrite (Herror (Some {| StatusCode := 500; Body := (soapFault, None) |})
                  uhttpStatusError eq_refl).
  - destruct (LoginPassword_status (H := golib)
                (H0 := goplatform (uhttp_always 201 "Created"))
                (world (fresh_client (uhttp_always 201 "Created"))) 1
                (fresh_client (uhttp_always 201 "Created"))
                (uhttp_always 201 "Created") "u@example.com" "secret" "")
      as (_ & Hother);
      [apply world_lookup | reflexivity | vm_compute; reflexivity |].
    destruct (Hother {| StatusCode := 201; Body := ("Created", None) |} "Created")
      as (Hrun & _);
      [reflexivity | unfold succeeded; simpl; lia | discriminate | reflexivity |].
    rewrite Hrun. vm_compute. reflexivity.
Defined.

(** X13.  [LoginPassword] can return [nil] and leave the client logged out:
    when the response has status 200 and decodes with an empty session id (a
    response without a [sessionId] element, a SOAP fault sent with status 200),
    the login returns no error, and the next [Query], [ExecuteAnonymous] or
    [ApexREST] fails with [ErrAuthentication]. *)
Theorem LoginPassword_without_session `{Library} `{Platform} (w : World)
    (client : addr) (c : Client) (transport : Transport)
    (username password token : string) (r : Response) (response : loginResponse) :
  heap w !! client = Some c →
  httpClient c = Some transport →
  http_NewRequest_check "POST" (baseURL c +:+ "/services/Soap/u/" +:+ apiVersion c)
  = None →
  transport (wire w) (loginRequest c username password token) = (Some r, None) →
  StatusCode r = 200%Z →
  xml_Unmarshal_loginResponse (Body r).1 = inl response →
  SessionID response = "" →
  ∃ w1,
    LoginPassword client username password token w = (Returns None, w1)
    ∧ (∀ q, Query client q w1 = (Returns (None, Some ErrAuthentication), w1))
    ∧ (∀ apexBody,
         ExecuteAnonymous client apexBody w1
         = (Returns (None, Some ErrAuthentication), w1))
    ∧ (∀ method path requestBody,
         ApexREST client method path requestBody w1
         = (Returns (None, Some ErrAuthentication), w1)).
Proof.
  intros Hc Ht Hcheck Hdo Hstatus Hresponse Hsid.
  rewrite (LoginPassword_exchange _ _ _ _ _ _ _ Hc Ht Hcheck). cbv zeta.
  rewrite Hdo, Hstatus, Hresponse. cbn [Z.eqb Pos.eqb].
  eexists. split; [done|].
  set (c1 := with_login _ _ _ _).
  assert (heap {| heap := <[client := c1]> (heap w);
                  wire := wire w ++ [loginRequest c username password token] |}
            !! client = Some c1) as Hc1 by apply lookup_insert_eq.
  split; [|split].
  - intros q. by apply (Query_logged_out _ _ _ _ Hc1).
  - intros apexBody. by apply (ExecuteAnonymous_logged_out _ _ _ _ Hc1).
  - intros method path requestBody.
    by apply (ApexREST_logged_out _ _ _ _ _ _ Hc1).
Qed.

Lemma LoginPassword_without_session_witness :
  ∃ w1,
    LoginPassword (H := golib) (H0 := goplatform (always 200 soapFault))
      1 "u@example.com" "wrong" "" (world (fresh_client (always 200 soapFault)))
    = (Returns None, w1)
    ∧ Query (H := golib) 1 soql w1 = (Returns (None, Some ErrAuthentication), w1).
Proof.
  destruct (LoginPassword_without_session (H := golib)
              (H0 := goplatform (always 200 soapFault))
              (world (fresh_client (always 200 soapFault))) 1
              (fresh_client (always 200 soapFault)) (always 200 soapFault)
              "u@example.com" "wrong" ""
              {| StatusCode := 200; Body := (soapFault, None) |}
              {| ServerURL := ""; SessionID := ""; UserID := ""; UserEmail := "";
                 UserFullName := ""; UserName := "" |})
    as (w1 & Hrun & Hquery & _);
    [apply world_lookup | reflexivity | vm_compute; reflexivity | reflexivity
    | reflexivity | vm_compute; reflexivity | reflexivity |].
  exists w1. split; [done | apply Hquery].
Defined.

(** ** The construction of a client *)

Lemma substring_all (s : string) : String.substring 0 (String.length s) s = s.
Proof. induction s as [|c s IH]; [done|]. cbn. by rewrite IH. Qed.

Lemma substring_split (n : nat) (s : string) :
  String.substring 0 n s +:+ String.substring n (String.length s - n) s = s.
Proof.
  revert n. induction s as [|c s IH]; intros [|n]; cbn; try done.
  - by rewrite append_nil_l, substring_all.
  - rewrite append_String. f_equal. apply IH.
Qed.

Lemma HasSuffix_slash (s : string) :
  strings_HasSuffix s "/" = true →
  String.substring 0 (String.length s - 1) s +:+ "/" = s.
Proof.
  unfold strings_HasSuffix. intros [Hlen Hlast]%andb_true_iff.
  apply Nat.leb_le in Hlen. apply String.eqb_eq in Hlast. cbn in Hlen, Hlast.
  rewrite <- (substring_split (String.length s - 1) s) at 3.
  replace (String.length s - (String.length s - 1)) with 1 by lia.
  by rewrite Hlast.
Qed.

(** What [NewClient] does when the two constructors of [uhttp] succeed. *)
Lemma NewClient_run `{Platform} (w : World) (url clientID' apiVersion' : string)
    (http : uhttp_HttpClient) (transport : Transport) :
  uhttp_NewClient = inl http →
  uhttp_NewBaseHttpClientWithContext http = inl transport →
  NewClient url clientID' apiVersion' w
  = (Returns (Some (fresh (dom (heap w))), None),
     {| heap :=
          <[fresh (dom (heap w)) :=
              {| sessionID := "";
                 user := {| id := ""; name := ""; fullName := ""; email := "" |};
                 clientID := clientID'; apiVersion := apiVersion';
                 baseURL := if strings_HasSuffix url "/"
                            then String.substring 0 (String.length url - 1) url
                            else url;
                 instanceURL := ""; useToolingAPI := false;
                 httpClient := Some transport |}]> (heap w);
        wire := wire w |}).
Proof.
  intros Hhttp Htransport. unfold NewClient. rewrite Hhttp, Htransport.
  unfold alloc. run. cbn [baseURL]. by destruct (strings_HasSuffix url "/").
Qed.

(** X14.  When the two constructors of [uhttp] succeed, [NewClient] returns
    a client at an address no client had, sends nothing and leaves every
    other client as it was.  The new client has no session, no instance URL
    and the tooling mode off; its client id and API version are the ones given,
    with no default put in for an empty one; its base URL is the URL given with
    one [/] taken off its end, if it ends with one. *)
Theorem NewClient_fresh `{Platform} (w : World) (url clientID' apiVersion' : string)
    (http : uhttp_HttpClient) (transport : Transport) :
  uhttp_NewClient = inl http →
  uhttp_NewBaseHttpClientWithContext http = inl transport →
  ∃ a c,
    NewClient url clientID' apiVersion' w
    = (Returns (Some a, None),
       {| heap := <[a := c]> (heap w); wire := wire w |})
    ∧ heap w !! a = None
    ∧ sessionID c = "" ∧ instanceURL c = "" ∧ useToolingAPI c = false
    ∧ clientID c = clientID' ∧ apiVersion c = apiVersion'
    ∧ httpClient c = Some transport
    ∧ (if strings_HasSuffix url "/" then baseURL c +:+ "/" = url
       else baseURL c = url).
Proof.
  intros Hhttp Htransport.
  rewrite (NewClient_run _ _ _ _ _ _ Hhttp Htransport).
  eexists _, _. split; [done|].
  split; [apply not_elem_of_dom, is_fresh|].
  cbn [baseURL]. destruct (strings_HasSuffix url "/") eqn:Hslash.
  - repeat (split; [done|]). by apply HasSuffix_slash.
  - by repeat (split; [done|]).
Qed.

Lemma NewClient_fresh_witness :
  ∃ a c,
    NewClient (H := goplatform (always 200 "{}")) "https://login.salesforce.com/"
      "" "" (world session)
    = (Returns (Some a, None),
       {| heap := <[a := c]> (heap (world session)); wire := wire (world session) |})
    ∧ heap (world session) !! a = None
    ∧ clientID c = "" ∧ apiVersion c = ""
    ∧ baseURL c +:+ "/" = "https://login.salesforce.com/".
Proof.
  destruct (NewClient_fresh (H := goplatform (always 200 "{}")) (world session)
              "https://login.salesforce.com/" "" "" () (always 200 "{}"))
    as (a & c & Hrun & Hfresh & _ & _ & _ & Hid & Hversion & _ & Hbase);
    [reflexivity | reflexivity |].
  exists a, c. repeat (split; [done|]). exact Hbase.
Defined.

(** X15.  A client fresh from [NewClient] is logged out: until a login or a
    [SetSidLoc], [Query], [ExecuteAnonymous] and [ApexREST] on it fail with
    [ErrAuthentication] and send nothing; [NewClient] itself sends nothing,
    and never returns a client together with an error. *)
Theorem NewClient_is_logged_out `{Library} `{Platform} (w w1 : World)
    (url clientID' apiVersion' : string) (a : addr) (e : option error) :
  NewClient url clientID' apiVersion' w = (Returns (Some a, e), w1) →
  e = None ∧ wire w1 = wire w
  ∧ (GetSid a w1).1 = Returns ""
  ∧ (∀ q, Query a q w1 = (Returns (None, Some ErrAuthentication), w1))
  ∧ (∀ apexBody,
       ExecuteAnonymous a apexBody w1
       = (Returns (None, Some ErrAuthentication), w1))
  ∧ (∀ method path requestBody,
       ApexREST a method path requestBody w1
       = (Returns (None, Some ErrAuthentication), w1)).
Proof.
  unfold NewClient. destruct uhttp_NewClient as [http|err]; [|done].
  destruct (uhttp_NewBaseHttpClientWithContext http) as [transport|err]; [|done].
  unfold alloc. run. intros [= <- <- <-]. split; [done|]. split; [done|].
  match goal with
  | |- context [<[_ := ?c]> (heap w)] => set (c1 := c)
  end.
  set (w1 := {| heap := _; wire := _ |}).
  assert (heap w1 !! fresh (dom (heap w)) = Some c1) as Hc1
    by apply lookup_insert_eq.
  assert (sessionID c1 = "") as Hsid
    by (unfold c1; by destruct (strings_HasSuffix _ _)).
  split; [unfold GetSid; run; by rewrite Hc1, Hsid|].
  split; [|split].
  - intros q. by apply (Query_logged_out _ _ _ _ Hc1).
  - intros apexBody. by apply (ExecuteAnonymous_logged_out _ _ _ _ Hc1).
  - intros method path requestBody.
    by apply (ApexREST_logged_out _ _ _ _ _ _ Hc1).
Qed.

Lemma NewClient_is_logged_out_witness :
  ∃ a w1,
    NewClient (H := goplatform (always 200 "{}")) DefaultURL DefaultClientID
      DefaultAPIVersion (world session)
    = (Returns (Some a, None), w1)
    ∧ Query (H := golib) a soql w1 = (Returns (None, Some ErrAuthentication), w1).
Proof.
  eexists _, _. split.
  - by apply (NewClient_run (H := goplatform (always 200 "{}")) _ _ _ _ ()
                (always 200 "{}")).
  - by eapply (NewClient_is_logged_out (H := golib)
                 (H0 := goplatform (always 200 "{}"))),
         (NewClient_run (H := goplatform (always 200 "{}")) _ _ _ _ ()
            (always 200 "{}")).
Defined.

(** ** The downloads and [DescribeGlobal] *)

Section DownloadFacts.
Context `{Library} `{Platform}.

(** [download] on a client with a transport, for a URL the library accepts:
    one request goes on the wire, and the answer decides. *)
Lemma download_exchange client c transport apiPath filepath files w :
  heap w !! client = Some c →
  httpClient c = Some transport →
  http_NewRequest_check "GET" (download_target c apiPath) = None →
  download client apiPath filepath files w
  = let req := plainRequest c (download_target c apiPath) in
    let w' := {| heap := heap w; wire := wire w ++ [req] |} in
    match transport (wire w) req with
    | (_, Some err) => (Returns (Some err, files), w')
    | (None, None) => (Panics nilDereference, w')
    | (Some r, None) =>
        if ((StatusCode r <? 200) || (299 <? StatusCode r))%Z
        then (Returns (Some (downloadError r), files), w')
        else
          match os_Create_check files filepath with
          | Some err => (Returns (Some err, files), w')
          | None =>
              match file_Write filepath (Body r).1 with
              | Some (written, err) =>
                  (Returns (Some err, <[filepath := written]> files), w')
              | None =>
                  (Returns ((Body r).2, <[filepath := (Body r).1]> files), w')
              end
          end
    end.
Proof.
  intros Hc Ht Hcheck.
  unfold download, http.NewRequestWithContext. run. rewrite Hc. cbv zeta.
  replace (fmt.Sprintf "%s%s" _) with (download_target c apiPath)
    by (unfold download_target; simpl; by literals).
  rewrite Hcheck, Ht.
  change (http_Header_Add _ "Authorization" _)
    with (plainRequest c (download_target c apiPath)).
  destruct (transport _ _) as [[r|] [err|]]; try done.
  destruct (_ || _).
  - unfold downloadError, fmt_Errorf. simpl. by literals.
  - destruct (os_Create_check files filepath); [done|].
    destruct (file_Write filepath _) as [[written err]|];
      by rewrite insert_insert_eq.
Qed.

Lemma DescribeGlobal_exchange client c transport w :
  heap w !! client = Some c →
  httpClient c = Some transport →
  http_NewRequest_check "GET" (describe_target c) = None →
  DescribeGlobal client w
  = let req := plainRequest c (describe_target c) in
    let w' := {| heap := heap w; wire := wire w ++ [req] |} in
    match transport (wire w) req with
    | (_, Some err) => (Returns (None, Some err), w')
    | (None, None) => (Panics nilDereference, w')
    | (Some r, None) =>
        match json_Unmarshal_SObjectMeta (Body r).1 with
        | inl meta => (Returns (Some meta, None), w')
        | inr err => (Returns (None, Some err), w')
        end
    end.
Proof.
  intros Hc Ht Hcheck.
  unfold DescribeGlobal, http.NewRequestWithContext. run. rewrite Hc. cbv zeta.
  replace (fmt.Sprintf "%s%s" _) with (describe_target c)
    by (unfold describe_target; simpl; by literals).
  unfold http.MethodGet. rewrite Hcheck, Ht.
  change (http_Header_Add _ "Authorization" _)
    with (plainRequest c (describe_target c)).
  destruct (transport _ _) as [[r|] [err|]]; try done.
  by destruct (json_Unmarshal_SObjectMeta _).
Qed.

End DownloadFacts.

Section DownloadPaths.
Context `{Library} `{Platform}.

Lemma DownloadFile_run client c contentVersionID filepath files w :
  heap w !! client = Some c →
  DownloadFile client contentVersionID filepath files w
  = download client
      ("/services/data/v" +:+ apiVersion c +:+ "/sobjects/ContentVersion/"
       +:+ contentVersionID +:+ "/VersionData") filepath files w.
Proof.
  intros Hc. unfold DownloadFile. unfold mbind at 1, M_bind at 1, deref at 1.
  rewrite Hc. cbv zeta.
  replace (fmt.Sprintf _ _)
    with ("/services/data/v" +:+ apiVersion c +:+ "/sobjects/ContentVersion/"
          +:+ contentVersionID +:+ "/VersionData")
    by (simpl; by literals).
  done.
Qed.

Lemma DownloadAttachment_run client c attachmentId filepath files w :
  heap w !! client = Some c →
  DownloadAttachment client attachmentId filepath files w
  = download client
      ("/services/data/v" +:+ apiVersion c +:+ "/sobjects/Attachment/"
       +:+ attachmentId +:+ "/Body") filepath files w.
Proof.
  intros Hc. unfold DownloadAttachment.
  unfold mbind at 1, M_bind at 1, deref at 1. rewrite Hc. cbv zeta.
  replace (fmt.Sprintf _ _)
    with ("/services/data/v" +:+ apiVersion c +:+ "/sobjects/Attachment/"
          +:+ attachmentId +:+ "/Body")
    by (simpl; by literals).
  done.
Qed.

Lemma download_sends client c apiPath filepath files w :
  heap w !! client = Some c →
  is_Some (httpClient c) →
  http_NewRequest_check "GET" (download_target c apiPath) = None →
  sent (download client apiPath filepath files) w
  = [plainRequest c (download_target c apiPath)].
Proof.
  intros Hc [transport Ht] Hcheck. apply sent_app.
  rewrite (download_exchange _ _ _ _ _ _ _ Hc Ht Hcheck). cbv zeta.
  destruct (transport _ _) as [[r|] [err|]]; try done.
  destruct (_ || _); [done|].
  destruct (os_Create_check _ _); [done|].
  by destruct (file_Write _ _) as [[written err]|].
Qed.

End DownloadPaths.

Lemma TrimRight_slash_spec (s : string) :
  ∃ slashes,
    s = strings_TrimRight s "/" +:+ slashes
    ∧ every_byte (λ c, Ascii.eqb c "/") slashes
    ∧ ∀ t, strings_TrimRight s "/" ≠ t +:+ "/".
Proof.
  induction s as [|c s (slashes & Hs & Hslashes & Hend)].
  { exists "". split; [done|]. split; [done|]. by intros [|? ?]. }
  cbn [strings_TrimRight].
  destruct (strings_TrimRight s "/") as [|d trimmed] eqn:Htrim.
  - rewrite append_nil_l in Hs. subst slashes. cbn [byte_in].
    rewrite orb_false_r. destruct (Ascii.eqb c "/") eqn:Hc.
    + exists (String c s). split; [done|].
      split; [unfold every_byte in *; cbn; by rewrite Hc|]. by intros [|? ?].
    + exists s. split; [done|]. split; [done|].
      intros [|? [|? ?]]; intros [= ]; subst. by rewrite Ascii.eqb_refl in Hc.
  - exists slashes. split; [by rewrite append_String, <- Hs|]. split; [done|].
    intros [|e t]; [by intros [= ? ?]|].
    rewrite append_String. intros [= <- Heq]. by apply (Hend t).
Qed.

Lemma TrimRight_app_slash (s : string) :
  strings_TrimRight (s +:+ "/") "/" = strings_TrimRight s "/".
Proof.
  induction s as [|c s IH]; [done|].
  rewrite append_String. cbn [strings_TrimRight]. by rewrite IH.
Qed.

(** X16.  The downloads ask for no login.  On any client with a transport,
    logged in or not, [DownloadFile] and [DownloadAttachment] send one [GET]
    with the headers [Content-Type], [Accept] and [Authorization: Bearer]
    followed by the session id, empty for a client without a session.  The URL
    is the instance URL without the slashes that end it, then
    [/services/data/v<version>/sobjects/ContentVersion/<id>/VersionData], or
    [.../Attachment/<id>/Body]; the version is used as it is stored and the id
    is not escaped. *)
Theorem Download_request `{Library} `{Platform} (w : World) (client : addr)
    (c : Client) (objectId filepath : string) (files : Files) :
  heap w !! client = Some c →
  is_Some (httpClient c) →
  (∃ slashes,
     instanceURL c = strings_TrimRight (instanceURL c) "/" +:+ slashes
     ∧ every_byte (λ x, Ascii.eqb x "/") slashes
     ∧ ∀ t, strings_TrimRight (instanceURL c) "/" ≠ t +:+ "/")
  ∧ (∀ u,
       u = strings_TrimRight (instanceURL c) "/" +:+ "/services/data/v"
           +:+ apiVersion c +:+ "/sobjects/ContentVersion/" +:+ objectId
           +:+ "/VersionData" →
       http_NewRequest_check "GET" u = None →
       sent (DownloadFile client objectId filepath files) w = [plainRequest c u])
  ∧ (∀ u,
       u = strings_TrimRight (instanceURL c) "/" +:+ "/services/data/v"
           +:+ apiVersion c +:+ "/sobjects/Attachment/" +:+ objectId +:+ "/Body" →
       http_NewRequest_check "GET" u = None →
       sent (DownloadAttachment client objectId filepath files) w
       = [plainRequest c u]).
Proof.
  intros Hc Ht. split; [apply TrimRight_slash_spec|]. split.
  - intros u -> Hcheck. unfold sent.
    rewrite (DownloadFile_run _ _ _ _ _ _ Hc).
    by apply (download_sends _ _ _ _ _ _ Hc Ht).
  - intros u -> Hcheck. unfold sent.
    rewrite (DownloadAttachment_run _ _ _ _ _ _ Hc).
    by apply (download_sends _ _ _ _ _ _ Hc Ht).
Qed.

Lemma Download_request_witness :
  sent (DownloadFile (H := golib) (H0 := goplatform (always 200 "PDF"))
          1 "068A" "/tmp/a.pdf" ∅)
    (world (with_instanceURL (loggedOut (always 200 "PDF"))
              "https://na1.salesforce.com//"))
  = [ {| Method := "GET";
         URL := "https://na1.salesforce.com/services/data/v54.0/sobjects/"
                +:+ "ContentVersion/068A/VersionData";
         Header := [("Content-Type", "application/json; charset=UTF-8");
                    ("Accept", "application/json");
                    ("Authorization", "Bearer ")];
         RequestBody := None |} ].
Proof.
  pose proof (Download_request (H := golib) (H0 := goplatform (always 200 "PDF"))
                (world (with_instanceURL (loggedOut (always 200 "PDF"))
                          "https://na1.salesforce.com//")) 1
                (with_instanceURL (loggedOut (always 200 "PDF"))
                   "https://na1.salesforce.com//") "068A" "/tmp/a.pdf" ∅
                (world_lookup _) (mk_is_Some _ _ eq_refl))
    as (_ & Hfile & _).
  apply (Hfile ("https://na1.salesforce.com/services/data/v54.0/sobjects/"
                +:+ "ContentVersion/068A/VersionData"));
    vm_compute; reflexivity.
Defined.

(** X17.  A download writes to the file at [filepath] and to no other, and
    it writes only after [Do] has returned no error and a response with a
    status in 200..299.  When [Do] returns an error, the download returns that
    error as it is, whatever response comes with it, and the files are as they
    were (with the client of [uhttp] this is the outcome of every failed
    status); so they are when the library rejects the request. *)
Theorem download_files `{Library} `{Platform} (w : World) (client : addr)
    (c : Client) (apiPath filepath : string) (files files' : Files)
    (e : option error) :
  heap w !! client = Some c →
  (download client apiPath filepath files w).1 = Returns (e, files') →
  (∀ p, p ≠ filepath → files' !! p = files !! p)
  ∧ (files' ≠ files →
     ∃ transport r,
       httpClient c = Some transport
       ∧ transport (wire w) (plainRequest c (download_target c apiPath))
         = (Some r, None)
       ∧ succeeded r)
  ∧ (∀ transport resp err,
       http_NewRequest_check "GET" (download_target c apiPath) = None →
       httpClient c = Some transport →
       transport (wire w) (plainRequest c (download_target c apiPath))
       = (resp, Some err) →
       files' = files ∧ e = Some err)
  ∧ (∀ err,
       http_NewRequest_check "GET" (download_target c apiPath) = Some err →
       files' = files ∧ e = Some err).
Proof.
  intros Hc.
  destruct (http_NewRequest_check "GET" (download_target c apiPath))
    as [err|] eqn:Hcheck.
  { unfold download, http.NewRequestWithContext. run.
    rewrite Hc. cbv zeta.
    replace (fmt.Sprintf "%s%s" _) with (download_target c apiPath)
      by (unfold download_target; simpl; by literals).
    rewrite Hcheck. intros [= <- <-]. split; [done|]. split; [done|].
    split; [done|]. by intros err' [= <-]. }
  destruct (httpClient c) as [transport|] eqn:Ht.
  2: { unfold download, http.NewRequestWithContext. run.
       rewrite Hc. cbv zeta.
       replace (fmt.Sprintf "%s%s" _) with (download_target c apiPath)
         by (unfold download_target; simpl; by literals).
       by rewrite Hcheck, Ht. }
  rewrite (download_exchange _ _ _ _ _ _ _ Hc Ht Hcheck). cbv zeta.
  destruct (transport (wire w) _) as [[r|] [err|]] eqn:Hdo; try done.
  - intros [= <- <-]. split; [done|]. split; [done|]. split; [|done].
    intros t' resp err' _ [= <-]. rewrite Hdo. by intros [= <- <-].
  - assert (∀ t' resp err',
              Some transport = Some t' →
              t' (wire w) (plainRequest c (download_target c apiPath))
              = (resp, Some err') → False) as Hnot.
    { intros t' resp err' [= <-]. by rewrite Hdo. }
    destruct ((StatusCode r <? 200) || (299 <? StatusCode r))%Z eqn:Hstatus.
    { intros [= <- <-]. split; [done|]. split; [done|]. split; [|done].
      intros t' resp err' _ Ht' Hdo'. by destruct (Hnot t' resp err' Ht' Hdo'). }
    assert (succeeded r) as Hok by by apply status_succeeded.
    intros Hret. split.
    { intros p Hp. destruct (os_Create_check _ _); [by simplify_eq/=|].
      destruct (file_Write _ _) as [[written err]|]; simplify_eq/=;
        by rewrite lookup_insert_ne. }
    split; [intros _; by exists transport, r|]. split; [|done].
    intros t' resp err' _ Ht' Hdo'. by destruct (Hnot t' resp err' Ht' Hdo').
  - intros [= <- <-]. split; [done|]. split; [done|]. split; [|done].
    intros t' resp err' _ [= <-]. rewrite Hdo. by intros [= <- <-].
Qed.

Lemma download_files_witness :
  uhttp_contract (uhttp_always 200 "%PDF-1.4")
  ∧ (∀ p, p ≠ "/tmp/a.pdf" →
          (<["/tmp/a.pdf" := "%PDF-1.4"]> {[ "/tmp/b.pdf" := "B" ]} : Files) !! p
          = ({[ "/tmp/b.pdf" := "B" ]} : Files) !! p)
  ∧ (∃ transport r,
       httpClient (loggedIn (uhttp_always 200 "%PDF-1.4")) = Some transport
       ∧ transport (wire (world (loggedIn (uhttp_always 200 "%PDF-1.4"))))
           (plainRequest (loggedIn (uhttp_always 200 "%PDF-1.4"))
              (download_target (loggedIn (uhttp_always 200 "%PDF-1.4")) "/x"))
         = (Some r, None)
       ∧ succeeded r)
  ∧ uhttp_contract (uhttp_always 404 goneBody)
  ∧ (∀ e files',
       (download (H := golib) (H0 := goplatform (uhttp_always 404 goneBody))
          1 "/x" "/tmp/a.pdf" {[ "/tmp/a.pdf" := "old" ]}
          (world (loggedIn (uhttp_always 404 goneBody)))).1
       = Returns (e, files') →
       files' = {[ "/tmp/a.pdf" := "old" ]} ∧ e = Some uhttpStatusError).
Proof.
  split; [apply uhttp_always_contract|].
  pose proof (download_files (H := golib)
                (H0 := goplatform (uhttp_always 200 "%PDF-1.4"))
                (world (loggedIn (uhttp_always 200 "%PDF-1.4"))) 1
                (loggedIn (uhttp_always 200 "%PDF-1.4")) "/x" "/tmp/a.pdf"
                {[ "/tmp/b.pdf" := "B" ]}
                (<["/tmp/a.pdf" := "%PDF-1.4"]> {[ "/tmp/b.pdf" := "B" ]})
                None (world_lookup _)) as Hfiles.
  destruct Hfiles as (Hother & Hchanged & _); [vm_compute; reflexivity|].
  split; [done|]. split.
  { apply Hchanged.
    intros Heq. apply (f_equal (λ m : Files, m !! "/tmp/a.pdf")) in Heq.
    by rewrite lookup_insert_eq in Heq. }
  split; [apply uhttp_always_contract|].
  intros e files' Hret.
  destruct (download_files (H := golib)
              (H0 := goplatform (uhttp_always 404 goneBody))
              (world (loggedIn (uhttp_always 404 goneBody))) 1
              (loggedIn (uhttp_always 404 goneBody)) "/x" "/tmp/a.pdf"
              {[ "/tmp/a.pdf" := "old" ]} files' e (world_lookup _) Hret)
    as (_ & _ & Herror & _).
  apply (Herror (uhttp_always 404 goneBody)
           (Some {| StatusCode := 404; Body := (goneBody, None) |})
           uhttpStatusError);
    [vm_compute; reflexivity | reflexivity | reflexivity].
Defined.

(** X18.  A download answered without an error and with a status in 200..299
    saves the body: when the file can be created and written, [download]
    returns [nil] and the file at [filepath] holds exactly the bytes of the
    body, in place of what it held before; the other files are as they
    were. *)
Theorem download_saves_body `{Library} `{Platform} (w : World) (client : addr)
    (c : Client) (transport : Transport) (apiPath filepath : string)
    (files : Files) (r : Response) (data : string) :
  heap w !! client = Some c →
  httpClient c = Some transport →
  http_NewRequest_check "GET" (download_target c apiPath) = None →
  transport (wire w) (plainRequest c (download_target c apiPath))
  = (Some r, None) →
  succeeded r →
  Body r = (data, None) →
  os_Create_check files filepath = None →
  file_Write filepath data = None →
  (download client apiPath filepath files w).1
  = Returns (None, <[filepath := data]> files).
Proof.
  intros Hc Ht Hcheck Hdo Hok Hbody Hcreate Hwrite.
  rewrite (download_exchange _ _ _ _ _ _ _ Hc Ht Hcheck). cbv zeta.
  apply status_succeeded in Hok. rewrite Hdo, Hok, Hcreate, Hbody.
  cbn [fst snd]. by rewrite Hwrite.
Qed.

Lemma download_saves_body_witness :
  (download (H := golib) (H0 := goplatform (uhttp_always 200 "%PDF-1.4"))
     1 "/services/data/v54.0/sobjects/Attachment/00P/Body" "/tmp/a.pdf"
     {[ "/tmp/a.pdf" := "old" ]}
     (world (loggedIn (uhttp_always 200 "%PDF-1.4")))).1
  = Returns (None, {[ "/tmp/a.pdf" := "%PDF-1.4" ]}).
Proof.
  rewrite (download_saves_body (H := golib)
             (H0 := goplatform (uhttp_always 200 "%PDF-1.4"))
             (world (loggedIn (uhttp_always 200 "%PDF-1.4"))) 1
             (loggedIn (uhttp_always 200 "%PDF-1.4")) (uhttp_always 200 "%PDF-1.4")
             "/services/data/v54.0/sobjects/Attachment/00P/Body" "/tmp/a.pdf"
             {[ "/tmp/a.pdf" := "old" ]}
             {| StatusCode := 200; Body := ("%PDF-1.4", None) |} "%PDF-1.4");
    [ | apply world_lookup | reflexivity | vm_compute; reflexivity | reflexivity
      | unfold succeeded; simpl; lia | reflexivity | reflexivity | reflexivity ].
  by rewrite insert_singleton_eq.
Defined.

(** X19.  [DescribeGlobal] asks for no login.  On any client with a
    transport, logged in or not, it sends one [GET] to the base URL (the URL
    given to [NewClient], not the instance URL of the session) without the
    slashes that end it, followed by [/services/data/v<version>/sobjects].
    When [Do] returns an error the call returns that error as it is, whatever
    response comes with it: the body is not parsed and no [SalesforceError] is
    made.  When [Do] returns no error and a response with a status in 200..299,
    the result is the whole body decoded, or the error of the decoder, whatever
    that status is. *)
Theorem DescribeGlobal_needs_no_login `{Library} `{Platform} (w : World)
    (client : addr) (c : Client) (transport : Transport) :
  heap w !! client = Some c →
  httpClient c = Some transport →
  http_NewRequest_check "GET" (describe_target c) = None →
  sent (DescribeGlobal client) w
  = [plainRequest c (strings_TrimRight (baseURL c) "/" +:+ "/services/data/v"
                     +:+ apiVersion c +:+ "/sobjects")]
  ∧ (∀ resp err,
       transport (wire w) (plainRequest c (describe_target c)) = (resp, Some err) →
       (DescribeGlobal client w).1 = Returns (None, Some err))
  ∧ (∀ r data,
       transport (wire w) (plainRequest c (describe_target c)) = (Some r, None) →
       succeeded r → Body r = (data, None) →
       (DescribeGlobal client w).1
       = match json_Unmarshal_SObjectMeta data with
         | inl meta => Returns (Some meta, None)
         | inr err => Returns (None, Some err)
         end).
Proof.
  intros Hc Ht Hcheck. split; [|split].
  - apply sent_app. rewrite (DescribeGlobal_exchange _ _ _ _ Hc Ht Hcheck).
    cbv zeta. destruct (transport _ _) as [[r|] [err|]]; try done.
    by destruct (json_Unmarshal_SObjectMeta _).
  - intros resp err Hdo. rewrite (DescribeGlobal_exchange _ _ _ _ Hc Ht Hcheck).
    cbv zeta. rewrite Hdo. by destruct resp.
  - intros r data Hdo _ Hbody.
    rewrite (DescribeGlobal_exchange _ _ _ _ Hc Ht Hcheck). cbv zeta.
    rewrite Hdo, Hbody. by destruct (json_Unmarshal_SObjectMeta _).
Qed.

Lemma DescribeGlobal_needs_no_login_witness :
  sessionID (loggedOut (uhttp_always 200 (json_text "{'sobjects':[]}"))) = ""
  ∧ (DescribeGlobal (H := golib)
       (H0 := goplatform (uhttp_always 200 (json_text "{'sobjects':[]}")))
       1 (world (loggedOut (uhttp_always 200 (json_text "{'sobjects':[]}"))))).1
    = Returns (Some ({[ "sobjects" := VSlice [] ]} : gmap string Value), None)
  ∧ (DescribeGlobal (H := golib)
       (H0 := goplatform (uhttp_always 401 "Session expired"))
       1 (world (loggedOut (uhttp_always 401 "Session expired")))).1
    = Returns (None, Some uhttpStatusError).
Proof.
  split; [reflexivity|]. split.
  - destruct (DescribeGlobal_needs_no_login (H := golib)
                (H0 := goplatform (uhttp_always 200 (json_text "{'sobjects':[]}")))
                (world (loggedOut (uhttp_always 200 (json_text "{'sobjects':[]}"))))
                1 (loggedOut (uhttp_always 200 (json_text "{'sobjects':[]}")))
                (uhttp_always 200 (json_text "{'sobjects':[]}")))
      as (_ & _ & Hdecode);
      [apply world_lookup | reflexivity | vm_compute; reflexivity |].
    rewrite (Hdecode {| StatusCode := 200;
                        Body := (json_text "{'sobjects':[]}", None) |}
               (json_text "{'sobjects':[]}"));
      [vm_compute; reflexivity | reflexivity | unfold succeeded; simpl; lia
      | reflexivity].
  - destruct (DescribeGlobal_needs_no_login (H := golib)
                (H0 := goplatform (uhttp_always 401 "Session expired"))
                (world (loggedOut (uhttp_always 401 "Session expired")))
                1 (loggedOut (uhttp_always 401 "Session expired"))
                (uhttp_always 401 "Session expired"))
      as (_ & Herror & _);
      [apply world_lookup | reflexivity | vm_compute; reflexivity |].
    by apply (Herror (Some {| StatusCode := 401;
                              Body := ("Session expired", None) |})).
Defined.

Lemma append_slash_inj (s t : string) : s +:+ "/" = t +:+ "/" → s = t.
Proof.
  revert t. induction s as [|c s IH]; intros [|d t]; rewrite ?append_String;
    rewrite ?append_nil_l.
  - done.
  - intros [= <- Heq]. by destruct t.
  - intros [= <- Heq]. by destruct s.
  - intros [= <- Heq]. f_equal. by apply IH.
Qed.

Lemma length_append (s t : string) :
  String.length (s +:+ t) = String.length s + String.length t.
Proof.
  induction s as [|c s IH]; [done|]. rewrite append_String. cbn. by rewrite IH.
Qed.

Lemma substring_append_tail (s t : string) :
  String.substring (String.length s) (String.length t) (s +:+ t) = t.
Proof.
  induction s as [|c s IH]; [apply substring_all|]. by rewrite append_String.
Qed.

Lemma HasSuffix_append (s t : string) : strings_HasSuffix (s +:+ t) t = true.
Proof.
  unfold strings_HasSuffix. apply andb_true_iff. split.
  - apply Nat.leb_le. rewrite length_append. lia.
  - apply String.eqb_eq. rewrite length_append.
    replace (String.length s + String.length t - String.length t)
      with (String.length s) by lia.
    apply substring_append_tail.
Qed.

(** What [NewClient] leaves behind when it returns a client. *)
Lemma NewClient_inv `{Platform} (w w1 : World) (url clientID' apiVersion' : string)
    (a : addr) (e : option error) :
  NewClient url clientID' apiVersion' w = (Returns (Some a, e), w1) →
  ∃ c, heap w1 !! a = Some c ∧ wire w1 = wire w
       ∧ sessionID c = "" ∧ apiVersion c = apiVersion'
       ∧ is_Some (httpClient c)
       ∧ baseURL c = (if strings_HasSuffix url "/"
                      then String.substring 0 (String.length url - 1) url
                      else url).
Proof.
  unfold NewClient. destruct uhttp_NewClient as [http|err]; [|done].
  destruct (uhttp_NewBaseHttpClientWithContext http) as [transport|err]; [|done].
  unfold alloc. run. intros [= <- <- <-]. eexists.
  split; [apply lookup_insert_eq|]. split; [done|].
  by destruct (strings_HasSuffix url "/").
Qed.

(** X20.  The slashes that end the URL given to [NewClient] reach the two
    calls that use the base URL differently.  [DescribeGlobal] on the new
    client goes to that URL without any of them, then
    [/services/data/v<version>/sobjects]; a login goes to that URL with one of
    them taken off, then [/services/Soap/u/<version>], so that a URL given with
    two slashes at its end keeps one before [/services]. *)
Theorem NewClient_base_URL `{Library} `{Platform} (w w1 : World)
    (url clientID' apiVersion' : string) (a : addr) :
  NewClient url clientID' apiVersion' w = (Returns (Some a, None), w1) →
  (http_NewRequest_check "GET"
     (strings_TrimRight url "/" +:+ "/services/data/v" +:+ apiVersion'
      +:+ "/sobjects") = None →
   ∃ r, sent (DescribeGlobal a) w1 = [r]
        ∧ URL r = strings_TrimRight url "/" +:+ "/services/data/v"
                  +:+ apiVersion' +:+ "/sobjects")
  ∧ (∀ base username password token,
       url = base +:+ "/" ∨ (url = base ∧ strings_HasSuffix url "/" = false) →
       http_NewRequest_check "POST" (base +:+ "/services/Soap/u/" +:+ apiVersion')
       = None →
       ∃ r, sent (LoginPassword a username password token) w1 = [r]
            ∧ URL r = base +:+ "/services/Soap/u/" +:+ apiVersion').
Proof.
  intros (c & Hc & _ & _ & Hversion & Ht & Hbase)%NewClient_inv.
  assert (strings_TrimRight (baseURL c) "/" = strings_TrimRight url "/") as Htrim.
  { rewrite Hbase. destruct (strings_HasSuffix url "/") eqn:Hslash; [|done].
    by rewrite <- TrimRight_app_slash, (HasSuffix_slash url Hslash). }
  split.
  - intros Hcheck. exists (plainRequest c (describe_target c)).
    assert (describe_target c
            = strings_TrimRight url "/" +:+ "/services/data/v" +:+ apiVersion'
              +:+ "/sobjects") as Htarget
      by (unfold describe_target; by rewrite Htrim, Hversion).
    split; [|done]. rewrite <- Htarget in Hcheck. destruct Ht as [transport Ht].
    apply sent_app. rewrite (DescribeGlobal_exchange _ _ _ _ Hc Ht Hcheck).
    cbv zeta. destruct (transport _ _) as [[r|] [err|]]; try done.
    by destruct (json_Unmarshal_SObjectMeta _).
  - intros base username password token Hurl Hcheck.
    assert (baseURL c = base) as Hb.
    { rewrite Hbase. destruct Hurl as [->|[-> Hslash]]; [|by rewrite Hslash].
      assert (strings_HasSuffix (base +:+ "/") "/" = true) as Hslash
        by apply HasSuffix_append.
      rewrite Hslash. apply append_slash_inj.
      by rewrite (HasSuffix_slash _ Hslash). }
    exists (loginRequest c username password token). rewrite <- Hb, <- Hversion.
    split; [|done]. rewrite <- Hb, <- Hversion in Hcheck.
    destruct Ht as [transport Ht].
    apply sent_app. rewrite (LoginPassword_exchange _ _ _ _ _ _ _ Hc Ht Hcheck).
    cbv zeta. destruct (transport _ _) as [[r|] [err|]]; try done.
    destruct (StatusCode r =? 200)%Z.
    + by destruct (xml_Unmarshal_loginResponse _).
    + by destruct (ParseSalesforceError _ _).
Qed.

Lemma NewClient_base_URL_witness :
  ∃ a w1,
    NewClient (H := goplatform (always 200 "{}")) "https://login.salesforce.com//"
      DefaultClientID "54.0" (world session)
    = (Returns (Some a, None), w1)
    ∧ (∃ r, sent (DescribeGlobal (H := golib) (H0 := goplatform (always 200 "{}")) a)
              w1 = [r]
            ∧ URL r = strings_TrimRight "https://login.salesforce.com//" "/"
                      +:+ "/services/data/v" +:+ "54.0" +:+ "/sobjects")
    ∧ (∃ r, sent (LoginPassword (H := golib) (H0 := goplatform (always 200 "{}"))
                    a "u@example.com" "secret" "") w1 = [r]
            ∧ URL r = "https://login.salesforce.com/" +:+ "/services/Soap/u/"
                      +:+ "54.0")
    ∧ strings_TrimRight "https://login.salesforce.com//" "/"
      = "https://login.salesforce.com".
Proof.
  eexists _, _. split.
  { by apply (NewClient_run (H := goplatform (always 200 "{}")) _ _ _ _ ()
                (always 200 "{}")). }
  destruct (NewClient_base_URL (H := golib) (H0 := goplatform (always 200 "{}"))
              (world session) _ "https://login.salesforce.com//"
              DefaultClientID "54.0" _
              (NewClient_run (H := goplatform (always 200 "{}")) _ _ _ _ ()
                 (always 200 "{}") eq_refl eq_refl)) as [Hdescribe Hlogin].
  split; [apply Hdescribe; vm_compute; reflexivity|].
  split; [|vm_compute; reflexivity].
  apply (Hlogin "https://login.salesforce.com/");
    [by left | vm_compute; reflexivity].
Defined.

(** ** A login, then a query; a request the library rejects *)

(** X21.  After a login that succeeds with a session id and a server URL
    that parses, the next [Query] sends its one request to the scheme and the
    host of that server URL, the path of the server URL dropped, with the new
    session id as bearer token. *)
Theorem LoginPassword_then_Query `{Library} `{Platform} (w : World)
    (client : addr) (c : Client) (transport : Transport)
    (username password token q : string) (r : Response)
    (response : loginResponse) (parsed : url_URL) :
  heap w !! client = Some c →
  httpClient c = Some transport →
  http_NewRequest_check "POST" (baseURL c +:+ "/services/Soap/u/" +:+ apiVersion c)
  = None →
  transport (wire w) (loginRequest c username password token) = (Some r, None) →
  StatusCode r = 200%Z →
  xml_Unmarshal_loginResponse (Body r).1 = inl response →
  SessionID response ≠ "" →
  url_Parse (ServerURL response) = inl parsed →
  strings.HasPrefix q "/services/data" = false →
  http_NewRequest_check "GET"
    (Scheme parsed +:+ "://" +:+ Host parsed +:+ "/services/data/v"
     +:+ apiVersion c
     +:+ (if useToolingAPI c then "/tooling/query?q=" else "/query?q=")
     +:+ url.QueryEscape q) = None →
  ∃ w1,
    LoginPassword client username password token w = (Returns None, w1)
    ∧ sent (Query client q) w1
      = [ {| Method := "GET";
             URL := Scheme parsed +:+ "://" +:+ Host parsed +:+ "/services/data/v"
                    +:+ apiVersion c
                    +:+ (if useToolingAPI c then "/tooling/query?q="
                         else "/query?q=")
                    +:+ url.QueryEscape q;
             Header := [("Authorization", "Bearer " +:+ SessionID response);
                        ("Content-Type", "application/json")];
             RequestBody := None |} ].
Proof.
  intros Hc Ht Hcheck Hdo Hstatus Hresponse Hsid Hparsed Hq Hquery.
  rewrite (LoginPassword_exchange _ _ _ _ _ _ _ Hc Ht Hcheck). cbv zeta.
  rewrite Hdo, Hstatus, Hresponse. cbn [Z.eqb Pos.eqb].
  eexists. split; [done|].
  set (c1 := with_login _ _ _ _).
  assert (instanceURL c1 = Scheme parsed +:+ "://" +:+ Host parsed) as Hloc.
  { unfold c1, parseHost. cbn [with_login instanceURL]. rewrite Hparsed.
    simpl. by literals. }
  assert (query_target c1 q
          = Scheme parsed +:+ "://" +:+ Host parsed +:+ "/services/data/v"
            +:+ apiVersion c
            +:+ (if useToolingAPI c then "/tooling/query?q=" else "/query?q=")
            +:+ url.QueryEscape q) as Htarget.
  { unfold query_target. rewrite Hq, Hloc. by rewrite !append_assoc. }
  rewrite (Query_sends client c1 q);
    [ | apply lookup_insert_eq | done | by rewrite Htarget
      | unfold c1; cbn [with_login httpClient]; rewrite Ht; by eexists ].
  unfold requestOf. by rewrite Htarget.
Qed.

Lemma LoginPassword_then_Query_witness :
  ∃ w1,
    LoginPassword (H := golib) (H0 := goplatform (always 200 loginBody))
      1 "u@example.com" "secret" "TOKEN"
      (world (fresh_client (always 200 loginBody)))
    = (Returns None, w1)
    ∧ sent (Query (H := golib) 1 "SELECT Id FROM Case") w1
      = [ {| Method := "GET";
             URL := "https" +:+ "://" +:+ "na1.salesforce.com"
                    +:+ "/services/data/v" +:+ "54.0" +:+ "/query?q="
                    +:+ url.QueryEscape "SELECT Id FROM Case";
             Header := [("Authorization", "Bearer " +:+ "00Dxx!AQ");
                        ("Content-Type", "application/json")];
             RequestBody := None |} ].
Proof.
  apply (LoginPassword_then_Query (H := golib)
           (H0 := goplatform (always 200 loginBody))
           (world (fresh_client (always 200 loginBody))) 1
           (fresh_client (always 200 loginBody)) (always 200 loginBody)
           "u@example.com" "secret" "TOKEN" "SELECT Id FROM Case"
           {| StatusCode := 200; Body := (loginBody, None) |}
           {| ServerURL := "https://na1.salesforce.com/services/Soap/u/54.0/00Dxx";
              SessionID := "00Dxx!AQ"; UserID := "005";
              UserEmail := "u@example.com"; UserFullName := "U";
              UserName := "u@example.com" |}
           {| Scheme := "https"; Host := "na1.salesforce.com" |});
    [apply world_lookup | reflexivity | vm_compute; reflexivity | reflexivity
    | reflexivity | vm_compute; reflexivity | discriminate
    | vm_compute; reflexivity | reflexivity | vm_compute; reflexivity].
Defined.

Section Rejected.
Context `{Library}.

Lemma httpRequest_rejected client method u body w err :
  http_NewRequest_check method u = Some err →
  httpRequest client method u body w = (Returns ("", Some err), w).
Proof.
  intros Hcheck. unfold httpRequest, http.NewRequestWithContext. run.
  by rewrite Hcheck.
Qed.

End Rejected.

(** X22.  A request the library refuses to build (a method that is no
    token, a URL it cannot parse) fails locally: [Query], [ExecuteAnonymous]
    and [ApexREST] on a logged-in client, and [LoginPassword], return the
    error of the library as it is, not joined and not a [SalesforceError], and
    leave the world as it was: nothing is sent. *)
Theorem rejected_request_fails_locally `{Library} `{Platform} (w : World)
    (client : addr) (c : Client) (err : error) :
  heap w !! client = Some c →
  (∀ method path requestBody,
     sessionID c ≠ "" →
     http_NewRequest_check method (instanceURL c +:+ "/" +:+ path) = Some err →
     ApexREST client method path requestBody w = (Returns (None, Some err), w))
  ∧ (∀ q,
       sessionID c ≠ "" →
       http_NewRequest_check "GET" (query_target c q) = Some err →
       Query client q w = (Returns (None, Some err), w))
  ∧ (∀ apexBody,
       sessionID c ≠ "" →
       http_NewRequest_check "GET" (executeAnonymous_target c apexBody)
       = Some err →
       ExecuteAnonymous client apexBody w = (Returns (None, Some err), w))
  ∧ (∀ username password token,
       http_NewRequest_check "POST"
         (baseURL c +:+ "/services/Soap/u/" +:+ apiVersion c) = Some err →
       LoginPassword client username password token w = (Returns (Some err), w)).
Proof.
  intros Hc. split; [|split; [|split]].
  - intros method path requestBody Hsid Hcheck.
    by rewrite (ApexREST_run _ _ _ _ _ _ Hc Hsid),
         (httpRequest_rejected _ _ _ _ _ _ Hcheck).
  - intros q Hsid Hcheck.
    by rewrite (Query_run _ _ _ _ Hc Hsid),
         (httpRequest_rejected _ _ _ _ _ _ Hcheck).
  - intros apexBody Hsid Hcheck.
    by rewrite (ExecuteAnonymous_run _ _ _ _ Hc Hsid),
         (httpRequest_rejected _ _ _ _ _ _ Hcheck).
  - intros username password token Hcheck.
    unfold LoginPassword, http.NewRequestWithContext, http_MethodPost. run.
    rewrite Hc. cbv zeta.
    replace (fmt.Sprintf "%s/services/Soap/u/%s" _)
      with (baseURL c +:+ "/services/Soap/u/" +:+ apiVersion c)
      by (simpl; by literals).
    by rewrite Hcheck.
Qed.

Lemma rejected_request_fails_locally_witness :
  ApexREST (H := golib) 1 "GET IT" "services/apexrest/x" None (world session)
  = (Returns (None, Some (libraryError "net/http: invalid method")), world session).
Proof.
  pose proof (rejected_request_fails_locally (H := golib)
                (H0 := goplatform (always 200 "{}")) (world session) 1 session
                (libraryError "net/http: invalid method") (world_lookup _))
    as [Hrest _].
  apply Hrest; [discriminate | vm_compute; reflexivity].
Defined.

(** ** No retry, and no write by the calls that only read *)

Section OneRequest.
Context `{Library} `{Platform}.

Lemma one_httpRequest client method u body :
  sends_at_most_one (httpRequest client method u body).
Proof.
  intros w.
  destruct (httpRequest_wire client method u body w) as (rs & -> & Hlen & _).
  destruct rs as [|r [|r' rs]]; [left; by rewrite app_nil_r | right; by exists r|].
  simpl in Hlen. lia.
Qed.

Lemma one_Query client q : sends_at_most_one (Query client q).
Proof.
  intros w. destruct (heap w !! client) as [c|] eqn:Hc.
  - destruct (decide (sessionID c = "")) as [Hsid|Hsid].
    + left. by rewrite (Query_logged_out _ _ _ _ Hc Hsid).
    + rewrite (Query_wire _ _ _ _ Hc Hsid). apply one_httpRequest.
  - left. unfold Query, isLoggedIn. run. by rewrite Hc.
Qed.

Lemma one_ExecuteAnonymous client apexBody :
  sends_at_most_one (ExecuteAnonymous client apexBody).
Proof.
  intros w. destruct (heap w !! client) as [c|] eqn:Hc.
  - destruct (decide (sessionID c = "")) as [Hsid|Hsid].
    + left. by rewrite (ExecuteAnonymous_logged_out _ _ _ _ Hc Hsid).
    + rewrite (ExecuteAnonymous_wire _ _ _ _ Hc Hsid). apply one_httpRequest.
  - left. unfold ExecuteAnonymous, isLoggedIn. run. by rewrite Hc.
Qed.

Lemma one_ApexREST client method path requestBody :
  sends_at_most_one (ApexREST client method path requestBody).
Proof.
  intros w. destruct (heap w !! client) as [c|] eqn:Hc.
  - destruct (decide (sessionID c = "")) as [Hsid|Hsid].
    + left. by rewrite (ApexREST_logged_out _ _ _ _ _ _ Hc Hsid).
    + rewrite (ApexREST_wire _ _ _ _ _ _ Hc Hsid). apply one_httpRequest.
  - left. unfold ApexREST, isLoggedIn. run. by rewrite Hc.
Qed.

Lemma one_LoginPassword client username password token :
  sends_at_most_one (LoginPassword client username password token).
Proof.
  intros w. destruct (heap w !! client) as [c|] eqn:Hc.
  2: { left. unfold LoginPassword. run. by rewrite Hc. }
  destruct (http_NewRequest_check "POST"
              (baseURL c +:+ "/services/Soap/u/" +:+ apiVersion c))
    as [err|] eqn:Hcheck.
  { left. unfold LoginPassword, http.NewRequestWithContext, http_MethodPost.
    run. rewrite Hc. cbv zeta.
    replace (fmt.Sprintf "%s/services/Soap/u/%s" _)
      with (baseURL c +:+ "/services/Soap/u/" +:+ apiVersion c)
      by (simpl; by literals).
    by rewrite Hcheck. }
  destruct (httpClient c) as [transport|] eqn:Ht.
  2: { left. unfold LoginPassword, http.NewRequestWithContext, http_MethodPost.
       run. rewrite Hc. cbv zeta.
       replace (fmt.Sprintf "%s/services/Soap/u/%s" _)
         with (baseURL c +:+ "/services/Soap/u/" +:+ apiVersion c)
         by (simpl; by literals).
       by rewrite Hcheck, Ht. }
  right. exists (loginRequest c username password token).
  rewrite (LoginPassword_exchange _ _ _ _ _ _ _ Hc Ht Hcheck). cbv zeta.
  destruct (transport _ _) as [[r|] [err|]]; try done.
  destruct (StatusCode r =? 200)%Z.
  - by destruct (xml_Unmarshal_loginResponse _).
  - by destruct (ParseSalesforceError _ _).
Qed.

Lemma one_DescribeGlobal client : sends_at_most_one (DescribeGlobal client).
Proof.
  intros w. destruct (heap w !! client) as [c|] eqn:Hc.
  2: { left. unfold DescribeGlobal. run. by rewrite Hc. }
  destruct (http_NewRequest_check "GET" (describe_target c)) as [err|] eqn:Hcheck.
  { left. unfold DescribeGlobal, http.NewRequestWithContext, http.MethodGet.
    run. rewrite Hc. cbv zeta.
    replace (fmt.Sprintf "%s%s" _) with (describe_target c)
      by (unfold describe_target; simpl; by literals).
    by rewrite Hcheck. }
  destruct (httpClient c) as [transport|] eqn:Ht.
  2: { left. unfold DescribeGlobal, http.NewRequestWithContext, http.MethodGet.
       run. rewrite Hc. cbv zeta.
       replace (fmt.Sprintf "%s%s" _) with (describe_target c)
         by (unfold describe_target; simpl; by literals).
       by rewrite Hcheck, Ht. }
  right. exists (plainRequest c (describe_target c)).
  rewrite (DescribeGlobal_exchange _ _ _ _ Hc Ht Hcheck). cbv zeta.
  destruct (transport _ _) as [[r|] [err|]]; try done.
  by destruct (json_Unmarshal_SObjectMeta _).
Qed.

Lemma one_download client apiPath filepath files :
  sends_at_most_one (download client apiPath filepath files).
Proof.
  intros w. destruct (heap w !! client) as [c|] eqn:Hc.
  2: { left. unfold download. run. by rewrite Hc. }
  destruct (http_NewRequest_check "GET" (download_target c apiPath))
    as [err|] eqn:Hcheck.
  { left. unfold download, http.NewRequestWithContext. run. rewrite Hc. cbv zeta.
    replace (fmt.Sprintf "%s%s" _) with (download_target c apiPath)
      by (unfold download_target; simpl; by literals).
    by rewrite Hcheck. }
  destruct (httpClient c) as [transport|] eqn:Ht.
  2: { left. unfold download, http.NewRequestWithContext. run. rewrite Hc.
       cbv zeta.
       replace (fmt.Sprintf "%s%s" _) with (download_target c apiPath)
         by (unfold download_target; simpl; by literals).
       by rewrite Hcheck, Ht. }
  right. exists (plainRequest c (download_target c apiPath)).
  rewrite (download_exchange _ _ _ _ _ _ _ Hc Ht Hcheck). cbv zeta.
  destruct (transport _ _) as [[r|] [err|]]; try done.
  destruct (_ || _); [done|].
  destruct (os_Create_check _ _); [done|].
  by destruct (file_Write _ _) as [[written err]|].
Qed.

End OneRequest.

(** X23.  No call is retried or followed by a second request: [Query],
    [ExecuteAnonymous], [ApexREST], [LoginPassword], [DescribeGlobal],
    [DownloadFile] and [DownloadAttachment] each put at most one request on the
    wire, whatever the transport answers, and never take one off it. *)
Theorem calls_send_at_most_one `{Library} `{Platform} (client : addr) :
  (∀ q, sends_at_most_one (Query client q))
  ∧ (∀ apexBody, sends_at_most_one (ExecuteAnonymous client apexBody))
  ∧ (∀ method path requestBody,
       sends_at_most_one (ApexREST client method path requestBody))
  ∧ (∀ username password token,
       sends_at_most_one (LoginPassword client username password token))
  ∧ sends_at_most_one (DescribeGlobal client)
  ∧ (∀ objectId filepath files,
       sends_at_most_one (DownloadFile client objectId filepath files)
       ∧ sends_at_most_one (DownloadAttachment client objectId filepath files)).
Proof.
  split; [apply one_Query|]. split; [apply one_ExecuteAnonymous|].
  split; [apply one_ApexREST|]. split; [apply one_LoginPassword|].
  split; [apply one_DescribeGlobal|].
  intros objectId filepath files. split; intros w.
  - destruct (heap w !! client) as [c|] eqn:Hc.
    + rewrite (DownloadFile_run _ _ _ _ _ _ Hc). apply one_download.
    + left. unfold DownloadFile. run. by rewrite Hc.
  - destruct (heap w !! client) as [c|] eqn:Hc.
    + rewrite (DownloadAttachment_run _ _ _ _ _ _ Hc). apply one_download.
    + left. unfold DownloadAttachment. run. by rewrite Hc.
Qed.

Section ReadOnly.
Context `{Library} `{Platform}.

Lemma preserves_Do (t : option Transport) (req : Request) :
  preserves_heap (Do t req).
Proof. intros w. unfold Do. by destruct t. Qed.

Lemma preserves_panic {A} (reason : string) : preserves_heap (panic (A := A) reason).
Proof. done. Qed.

End ReadOnly.

(** Splits a proof that a call writes to no client among its steps, the
    transport included. *)
Ltac reads_only :=
  repeat first
    [ apply preserves_ret
    | apply preserves_deref
    | apply preserves_Do
    | apply preserves_panic
    | apply preserves_bind
    | progress intros
    | match goal with
      | |- preserves_heap (let '(_, _) := ?p in _) => destruct p
      | |- preserves_heap (match ?x with _ => _ end) => destruct x
      | |- preserves_heap (if ?b then _ else _) => destruct b
      end ].

(** X24.  [DescribeGlobal], [DownloadFile] and [DownloadAttachment] write to
    no client: after any of them, whatever the transport and the file system
    answer, every client is as it was before the call. *)
Theorem reading_calls_write_no_client `{Library} `{Platform} (client : addr) :
  preserves_heap (DescribeGlobal client)
  ∧ (∀ objectId filepath files,
       preserves_heap (DownloadFile client objectId filepath files)
       ∧ preserves_heap (DownloadAttachment client objectId filepath files)).
Proof.
  split; [unfold DescribeGlobal; reads_only|].
  intros objectId filepath files. split.
  - unfold DownloadFile, download. reads_only.
  - unfold DownloadAttachment, download. reads_only.
Qed.

(** ** A result or an error, never both and never neither *)

Section ResultOrError.
Context `{Library} `{Platform}.

Lemma httpRequest_outcome client method u body w :
  (∃ reason, (httpRequest client method u body w).1 = Panics reason)
  ∨ (∃ data err, (httpRequest client method u body w).1
                 = Returns (data, Some err))
  ∨ (∃ data, (httpRequest client method u body w).1 = Returns (data, None)).
Proof.
  destruct (httpRequest client method u body w) as [[[data [err|]]|reason] w'];
    simpl; eauto.
Qed.

Lemma roe_Query client q : result_or_error (Query client q).
Proof.
  intros w. destruct (heap w !! client) as [c|] eqn:Hc.
  2: { left. unfold Query, isLoggedIn. run. rewrite Hc. by eexists. }
  destruct (decide (sessionID c = "")) as [Hsid|Hsid].
  { right. left. rewrite (Query_logged_out _ _ _ _ Hc Hsid). by eexists. }
  rewrite (Query_run _ _ _ _ Hc Hsid).
  destruct (httpRequest _ _ _ _ _) as [[[data [err|]]|reason] w']; simpl; eauto.
  destruct (json_Unmarshal_QueryResult data); simpl; eauto.
Qed.

Lemma roe_ExecuteAnonymous client apexBody :
  result_or_error (ExecuteAnonymous client apexBody).
Proof.
  intros w. destruct (heap w !! client) as [c|] eqn:Hc.
  2: { left. unfold ExecuteAnonymous, isLoggedIn. run. rewrite Hc. by eexists. }
  destruct (decide (sessionID c = "")) as [Hsid|Hsid].
  { right. left. rewrite (ExecuteAnonymous_logged_out _ _ _ _ Hc Hsid).
    by eexists. }
  rewrite (ExecuteAnonymous_run _ _ _ _ Hc Hsid).
  destruct (httpRequest _ _ _ _ _) as [[[data [err|]]|reason] w']; simpl; eauto.
  destruct (json_Unmarshal_ExecuteAnonymousResult data); simpl; eauto.
Qed.

Lemma roe_ApexREST client method path requestBody :
  result_or_error (ApexREST client method path requestBody).
Proof.
  intros w. destruct (heap w !! client) as [c|] eqn:Hc.
  2: { left. unfold ApexREST, isLoggedIn. run. rewrite Hc. by eexists. }
  destruct (decide (sessionID c = "")) as [Hsid|Hsid].
  { right. left. rewrite (ApexREST_logged_out _ _ _ _ _ _ Hc Hsid). by eexists. }
  rewrite (ApexREST_run _ _ _ _ _ _ Hc Hsid).
  destruct (httpRequest _ _ _ _ _) as [[[data [err|]]|reason] w']; simpl; eauto.
Qed.

Lemma roe_DescribeGlobal client : result_or_error (DescribeGlobal client).
Proof.
  intros w. destruct (heap w !! client) as [c|] eqn:Hc.
  2: { left. unfold DescribeGlobal. run. rewrite Hc. by eexists. }
  destruct (http_NewRequest_check "GET" (describe_target c)) as [err|] eqn:Hcheck.
  { right. left. exists err.
    unfold DescribeGlobal, http.NewRequestWithContext, http.MethodGet.
    run. rewrite Hc. cbv zeta.
    replace (fmt.Sprintf "%s%s" _) with (describe_target c)
      by (unfold describe_target; simpl; by literals).
    by rewrite Hcheck. }
  destruct (httpClient c) as [transport|] eqn:Ht.
  2: { left. exists nilDereference.
       unfold DescribeGlobal, http.NewRequestWithContext, http.MethodGet.
       run. rewrite Hc. cbv zeta.
       replace (fmt.Sprintf "%s%s" _) with (describe_target c)
         by (unfold describe_target; simpl; by literals).
       by rewrite Hcheck, Ht. }
  rewrite (DescribeGlobal_exchange _ _ _ _ Hc Ht Hcheck). cbv zeta.
  destruct (transport _ _) as [[r|] [err|]]; simpl; eauto.
  destruct (json_Unmarshal_SObjectMeta _); simpl; eauto.
Qed.

Lemma roe_NewClient url clientID' apiVersion' :
  result_or_error (NewClient url clientID' apiVersion').
Proof.
  intros w. unfold NewClient. destruct uhttp_NewClient as [http|err].
  2: { right. left. by exists err. }
  destruct (uhttp_NewBaseHttpClientWithContext http) as [transport|err].
  2: { right. left. by exists err. }
  right. right. unfold alloc. run. by eexists.
Qed.

End ResultOrError.

(** X25.  The calls that return a result and an error return exactly one of
    them: [Query], [ExecuteAnonymous], [ApexREST], [DescribeGlobal] and
    [NewClient] either panic, or return an error that is not [nil] and no
    result, or return a result and a [nil] error; none returns both, and none
    returns neither. *)
Theorem calls_return_result_or_error `{Library} `{Platform} (client : addr) :
  (∀ q, result_or_error (Query client q))
  ∧ (∀ apexBody, result_or_error (ExecuteAnonymous client apexBody))
  ∧ (∀ method path requestBody,
       result_or_error (ApexREST client method path requestBody))
  ∧ result_or_error (DescribeGlobal client)
  ∧ (∀ url clientID' apiVersion',
       result_or_error (NewClient url clientID' apiVersion')).
Proof.
  split; [apply roe_Query|]. split; [apply roe_ExecuteAnonymous|].
  split; [apply roe_ApexREST|]. split; [apply roe_DescribeGlobal|].
  apply roe_NewClient.
Qed.

(** ** The error of a failed status, at the caller *)

Section StatusError.
Context `{Library}.

Lemma ParseSalesforceError_code statusCode responseBody parsed :
  ParseSalesforceError statusCode responseBody = Returns parsed →
  ∃ e, parsed = salesforceError e ∧ HttpCode e = statusCode.
Proof.
  unfold ParseSalesforceError.
  destruct (json_Unmarshal_jsonError _) as [[|first rest]|jerr]; [done| |].
  - intros [= <-]. by eexists.
  - destruct (xml_Unmarshal_xmlError _); intros [= <-]; by eexists.
Qed.

Lemma Join_causes (t : option error) (e : error) :
  ∃ joined, errors.Join [t; Some e] = Some joined ∧ e ∈ errors.causes joined.
Proof.
  rewrite Join_two. eexists. split; [done|].
  destruct t as [t|]; simpl; destruct e; set_solver.
Qed.

Lemma httpRequest_failed_status client c transport method u body w r errHttp
    buf parsed :
  heap w !! client = Some c →
  httpClient c = Some transport →
  http_NewRequest_check method u = None →
  transport (wire w) (requestOf c method u body) = (Some r, errHttp) →
  failed r → Body r = (buf, None) →
  ParseSalesforceError (StatusCode r) buf = Returns parsed →
  httpRequest client method u body w
  = (Returns ("", errors.Join [errHttp; Some parsed]),
     {| heap := heap w; wire := wire w ++ [requestOf c method u body] |}).
Proof.
  intros Hc Ht Hcheck Hdo Hfailed Hbody Hparse.
  assert (parseUhttpError (Some r) errHttp
          = Returns (errors.Join [errHttp; Some parsed])) as Hrule.
  { unfold parseUhttpError.
    by rewrite (failed_status r Hfailed), Hbody, Hparse. }
  rewrite (httpRequest_exchange _ _ _ _ _ _ _ Hc Ht Hcheck). cbv zeta.
  rewrite Hdo. destruct errHttp as [err|].
  - by rewrite Hrule.
  - by rewrite (failed_status r Hfailed), Hrule.
Qed.

End StatusError.

(** X26.  The error of a failed status reaches the caller of [Query],
    [ExecuteAnonymous] and [ApexREST] with its status: when the transport
    answers the request with a status outside 200..299, with or without an
    error of its own, and the unifier makes an error of the body, the call
    returns no result and an error among whose causes is that
    [SalesforceError], with the status of the response as its [HttpCode]. *)
Theorem failed_status_reaches_caller `{Library} (w : World) (client : addr)
    (c : Client) (transport : Transport) (r : Response)
    (errHttp : option error) (buf : string) (parsed : error) :
  heap w !! client = Some c →
  sessionID c ≠ "" →
  httpClient c = Some transport →
  failed r → Body r = (buf, None) →
  ParseSalesforceError (StatusCode r) buf = Returns parsed →
  (∃ e, parsed = salesforceError e ∧ HttpCode e = StatusCode r)
  ∧ (∀ q,
       http_NewRequest_check "GET" (query_target c q) = None →
       transport (wire w) (requestOf c "GET" (query_target c q) None)
       = (Some r, errHttp) →
       ∃ joined, (Query client q w).1 = Returns (None, Some joined)
                 ∧ parsed ∈ errors.causes joined)
  ∧ (∀ apexBody,
       http_NewRequest_check "GET" (executeAnonymous_target c apexBody) = None →
       transport (wire w)
         (requestOf c "GET" (executeAnonymous_target c apexBody) None)
       = (Some r, errHttp) →
       ∃ joined, (ExecuteAnonymous client apexBody w).1
                 = Returns (None, Some joined)
                 ∧ parsed ∈ errors.causes joined)
  ∧ (∀ method path requestBody,
       http_NewRequest_check method (instanceURL c +:+ "/" +:+ path) = None →
       transport (wire w)
         (requestOf c method (instanceURL c +:+ "/" +:+ path) requestBody)
       = (Some r, errHttp) →
       ∃ joined, (ApexREST client method path requestBody w).1
                 = Returns (None, Some joined)
                 ∧ parsed ∈ errors.causes joined).
Proof.
  intros Hc Hsid Ht Hfailed Hbody Hparse.
  destruct (Join_causes errHttp parsed) as (joined & Hjoin & Hcause).
  split; [by apply (ParseSalesforceError_code _ buf)|].
  split; [|split].
  - intros q Hcheck Hdo. exists joined. split; [|done].
    rewrite (Query_run _ _ _ _ Hc Hsid). unfold http.MethodGet.
    rewrite (httpRequest_failed_status _ _ _ _ _ _ _ _ _ _ _
               Hc Ht Hcheck Hdo Hfailed Hbody Hparse).
    by rewrite Hjoin.
  - intros apexBody Hcheck Hdo. exists joined. split; [|done].
    rewrite (ExecuteAnonymous_run _ _ _ _ Hc Hsid). unfold http.MethodGet.
    rewrite (httpRequest_failed_status _ _ _ _ _ _ _ _ _ _ _
               Hc Ht Hcheck Hdo Hfailed Hbody Hparse).
    by rewrite Hjoin.
  - intros method path requestBody Hcheck Hdo. exists joined. split; [|done].
    rewrite (ApexREST_run _ _ _ _ _ _ Hc Hsid).
    rewrite (httpRequest_failed_status _ _ _ _ _ _ _ _ _ _ _
               Hc Ht Hcheck Hdo Hfailed Hbody Hparse).
    by rewrite Hjoin.
Qed.

Lemma failed_status_reaches_caller_witness :
  ∃ joined,
    (Query (H := golib) 1 soql (world (loggedIn (always 404 goneBody)))).1
    = Returns (None, Some joined)
    ∧ decodedError 404 "gone" "NOT_FOUND" ∈ errors.causes joined.
Proof.
  pose proof (failed_status_reaches_caller (H := golib)
                (world (loggedIn (always 404 goneBody))) 1
                (loggedIn (always 404 goneBody)) (always 404 goneBody)
                {| StatusCode := 404; Body := (goneBody, None) |} None goneBody
                (decodedError 404 "gone" "NOT_FOUND")
                (world_lookup _)) as Hcaller.
  destruct Hcaller as (_ & Hquery & _);
    [discriminate | reflexivity | unfold failed; simpl; lia | reflexivity
    | vm_compute; reflexivity |].
  apply Hquery; [vm_compute; reflexivity | reflexivity].
Defined.

(** ** An error of the transport; a client without a transport *)

Section BodyAndTransport.
Context `{Library}.

Lemma httpRequest_transport_error client c transport method u body w resp t :
  heap w !! client = Some c →
  httpClient c = Some transport →
  http_NewRequest_check method u = None →
  transport (wire w) (requestOf c method u body) = (resp, Some t) →
  httpRequest client method u body w
  = (match parseUhttpError resp (Some t) with
     | Returns e => Returns ("", e)
     | Panics reason => Panics reason
     end,
     {| heap := heap w; wire := wire w ++ [requestOf c method u body] |}).
Proof.
  intros Hc Ht Hcheck Hdo.
  rewrite (httpRequest_exchange _ _ _ _ _ _ _ Hc Ht Hcheck). cbv zeta.
  rewrite Hdo. destruct resp as [r|]; by destruct (parseUhttpError _ (Some t)).
Qed.

(** The error rule keeps the error of the transport: alone when there is no
    failed status, joined with what it makes of the response otherwise. *)
Lemma parseUhttpError_keeps (resp : option Response) (t : error)
    (e : option error) :
  parseUhttpError resp (Some t) = Returns e →
  ∃ joined, e = Some joined ∧ t ∈ errors.causes joined.
Proof.
  assert (t ∈ errors.causes t) as Hself by (destruct t; set_solver).
  assert (∀ e', ∃ joined, errors.Join [Some t; Some e'] = Some joined
                          ∧ t ∈ errors.causes joined) as Hjoin.
  { intros e'. rewrite Join_two. eexists. split; [done|].
    simpl. set_solver. }
  unfold parseUhttpError. destruct resp as [r|].
  - destruct ((StatusCode r <? 200) || (299 <? StatusCode r))%Z.
    + destruct (Body r) as [buf [readErr|]].
      * intros [= <-]. apply Hjoin.
      * destruct (ParseSalesforceError _ _); [|done].
        intros [= <-]. apply Hjoin.
    + intros [= <-]. by exists t.
  - intros [= <-]. by exists t.
Qed.

Lemma parseUhttpError_passes (resp : option Response) (t : error) :
  no_failed_status resp →
  parseUhttpError resp (Some t) = Returns (Some t).
Proof.
  intros Hok. unfold parseUhttpError. destruct resp as [r|]; [|done].
  by rewrite (proj2 (status_succeeded r) (Hok r eq_refl)).
Qed.

Lemma httpRequest_no_transport client c method u body w :
  heap w !! client = Some c →
  httpClient c = None →
  http_NewRequest_check method u = None →
  httpRequest client method u body w = (Panics nilDereference, w).
Proof.
  intros Hc Ht Hcheck. unfold httpRequest, http.NewRequestWithContext. run.
  rewrite Hcheck, Hc. simpl. by rewrite Ht.
Qed.

End BodyAndTransport.

(** X27.  An error of the transport always reaches the caller.  When [Do]
    returns an error for the request of [Query], [ExecuteAnonymous] or
    [ApexREST], whatever response comes with it, the call never returns a
    result: if it returns, it returns no result and an error among whose
    causes is the error of [Do]; nothing of the body is decoded as a result.
    When no response comes with the error, or one with a status in 200..299,
    the call returns the error of [Do] as it is. *)
Theorem transport_error_reaches_caller `{Library} (w : World) (client : addr)
    (c : Client) (transport : Transport) (resp : option Response) (t : error) :
  heap w !! client = Some c →
  sessionID c ≠ "" →
  httpClient c = Some transport →
  (∀ q,
     http_NewRequest_check "GET" (query_target c q) = None →
     transport (wire w) (requestOf c "GET" (query_target c q) None)
     = (resp, Some t) →
     (∀ res e, (Query client q w).1 = Returns (res, e) →
               res = None ∧ ∃ joined, e = Some joined ∧ t ∈ errors.causes joined)
     ∧ (no_failed_status resp →
        (Query client q w).1 = Returns (None, Some t)))
  ∧ (∀ apexBody,
       http_NewRequest_check "GET" (executeAnonymous_target c apexBody) = None →
       transport (wire w)
         (requestOf c "GET" (executeAnonymous_target c apexBody) None)
       = (resp, Some t) →
       (∀ res e, (ExecuteAnonymous client apexBody w).1 = Returns (res, e) →
                 res = None
                 ∧ ∃ joined, e = Some joined ∧ t ∈ errors.causes joined)
       ∧ (no_failed_status resp →
          (ExecuteAnonymous client apexBody w).1 = Returns (None, Some t)))
  ∧ (∀ method path requestBody,
       http_NewRequest_check method (instanceURL c +:+ "/" +:+ path) = None →
       transport (wire w)
         (requestOf c method (instanceURL c +:+ "/" +:+ path) requestBody)
       = (resp, Some t) →
       (∀ res e,
          (ApexREST client method path requestBody w).1 = Returns (res, e) →
          res = None ∧ ∃ joined, e = Some joined ∧ t ∈ errors.causes joined)
       ∧ (no_failed_status resp →
          (ApexREST client method path requestBody w).1
          = Returns (None, Some t))).
Proof.
  intros Hc Hsid Ht. split; [|split].
  - intros q Hcheck Hdo.
    rewrite (Query_run _ _ _ _ Hc Hsid). unfold http.MethodGet.
    rewrite (httpRequest_transport_error _ _ _ _ _ _ _ _ _ Hc Ht Hcheck Hdo).
    split.
    + intros res e.
      destruct (parseUhttpError resp (Some t)) as [e0|] eqn:Hrule; [|done].
      destruct (parseUhttpError_keeps _ _ _ Hrule) as (joined & -> & Hcause).
      intros [= <- <-]. split; [done|]. by exists joined.
    + intros Hok. by rewrite (parseUhttpError_passes _ _ Hok).
  - intros apexBody Hcheck Hdo.
    rewrite (ExecuteAnonymous_run _ _ _ _ Hc Hsid). unfold http.MethodGet.
    rewrite (httpRequest_transport_error _ _ _ _ _ _ _ _ _ Hc Ht Hcheck Hdo).
    split.
    + intros res e.
      destruct (parseUhttpError resp (Some t)) as [e0|] eqn:Hrule; [|done].
      destruct (parseUhttpError_keeps _ _ _ Hrule) as (joined & -> & Hcause).
      intros [= <- <-]. split; [done|]. by exists joined.
    + intros Hok. by rewrite (parseUhttpError_passes _ _ Hok).
  - intros method path requestBody Hcheck Hdo.
    rewrite (ApexREST_run _ _ _ _ _ _ Hc Hsid).
    rewrite (httpRequest_transport_error _ _ _ _ _ _ _ _ _ Hc Ht Hcheck Hdo).
    split.
    + intros res e.
      destruct (parseUhttpError resp (Some t)) as [e0|] eqn:Hrule; [|done].
      destruct (parseUhttpError_keeps _ _ _ Hrule) as (joined & -> & Hcause).
      intros [= <- <-]. split; [done|]. by exists joined.
    + intros Hok. by rewrite (parseUhttpError_passes _ _ Hok).
Qed.

Lemma transport_error_reaches_caller_witness :
  uhttp_contract unreachable
  ∧ (Query (H := golib) 1 soql (world (loggedIn unreachable))).1
    = Returns (None, Some connectionReset)
  ∧ uhttp_contract (uhttp_always 404 goneBody)
  ∧ (Query (H := golib) 1 soql (world (loggedIn (uhttp_always 404 goneBody)))).1
    = Returns (None, Some (joinError [uhttpStatusError;
                                      decodedError 404 "gone" "NOT_FOUND"]))
  ∧ (∃ joined,
       Some (joinError [uhttpStatusError; decodedError 404 "gone" "NOT_FOUND"])
       = Some joined
       ∧ uhttpStatusError ∈ errors.causes joined).
Proof.
  split; [by intros ??? [=]|].
  split.
  { destruct (transport_error_reaches_caller (H := golib)
                (world (loggedIn unreachable)) 1 (loggedIn unreachable)
                unreachable None connectionReset (world_lookup _))
      as (Hquery & _); [discriminate | reflexivity |].
    destruct (Hquery soql) as (_ & Hsame);
      [vm_compute; reflexivity | reflexivity |].
    apply Hsame. by intros r [=]. }
  split; [apply uhttp_always_contract|].
  assert ((Query (H := golib) 1 soql
             (world (loggedIn (uhttp_always 404 goneBody)))).1
          = Returns (None, Some (joinError [uhttpStatusError;
                                            decodedError 404 "gone" "NOT_FOUND"])))
    as Hrun by (vm_compute; reflexivity).
  split; [exact Hrun|].
  destruct (transport_error_reaches_caller (H := golib)
              (world (loggedIn (uhttp_always 404 goneBody))) 1
              (loggedIn (uhttp_always 404 goneBody)) (uhttp_always 404 goneBody)
              (Some {| StatusCode := 404; Body := (goneBody, None) |})
              uhttpStatusError (world_lookup _))
    as (Hquery & _); [discriminate | reflexivity |].
  destruct (Hquery soql) as (Hnever & _);
    [vm_compute; reflexivity | reflexivity |].
  by destruct (Hnever _ _ Hrun) as (_ & Hcause).
Defined.

(** X28.  [SetHttpClient] changes the transport and nothing else, and sends
    nothing.  After [SetHttpClient(nil)] a logged-in client panics with a nil
    dereference at its next [Query], [ExecuteAnonymous] or [ApexREST], once the
    request is built and before anything is sent; a client that is logged out
    still fails with [ErrAuthentication] first. *)
Theorem SetHttpClient_nil_panics `{Library} (w : World) (client : addr)
    (c : Client) :
  heap w !! client = Some c →
  ∃ w1,
    SetHttpClient client None w = (Returns (), w1)
    ∧ wire w1 = wire w
    ∧ heap w1 = <[client := with_httpClient c None]> (heap w)
    ∧ (sessionID c = "" →
       ∀ q, Query client q w1 = (Returns (None, Some ErrAuthentication), w1))
    ∧ (sessionID c ≠ "" →
       (∀ q, http_NewRequest_check "GET" (query_target c q) = None →
             Query client q w1 = (Panics nilDereference, w1))
       ∧ (∀ apexBody,
            http_NewRequest_check "GET" (executeAnonymous_target c apexBody)
            = None →
            ExecuteAnonymous client apexBody w1 = (Panics nilDereference, w1))
       ∧ (∀ method path requestBody,
            http_NewRequest_check method (instanceURL c +:+ "/" +:+ path) = None →
            ApexREST client method path requestBody w1
            = (Panics nilDereference, w1))).
Proof.
  intros Hc. rewrite (SetHttpClient_run _ _ _ _ Hc). eexists.
  split; [done|]. split; [done|]. split; [done|].
  set (w1 := {| heap := _; wire := _ |}).
  assert (heap w1 !! client = Some (with_httpClient c None)) as Hc1
    by apply lookup_insert_eq.
  split.
  - intros Hsid q. by apply (Query_logged_out _ _ _ _ Hc1).
  - intros Hsid. split; [|split].
    + intros q Hcheck. rewrite (Query_run _ _ _ _ Hc1 Hsid).
      by rewrite (httpRequest_no_transport _ _ _ _ _ _ Hc1 eq_refl Hcheck).
    + intros apexBody Hcheck. rewrite (ExecuteAnonymous_run _ _ _ _ Hc1 Hsid).
      by rewrite (httpRequest_no_transport _ _ _ _ _ _ Hc1 eq_refl Hcheck).
    + intros method path requestBody Hcheck.
      rewrite (ApexREST_run _ _ _ _ _ _ Hc1 Hsid).
      by rewrite (httpRequest_no_transport _ _ _ _ _ _ Hc1 eq_refl Hcheck).
Qed.

Lemma SetHttpClient_nil_panics_witness :
  ∃ w1,
    SetHttpClient 1 None (world session) = (Returns (), w1)
    ∧ Query (H := golib) 1 soql w1 = (Panics nilDereference, w1).
Proof.
  destruct (SetHttpClient_nil_panics (H := golib) (world session) 1 session
              (world_lookup _)) as (w1 & Hrun & _ & _ & _ & Hpanic).
  exists w1. split; [done|].
  destruct Hpanic as (Hquery & _); [discriminate|].
  apply Hquery. vm_compute. reflexivity.
Defined.
